(** * steam_community_market: sanitisers, type validator, price parser, facade

    A shallow embedding of [currencies.py], [decorators.py] and [market.py].

    Conventions of the embedding.
    - Python text is a [str], a sequence of Unicode code points; a code point
      is a [char].  A literal of this file is read as UTF-8, one [char] for
      each code point it encodes.  The digit class [\d] of a text pattern,
      and the digits that [int] and [float] read, are the decimal digits of
      Unicode 15.0, the version Python 3.12 carries.
    - A Python object is an [obj]; the classes the code dispatches on with
      [isinstance] are the constructors of [obj].
    - A function that can raise returns an [outcome]; the facade, which talks
      to the remote endpoint, runs in the monad [M], which threads the list of
      requests issued so far.
    - A Python [float] is a binary64 number, a [spec_float] of the standard
      library; [float(...)] of a decimal literal is the binary64 number
      nearest to the number the literal denotes, ties to even.
    - Enum membership ([value in LegacyCurrency]) follows Python 3.12, where
      a plain value is a member when some member carries it.
    - [decorators.py] names the two currency enums [Currency] and
      [LegacyCurrency]; they are the [SteamCurrency] and
      [SteamLegacyCurrency] of [currencies.py]. *)

From Stdlib Require Import ZArith NArith QArith List Bool Lia SpecFloat.
From Stdlib.Strings Require Import Byte.
Import ListNotations.

Local Open Scope list_scope.
Local Open Scope Z_scope.

(** ** Text *)

(** A code point, known by its number ([ord]). *)
Inductive char : Set := Chr (code : N).

Definition ord (c : char) : N := match c with Chr code => code end.

Inductive str : Set :=
| EmptyStr
| Str (c : char) (s : str).

Definition char_eqb (a b : char) : bool := N.eqb (ord a) (ord b).

(** [a == b] *)
Fixpoint str_eqb (a b : str) : bool :=
  match a, b with
  | EmptyStr, EmptyStr => true
  | Str x a', Str y b' => char_eqb x y && str_eqb a' b'
  | _, _ => false
  end.

(** [len(s)] *)
Fixpoint str_length (s : str) : nat :=
  match s with
  | EmptyStr => O
  | Str _ s' => S (str_length s')
  end.

(** [a + b] *)
Fixpoint append (a b : str) : str :=
  match a with
  | EmptyStr => b
  | Str c a' => Str c (append a' b)
  end.

(** *** Literals

    The text between double quotes is decoded from UTF-8. *)

Definition utf8_tail (b : Byte.byte) : option N :=
  let n := Byte.to_N b in
  if ((128 <=? n) && (n <? 192))%N then Some (n - 128)%N else None.

Fixpoint utf8_decode (bs : list Byte.byte) : option str :=
  match bs with
  | [] => Some EmptyStr
  | b0 :: bs1 =>
      let n0 := Byte.to_N b0 in
      if (n0 <? 128)%N then option_map (Str (Chr n0)) (utf8_decode bs1)
      else if (n0 <? 192)%N then None
      else if (n0 <? 224)%N then
        match bs1 with
        | b1 :: bs2 =>
            match utf8_tail b1 with
            | Some n1 =>
                option_map (Str (Chr ((n0 - 192) * 64 + n1)%N))
                  (utf8_decode bs2)
            | None => None
            end
        | _ => None
        end
      else if (n0 <? 240)%N then
        match bs1 with
        | b1 :: b2 :: bs3 =>
            match utf8_tail b1, utf8_tail b2 with
            | Some n1, Some n2 =>
                option_map
                  (Str (Chr (((n0 - 224) * 64 + n1) * 64 + n2)%N))
                  (utf8_decode bs3)
            | _, _ => None
            end
        | _ => None
        end
      else if (n0 <? 248)%N then
        match bs1 with
        | b1 :: b2 :: b3 :: bs4 =>
            match utf8_tail b1, utf8_tail b2, utf8_tail b3 with
            | Some n1, Some n2, Some n3 =>
                option_map
                  (Str (Chr ((((n0 - 240) * 64 + n1) * 64 + n2) * 64 + n3)%N))
                  (utf8_decode bs4)
            | _, _, _ => None
            end
        | _ => None
        end
      else None
  end.

Definition utf8_encode_char (c : char) : list N :=
  let n := ord c in
  (if n <? 128 then [n]
   else if n <? 2048 then [192 + n / 64; 128 + n mod 64]
   else if n <? 65536 then
     [224 + n / 4096; 128 + (n / 64) mod 64; 128 + n mod 64]
   else
     [240 + n / 262144; 128 + (n / 4096) mod 64; 128 + (n / 64) mod 64;
      128 + n mod 64])%N.

Fixpoint utf8_codes (s : str) : list N :=
  match s with
  | EmptyStr => []
  | Str c s' => utf8_encode_char c ++ utf8_codes s'
  end.

Definition utf8_bytes (codes : list N) : option (list Byte.byte) :=
  fold_right
    (fun n acc =>
       match Byte.of_N n, acc with
       | Some b, Some bs => Some (b :: bs)
       | _, _ => None
       end)
    (Some []) codes.

Definition utf8_encode (s : str) : option (list Byte.byte) :=
  utf8_bytes (utf8_codes s).

Definition char_of_utf8 (bs : list Byte.byte) : option char :=
  match utf8_decode bs with
  | Some (Str c EmptyStr) => Some c
  | _ => None
  end.

Definition utf8_of_char (c : char) : option (list Byte.byte) :=
  utf8_bytes (utf8_encode_char c).

Declare Scope chr_scope.
Delimit Scope chr_scope with chr.
Bind Scope chr_scope with char.
Declare Scope str_scope.
Delimit Scope str_scope with str.
Bind Scope str_scope with str.

String Notation char char_of_utf8 utf8_of_char : chr_scope.
String Notation str utf8_decode utf8_encode : str_scope.

Arguments Str c%_chr s%_str.

Infix "++" := append (right associativity, at level 60) : str_scope.

Local Open Scope str_scope.

(** *** Digits and white space *)

(** The zeros of the runs of decimal digits of Unicode 15.0 (general category
    Nd); the digits 1 to 9 of a run follow its zero. *)
Definition decimal_zeros : list N :=
  [ 0x30; 0x660; 0x6f0; 0x7c0; 0x966; 0x9e6; 0xa66; 0xae6; 0xb66; 0xbe6;
    0xc66; 0xce6; 0xd66; 0xde6; 0xe50; 0xed0; 0xf20; 0x1040; 0x1090;
    0x17e0; 0x1810; 0x1946; 0x19d0; 0x1a80; 0x1a90; 0x1b50; 0x1bb0; 0x1c40;
    0x1c50; 0xa620; 0xa8d0; 0xa900; 0xa9d0; 0xa9f0; 0xaa50; 0xabf0; 0xff10;
    0x104a0; 0x10d30; 0x11066; 0x110f0; 0x11136; 0x111d0; 0x112f0; 0x11450;
    0x114d0; 0x11650; 0x116c0; 0x11730; 0x118e0; 0x11950; 0x11c50; 0x11d50;
    0x11da0; 0x11f50; 0x16a60; 0x16ac0; 0x16b50; 0x1d7ce; 0x1d7d8; 0x1d7e2;
    0x1d7ec; 0x1d7f6; 0x1e140; 0x1e2f0; 0x1e4f0; 0x1e950; 0x1fbf0 ]%N.

(** The value of a decimal digit, for a code point that is one. *)
Definition decimal (c : char) : option Z :=
  match find (fun zero => (zero <=? ord c) && (ord c <=? zero + 9))%N
             decimal_zeros with
  | Some zero => Some (Z.of_N (ord c - zero))
  | None => None
  end.

(** [\d] *)
Definition is_digit (c : char) : bool :=
  match decimal c with Some _ => true | None => false end.

Definition digit_value (c : char) : Z :=
  match decimal c with Some d => d | None => 0 end.

Fixpoint all_digits (s : str) : bool :=
  match s with
  | EmptyStr => true
  | Str c s' => is_digit c && all_digits s'
  end.

Fixpoint has_digit (s : str) : bool :=
  match s with
  | EmptyStr => false
  | Str c s' => is_digit c || has_digit s'
  end.

(** The number written by a run of decimal digits, most significant first. *)
Fixpoint digits_to_Z (acc : Z) (s : str) : Z :=
  match s with
  | EmptyStr => acc
  | Str c s' => digits_to_Z (acc * 10 + digit_value c) s'
  end.

(** [s.replace(old, new)] for a one-character [old]. *)
Fixpoint replace (old : char) (new : str) (s : str) : str :=
  match s with
  | EmptyStr => EmptyStr
  | Str c s' =>
      if char_eqb c old then new ++ replace old new s'
      else Str c (replace old new s')
  end.

(** Iterating over a [str] yields its one-character texts, one for each code
    point. *)
Fixpoint chars (s : str) : list str :=
  match s with
  | EmptyStr => []
  | Str c s' => Str c EmptyStr :: chars s'
  end.

(** Upper case of the letters a to z, which is all the names of the
    currencies need. *)
Definition upper_char (c : char) : char :=
  let n := ord c in
  if ((97 <=? n) && (n <=? 122))%N then Chr (n - 32) else c.

Fixpoint upper (s : str) : str :=
  match s with
  | EmptyStr => EmptyStr
  | Str c s' => Str (upper_char c) (upper s')
  end.

(** The white space that [int] allows around a number: tab to carriage
    return and the space, and the white space beyond ASCII. *)
Definition whitespace : list N :=
  [ 9; 10; 11; 12; 13; 32; 0x85; 0xa0; 0x1680; 0x2000; 0x2001; 0x2002;
    0x2003; 0x2004; 0x2005; 0x2006; 0x2007; 0x2008; 0x2009; 0x200a; 0x2028;
    0x2029; 0x202f; 0x205f; 0x3000 ]%N.

Definition is_space (c : char) : bool := existsb (N.eqb (ord c)) whitespace.

Fixpoint lstrip (s : str) : str :=
  match s with
  | EmptyStr => EmptyStr
  | Str c s' => if is_space c then lstrip s' else s
  end.

Fixpoint rstrip (s : str) : str :=
  match s with
  | EmptyStr => EmptyStr
  | Str c s' =>
      match rstrip s' with
      | EmptyStr => if is_space c then EmptyStr else Str c EmptyStr
      | r => Str c r
      end
  end.

Definition strip (s : str) : str := rstrip (lstrip s).

Fixpoint mem_string (x : str) (l : list str) : bool :=
  match l with
  | [] => false
  | y :: l' => str_eqb x y || mem_string x l'
  end.

(** ** Floating point *)

(** The binary64 number nearest to a rational, ties to even: the quotient of
    the numerator by the denominator, rounded once. *)
Definition binary64 (q : Q) : spec_float :=
  let d := S754_finite false (Qden q) 0 in
  match Qnum q with
  | Z0 => S754_zero false
  | Zpos n => SFdiv 53 1024 (S754_finite false n 0) d
  | Zneg n => SFdiv 53 1024 (S754_finite true n 0) d
  end.

(** The rational a finite binary64 number is. *)
Definition float_value (x : spec_float) : option Q :=
  match x with
  | S754_zero _ => Some 0%Q
  | S754_finite s m e =>
      let n := if s then Zneg m else Zpos m in
      Some (match e with
            | Zneg k => Qmake n (2 ^ k)
            | _ => inject_Z (n * 2 ^ e)
            end)
  | _ => None
  end.

(** ** The price pattern

    [_price_to_float] searches its argument for the pattern
      group 1:  \d{1,3} followed by any number of  [.,]\d{3}
      then, optionally, [.,] followed by group 2:  \d{2}

    Every quantifier of the pattern is greedy and whatever follows it can
    match the empty str, so the first greedy choice is never undone: an
    attempt at a position succeeds exactly when a digit stands there. *)

Definition is_separator (c : char) : bool :=
  char_eqb c "." || char_eqb c ",".

(** [\d{1,n}], greedy: the digits taken and the rest. *)
Fixpoint take_digits (n : nat) (s : str) : str * str :=
  match n, s with
  | S n', Str c s' =>
      if is_digit c
      then let (d, r) := take_digits n' s' in (Str c d, r)
      else (EmptyStr, s)
  | _, _ => (EmptyStr, s)
  end.

(** [(?:[.,]\d{3})*], greedy: the text of the groups taken and the rest. *)
Fixpoint take_groups (s : str) : str * str :=
  match s with
  | Str c (Str d1 (Str d2 (Str d3 s'))) =>
      if is_separator c && is_digit d1 && is_digit d2 && is_digit d3
      then let (g, r) := take_groups s' in
           (Str c (Str d1 (Str d2 (Str d3 g))), r)
      else (EmptyStr, s)
  | _ => (EmptyStr, s)
  end.

(** [(?:[.,](\d{2}))?], greedy: group 2 when it takes part, and the rest. *)
Definition take_cents (s : str) : option str * str :=
  match s with
  | Str c (Str d1 (Str d2 s')) =>
      if is_separator c && is_digit d1 && is_digit d2
      then (Some (Str d1 (Str d2 EmptyStr)), s')
      else (None, s)
  | _ => (None, s)
  end.

(** One attempt, anchored at the head of [s]: groups 1 and 2 of the match. *)
Definition price_match_here (s : str) : option (str * option str) :=
  let (lead, r1) := take_digits 3 s in
  match lead with
  | EmptyStr => None
  | _ =>
      let (groups, r2) := take_groups r1 in
      let (cents, _) := take_cents r2 in
      Some (lead ++ groups, cents)
  end.

(** [re.search]: the attempt at the leftmost position that succeeds. *)
Fixpoint price_search (s : str) : option (str * option str) :=
  match price_match_here s with
  | Some m => Some m
  | None =>
      match s with
      | EmptyStr => None
      | Str _ s' => price_search s'
      end
  end.

(** ** Canonical enumerations ([currencies.py]) *)

Module SteamCurrency.

Inductive t : Set :=
| USD | GBP | EUR | CHF | RUB | PLN | BRL | JPY | NOK | IDR
| MYR | PHP | SGD | THB | VND | KRW | TRY | UAH | MXN | CAD
| AUD | NZD | CNY | INR | CLP | PEN | COP | ZAR | HKD | TWD
| SAR | AED | SEK | ARS | ILS | BYN | KZT | KWD | QAR | CRC
| UYU | BGN | HRK | CZK | DKK | HUF | RON.

Definition members : list t :=
  [ USD; GBP; EUR; CHF; RUB; PLN; BRL; JPY; NOK; IDR;
    MYR; PHP; SGD; THB; VND; KRW; TRY; UAH; MXN; CAD;
    AUD; NZD; CNY; INR; CLP; PEN; COP; ZAR; HKD; TWD;
    SAR; AED; SEK; ARS; ILS; BYN; KZT; KWD; QAR; CRC;
    UYU; BGN; HRK; CZK; DKK; HUF; RON ].

Definition value (c : t) : Z :=
  match c with
  | USD => 1 | GBP => 2 | EUR => 3 | CHF => 4 | RUB => 5
  | PLN => 6 | BRL => 7 | JPY => 8 | NOK => 9 | IDR => 10
  | MYR => 11 | PHP => 12 | SGD => 13 | THB => 14 | VND => 15
  | KRW => 16 | TRY => 17 | UAH => 18 | MXN => 19 | CAD => 20
  | AUD => 21 | NZD => 22 | CNY => 23 | INR => 24 | CLP => 25
  | PEN => 26 | COP => 27 | ZAR => 28 | HKD => 29 | TWD => 30
  | SAR => 31 | AED => 32 | SEK => 33 | ARS => 34 | ILS => 35
  | BYN => 36 | KZT => 37 | KWD => 38 | QAR => 39 | CRC => 40
  | UYU => 41 | BGN => 42 | HRK => 43 | CZK => 44 | DKK => 45
  | HUF => 46 | RON => 47
  end.

Definition name (c : t) : str :=
  match c with
  | USD => "USD" | GBP => "GBP" | EUR => "EUR" | CHF => "CHF" | RUB => "RUB"
  | PLN => "PLN" | BRL => "BRL" | JPY => "JPY" | NOK => "NOK" | IDR => "IDR"
  | MYR => "MYR" | PHP => "PHP" | SGD => "SGD" | THB => "THB" | VND => "VND"
  | KRW => "KRW" | TRY => "TRY" | UAH => "UAH" | MXN => "MXN" | CAD => "CAD"
  | AUD => "AUD" | NZD => "NZD" | CNY => "CNY" | INR => "INR" | CLP => "CLP"
  | PEN => "PEN" | COP => "COP" | ZAR => "ZAR" | HKD => "HKD" | TWD => "TWD"
  | SAR => "SAR" | AED => "AED" | SEK => "SEK" | ARS => "ARS" | ILS => "ILS"
  | BYN => "BYN" | KZT => "KZT" | KWD => "KWD" | QAR => "QAR" | CRC => "CRC"
  | UYU => "UYU" | BGN => "BGN" | HRK => "HRK" | CZK => "CZK" | DKK => "DKK"
  | HUF => "HUF" | RON => "RON"
  end.

(** [SteamCurrency(n)]: the member that carries [n], if any. *)
Definition of_value (n : Z) : option t :=
  find (fun c => Z.eqb (value c) n) members.

(** Modelled from the spec: [from_string] is not in [currencies.py]; the
    spec gives lookup by name as a case-insensitive exact match that answers
    "not found" otherwise. *)
Definition from_string (s : str) : option t :=
  find (fun c => str_eqb (name c) (upper s)) members.

End SteamCurrency.

Module SteamLegacyCurrency.

Inductive t : Set :=
| SEK | BYN | BGN | HRK | CZK | DKK | HUF | RON.

Definition members : list t := [ SEK; BYN; BGN; HRK; CZK; DKK; HUF; RON ].

Definition value (c : t) : Z :=
  match c with
  | SEK => 33 | BYN => 36 | BGN => 42 | HRK => 43
  | CZK => 44 | DKK => 45 | HUF => 46 | RON => 47
  end.

Definition name (c : t) : str :=
  match c with
  | SEK => "SEK" | BYN => "BYN" | BGN => "BGN" | HRK => "HRK"
  | CZK => "CZK" | DKK => "DKK" | HUF => "HUF" | RON => "RON"
  end.

Definition of_value (n : Z) : option t :=
  find (fun c => Z.eqb (value c) n) members.

(** Modelled from the spec: [from_string] is not in [currencies.py]; lookup
    by name, case-insensitive exact match. *)
Definition from_string (s : str) : option t :=
  find (fun c => str_eqb (name c) (upper s)) members.

End SteamLegacyCurrency.

(** ** Python objects *)

(** Modelled from the spec: [enums.py] is not part of the sources.  An
    [AppID] member is known by the integer it carries (the spec has the
    application identifier as an enumerated positive integer that is coerced
    to a plain integer), a [SteamLanguage] member by its canonical name. *)
#[warnings="-register-all"]
Inductive obj : Type :=
| VNone
| VBool (b : bool)
| VInt (n : Z)
| VFloat (x : spec_float)
| VStr (s : str)
| VCurrency (c : SteamCurrency.t)
| VLegacyCurrency (c : SteamLegacyCurrency.t)
| VAppID (code : Z)
| VLanguage (name : str)
| VList (items : list obj)
| VTuple (items : list obj)
| VSet (items : list obj)
| VDict (entries : list (obj * obj)).

Inductive exn : Type :=
| TypeError
| ValueError
| KeyError
| IndexError
| OverflowError
| AttributeError
| LegacyCurrencyException (v : obj)
| InvalidCurrencyException (v : obj)
| InvalidLanguageException (v : obj)
| InvalidItemOrAppIDException
| TooManyRequestsException.

Inductive outcome (A : Type) : Type :=
| Ok (a : A)
| Raise (e : exn).

Arguments Ok {A} a.
Arguments Raise {A} e.

Definition bind {A B : Type} (r : outcome A) (k : A -> outcome B) : outcome B :=
  match r with
  | Ok a => k a
  | Raise e => Raise e
  end.

Notation "x <- e ;; k" := (bind e (fun x => k))
  (at level 61, e at next level, right associativity).

Section Iteration.
Context {A B : Type}.

Section Comprehension.
Variable f : A -> outcome B.

(** [[f(x) for x in l]] *)
Fixpoint map_r (l : list A) : outcome (list B) :=
  match l with
  | [] => Ok []
  | x :: l' => y <- f x ;; ys <- map_r l' ;; Ok (y :: ys)
  end.

End Comprehension.

Section Quantifiers.
Variable f : A -> outcome bool.

(** [all(f(x) for x in l)] *)
Fixpoint all_r (l : list A) : outcome bool :=
  match l with
  | [] => Ok true
  | x :: l' => b <- f x ;; if b then all_r l' else Ok false
  end.

(** [any(f(x) for x in l)] *)
Fixpoint any_r (l : list A) : outcome bool :=
  match l with
  | [] => Ok false
  | x :: l' => b <- f x ;; if b then Ok true else any_r l'
  end.

End Quantifiers.
End Iteration.

(** The classes that occur in annotations and [isinstance] tests. *)
Inductive pyclass : Set :=
| C_NoneType | C_bool | C_int | C_float | C_str
| C_list | C_tuple | C_set | C_dict
| C_SteamCurrency | C_SteamLegacyCurrency | C_AppID | C_SteamLanguage.

(** [isinstance(v, c)].  [bool] is a subclass of [int]; the members of an
    [IntEnum] are instances of [int]. *)
Definition isinstance (v : obj) (c : pyclass) : bool :=
  match c, v with
  | C_NoneType, VNone => true
  | C_bool, VBool _ => true
  | C_int, (VBool _ | VInt _ | VCurrency _ | VLegacyCurrency _ | VAppID _) => true
  | C_float, VFloat _ => true
  | C_str, VStr _ => true
  | C_list, VList _ => true
  | C_tuple, VTuple _ => true
  | C_set, VSet _ => true
  | C_dict, VDict _ => true
  | C_SteamCurrency, VCurrency _ => true
  | C_SteamLegacyCurrency, VLegacyCurrency _ => true
  | C_AppID, VAppID _ => true
  | C_SteamLanguage, VLanguage _ => true
  | _, _ => false
  end.

(** The integer an [int] instance carries. *)
Definition int_value (v : obj) : option Z :=
  match v with
  | VBool b => Some (if b then 1 else 0)
  | VInt n => Some n
  | VCurrency c => Some (SteamCurrency.value c)
  | VLegacyCurrency c => Some (SteamLegacyCurrency.value c)
  | VAppID n => Some n
  | _ => None
  end.

(** Truth value of an object, as [if v:] and [v or w] test it. *)
Definition truthy (v : obj) : bool :=
  match v with
  | VNone => false
  | VBool b => b
  | VFloat x => match x with S754_zero _ => false | _ => true end
  | VStr s => negb (str_eqb s "")
  | VLanguage _ => true
  | VList l | VTuple l | VSet l => negb (Nat.eqb (List.length l) 0)
  | VDict d => negb (Nat.eqb (List.length d) 0)
  | VInt _ | VCurrency _ | VLegacyCurrency _ | VAppID _ =>
      match int_value v with Some n => negb (Z.eqb n 0) | None => true end
  end.

(** [a or b] *)
Definition py_or (a b : obj) : obj := if truthy a then a else b.

(** [for x in v]: the elements an iteration over [v] yields. *)
Definition py_iter (v : obj) : outcome (list obj) :=
  match v with
  | VStr s => Ok (map VStr (chars s))
  | VList l | VTuple l | VSet l => Ok l
  | VDict d => Ok (map fst d)
  | _ => Raise TypeError
  end.

(** [len(v)] *)
Definition py_len (v : obj) : outcome nat :=
  match v with
  | VStr s => Ok (str_length s)
  | VList l | VTuple l | VSet l => Ok (List.length l)
  | VDict d => Ok (List.length d)
  | _ => Raise TypeError
  end.

(** [v.items()] *)
Definition py_items (v : obj) : outcome (list (obj * obj)) :=
  match v with
  | VDict d => Ok d
  | _ => Raise AttributeError
  end.

(** [v.replace(old, new)] for a one-character [old]. *)
Definition py_replace (v : obj) (old : char) (new : str) : outcome obj :=
  match v with
  | VStr s => Ok (VStr (replace old new s))
  | _ => Raise AttributeError
  end.

(** Decimal digits with single underscores between them, as [int(str)]
    reads them. *)
Fixpoint int_digits (acc : Z) (after_digit : bool) (s : str) : option Z :=
  match s with
  | EmptyStr => if after_digit then Some acc else None
  | Str c s' =>
      if is_digit c then int_digits (acc * 10 + digit_value c) true s'
      else if char_eqb c "_" && after_digit then int_digits acc false s'
      else None
  end.

(** [int(s)] for a [str]: surrounding white space, an optional sign, digits. *)
Definition int_of_string (s : str) : outcome Z :=
  let body := strip s in
  let (negative, ds) :=
    match body with
    | Str c r =>
        if char_eqb c "-" then (true, r)
        else if char_eqb c "+" then (false, r)
        else (false, body)
    | EmptyStr => (false, body)
    end in
  match int_digits 0 false ds with
  | Some n => Ok (if negative then - n else n)
  | None => Raise ValueError
  end.

(** [int(x)] for a [float]: the integer part, towards zero; an infinity and
    a NaN have none. *)
Definition int_of_float (x : spec_float) : outcome Z :=
  match x with
  | S754_zero _ => Ok 0
  | S754_finite s m e =>
      let n := Z.shiftl (Zpos m) e in Ok (if s then - n else n)
  | S754_infinity _ => Raise OverflowError
  | S754_nan => Raise ValueError
  end.

(** [int(v)] *)
Definition py_int (v : obj) : outcome Z :=
  match v with
  | VStr s => int_of_string s
  | VFloat x => int_of_float x
  | _ => match int_value v with Some n => Ok n | None => Raise TypeError end
  end.

(** The text before the first ["."] and the text after it. *)
Fixpoint split_point (s : str) : str * option str :=
  match s with
  | EmptyStr => (EmptyStr, None)
  | Str c s' =>
      if char_eqb c "." then (EmptyStr, Some s')
      else let (i, f) := split_point s' in (Str c i, f)
  end.

(** [float(s)] on plain decimal literals (digits, a point, digits), which is
    what [_price_to_float] builds; signs, exponents, [inf] and [nan] are not
    part of the model and are answered like any other malformed text.  The
    value is the binary64 number nearest to the number the literal denotes. *)
Definition py_float (s : str) : outcome spec_float :=
  let (i, f) := split_point s in
  let frac := match f with Some d => d | None => EmptyStr end in
  if all_digits i && all_digits frac
     && negb (str_eqb i "" && str_eqb frac "")
  then
    let scale := Z.to_pos (10 ^ Z.of_nat (str_length frac)) in
    Ok (binary64 (Qmake (digits_to_Z (digits_to_Z 0 i) frac) scale))
  else Raise ValueError.

(** ** Dictionaries

    A [dict] keeps its entries in insertion order; assigning to a key that is
    present replaces the value in place.  Keys are compared as Python
    compares hashable objects: numbers by value, text by content.  Two NaN
    are taken for two objects, which no comparison makes equal. *)

Definition number_value (v : obj) : option Q :=
  match v with
  | VFloat x => float_value x
  | _ => match int_value v with Some n => Some (inject_Z n) | None => None end
  end.

Fixpoint hashable (v : obj) : bool :=
  match v with
  | VList _ | VSet _ | VDict _ => false
  | VTuple l => forallb hashable l
  | _ => true
  end.

Fixpoint key_eq (a b : obj) : bool :=
  match number_value a, number_value b with
  | Some x, Some y => Qeq_bool x y
  | None, None =>
      match a, b with
      | VNone, VNone => true
      | VStr s, VStr t => str_eqb s t
      | VLanguage s, VLanguage t => str_eqb s t
      | VFloat (S754_infinity s), VFloat (S754_infinity t) => Bool.eqb s t
      | VTuple l, VTuple m =>
          (fix go (l : list obj) (m : list obj) : bool :=
             match l, m with
             | [], [] => true
             | x :: l', y :: m' => key_eq x y && go l' m'
             | _, _ => false
             end) l m
      | _, _ => false
      end
  | _, _ => false
  end.

Fixpoint dict_update (d : list (obj * obj)) (k v : obj)
  : list (obj * obj) :=
  match d with
  | [] => [(k, v)]
  | (k', v') :: d' =>
      if key_eq k' k then (k', v) :: d' else (k', v') :: dict_update d' k v
  end.

(** [d[k] = v] *)
Definition dict_set (d : list (obj * obj)) (k v : obj)
  : outcome (list (obj * obj)) :=
  if hashable k then Ok (dict_update d k v) else Raise TypeError.

(** [d[k]] *)
Fixpoint dict_get (d : list (obj * obj)) (k : obj) : option obj :=
  match d with
  | [] => None
  | (k', v') :: d' => if key_eq k' k then Some v' else dict_get d' k
  end.

(** The JSON object the endpoint answers with: a [dict] whose keys are
    text. *)
Definition json_object : Type := list (str * obj).

Definition json_dict (o : json_object) : obj :=
  VDict (map (fun kv => (VStr (fst kv), snd kv)) o).

Fixpoint json_get (o : json_object) (k : str) : option obj :=
  match o with
  | [] => None
  | (k', v) :: o' => if str_eqb k' k then Some v else json_get o' k
  end.

(** [k in o] for an arbitrary object [k]: only text can equal a key, and an
    unhashable object cannot be looked up at all. *)
Definition json_has (o : json_object) (k : obj) : outcome bool :=
  match k with
  | VStr s => Ok (match json_get o s with Some _ => true | None => false end)
  | _ => if hashable k then Ok false else Raise TypeError
  end.

(** [o[k]] *)
Definition json_item (o : json_object) (k : obj) : outcome obj :=
  match k with
  | VStr s =>
      match json_get o s with Some v => Ok v | None => Raise KeyError end
  | _ => if hashable k then Raise KeyError else Raise TypeError
  end.

Fixpoint json_set (o : json_object) (k : str) (v : obj) : json_object :=
  match o with
  | [] => [(k, v)]
  | (k', v') :: o' =>
      if str_eqb k' k then (k', v) :: o' else (k', v') :: json_set o' k v
  end.

(** ** The remote endpoint and the effects of the facade *)

(** One call of [_request_overview]; [req_raise_exception] is [None] when the
    caller leaves the keyword to its default. *)
Record request : Type := {
  req_app_id : obj;
  req_market_hash_name : obj;
  req_currency : obj;
  req_raise_exception : option bool
}.

(** A computation of the facade: it may raise, and it extends the list of
    requests issued so far. *)
Definition M (A : Type) : Type := list request -> outcome A * list request.

Definition ret {A : Type} (a : A) : M A := fun log => (Ok a, log).

Definition lift {A : Type} (r : outcome A) : M A := fun log => (r, log).

Definition bindM {A B : Type} (m : M A) (k : A -> M B) : M B :=
  fun log =>
    match m log with
    | (Ok a, log') => k a log'
    | (Raise e, log') => (Raise e, log')
    end.

Notation "x <~ e ;; k" := (bindM e (fun x => k))
  (at level 61, e at next level, right associativity).

(** ** Type validator ([decorators.py]) *)

(** An annotation, seen through [get_origin] and [get_args]. *)
#[warnings="-register-all"]
Inductive ty : Type :=
| TClass (c : pyclass)          (* a plain class: the origin is None *)
| TNone                         (* the annotation [None] *)
| TUnion (args : list ty)
| TDict (args : list ty)
| TList (args : list ty)
| TSet (args : list ty)
| TTuple (args : list ty)
| TOther (args : list ty).      (* any other parameterised type *)

Fixpoint _typecheck_value (value : obj) (expected_type : ty) {struct expected_type}
  : outcome bool :=
  match expected_type with
  | TClass c => Ok (isinstance value c)
  | TNone => Raise TypeError
  | TUnion args => any_r (fun arg => _typecheck_value value arg) args
  | TDict args =>
      (* _typecheck_dict_value *)
      entries <- py_items value ;;
      all_r (fun kv : obj * obj =>
               match args with
               | [] => Raise IndexError
               | tk :: rest =>
                   bk <- _typecheck_value (fst kv) tk ;;
                   if bk then
                     match rest with
                     | [] => Raise IndexError
                     | tv :: _ => _typecheck_value (snd kv) tv
                     end
                   else Ok false
               end) entries
  | TList args | TSet args =>
      (* _typecheck_list_value, _typecheck_set_value *)
      items <- py_iter value ;;
      all_r (fun x =>
               match args with
               | [] => Raise IndexError
               | t :: _ => _typecheck_value x t
               end) items
  | TTuple args =>
      (* _typecheck_tuple_value *)
      items <- py_iter value ;;
      (fix zipped (ts : list ty) (xs : list obj) {struct ts} : outcome bool :=
         match ts, xs with
         | t :: ts', x :: xs' =>
             b <- _typecheck_value x t ;; if b then zipped ts' xs' else Ok false
         | _, _ => Ok true
         end) args items
  | TOther _ => Ok false
  end.

(** The state of a [Market]: its default currency and language. *)
Record Market : Type := {
  self_currency : obj;
  self_language : obj
}.

(** Collaborators and an instance for the worked examples: a language table
    that knows no name, an endpoint that knows no item, one that answers
    every request with the same item, one that knows the one item called
    [known], and the market built by default. *)
Definition no_language : obj -> outcome (option str) := fun _ => Ok None.

Definition empty_endpoint : request -> outcome (option json_object) :=
  fun _ => Ok None.

Definition sample_item : json_object :=
  [ ("success", VBool true); ("lowest_price", VStr "$1,234.56");
    ("volume", VStr "1,024"); ("median_price", VStr "$1,200.00") ].

Definition unpriced_item : json_object :=
  [ ("success", VBool true); ("lowest_price", VStr "N/A") ].

Definition endpoint_answering (item : json_object)
  : request -> outcome (option json_object) :=
  fun _ => Ok (Some item).

Definition endpoint_knowing (known : str)
  : request -> outcome (option json_object) :=
  fun r =>
    match req_market_hash_name r with
    | VStr name => if str_eqb name known then Ok (Some sample_item) else Ok None
    | _ => Ok None
    end.

Definition default_market : Market :=
  {| self_currency := VCurrency SteamCurrency.USD;
     self_language := VLanguage "ENGLISH" |}.

(** ** Callables *)

Record parameter : Type := {
  param_name : str;
  param_default : option obj
}.

(** A method bound to its instance: what [signature] and [__annotations__]
    show of it, and what calling it with positional and keyword arguments
    does.  [self] stands at position 0 of the Python argument tuple; it bears
    no annotation and has no sanitiser, so the loops of the two wrappers are
    written over the positions after it. *)
Record pyfunc (R : Type) : Type := {
  parameters : list parameter;
  annotations : list (str * ty);
  call : list obj -> list (str * obj) -> M R
}.

Arguments parameters {R} _.
Arguments annotations {R} _.
Arguments call {R} _ _ _.

Section Market.

(** Modelled from the spec: [SteamLanguage.from_string] belongs to
    [enums.py], which is not part of the sources; the spec only says that a
    language is resolved from its name.  It is left open what the lookup
    answers: the name of the member found, nothing, or an exception. *)
Variable Language_from_string : obj -> outcome (option str).

(** The transport collaborator behind [_request_overview] ([requests.py] is
    not part of the sources): its answer to a request is the JSON object of
    the item, [None], or an exception. *)
Variable transport : request -> outcome (option json_object).

(** ** Value sanitisers ([decorators.py]) *)

(** [try: r except E: h] where [handles] recognises the class [E]. *)
Definition try_except {A : Type} (r : outcome A) (handles : exn -> bool)
    (handler : exn -> outcome A) : outcome A :=
  match r with
  | Ok a => Ok a
  | Raise e => if handles e then handler e else Raise e
  end.

Definition is_KeyError (e : exn) : bool :=
  match e with KeyError => true | _ => false end.

(** [Currency(n)]: an [Enum] class called with a value that no member
    carries raises [ValueError]. *)
Definition Currency_of (n : Z) : outcome obj :=
  match SteamCurrency.of_value n with
  | Some c => Ok (VCurrency c)
  | None => Raise ValueError
  end.

(** [n in LegacyCurrency] *)
Definition in_LegacyCurrency (n : Z) : bool :=
  match SteamLegacyCurrency.of_value n with Some _ => true | None => false end.

Definition _sanitize_app_id_value (value : obj) : outcome obj :=
  match value with
  | VList items => ns <- map_r py_int items ;; Ok (VList (map VInt ns))
  | _ => n <- py_int value ;; Ok (VInt n)
  end.

Definition _sanitize_currency_value (value : obj) : outcome obj :=
  match value with
  (* isinstance(value, (Currency, LegacyCurrency)) *)
  | VLegacyCurrency _ => Raise (LegacyCurrencyException value)
  | VCurrency _ => Ok value
  (* isinstance(value, str) *)
  | VStr s =>
      match SteamLegacyCurrency.from_string s with
      | Some _ => Raise (LegacyCurrencyException value)
      | None =>
          match SteamCurrency.from_string s with
          | None => Raise (InvalidCurrencyException value)
          | Some currency => Ok (VCurrency currency)
          end
      end
  | _ =>
      match int_value value with
      (* isinstance(value, int) *)
      | Some n =>
          if in_LegacyCurrency n then Raise (LegacyCurrencyException value)
          else
            try_except (Currency_of n) is_KeyError
              (fun _ => Raise (InvalidCurrencyException value))
      | None => Ok value
      end
  end.

Definition _sanitize_market_items_dict (value : obj) : outcome obj :=
  entries <- py_items value ;;
  d <- fold_left
         (fun acc kv =>
            d <- acc ;;
            app_id <- py_int (fst kv) ;;
            items <- py_iter (snd kv) ;;
            Ok (dict_update d (VInt app_id) (VList items)))
         entries (Ok []) ;;
  Ok (VDict d).

Definition _sanitize_language_value (value : obj) : outcome obj :=
  if isinstance value C_SteamLanguage then Ok value
  else
    lanuage <- Language_from_string value ;;
    match lanuage with
    | None => Raise (InvalidLanguageException value)
    | Some name => Ok (VLanguage name)
    end.

Definition _sanitize_market_hash_name_value (value : obj) : outcome obj :=
  py_replace value "/" "-".

Definition _sanitize_market_hash_names_value (value : obj) : outcome obj :=
  items <- py_iter value ;;
  names <- map_r _sanitize_market_hash_name_value items ;;
  Ok (VList names).

Definition valid_price_types : list str := ["lowest_price"; "median_price"].

(** [x in valid_price_types] *)
Definition is_valid_price_type (x : obj) : bool :=
  match x with
  | VStr s => mem_string s valid_price_types
  | _ => false
  end.

Definition _sanitize_price_type_value (value : obj) : outcome obj :=
  match value with
  | VStr _ =>
      if negb (is_valid_price_type value) then Raise ValueError
      else Ok (VTuple [value])
  | _ =>
      items <- py_iter value ;;
      if existsb (fun price_type => negb (is_valid_price_type price_type)) items
      then Raise ValueError
      else Ok value
  end.

Definition _SANITIZE_FUNCS : list (str * (obj -> outcome obj)) :=
  [ ("app_id", _sanitize_app_id_value);
    ("currency", _sanitize_currency_value);
    ("market_items_dict", _sanitize_market_items_dict);
    ("language", _sanitize_language_value);
    ("market_hash_name", _sanitize_market_hash_name_value);
    ("market_hash_names", _sanitize_market_hash_names_value);
    ("price_type", _sanitize_price_type_value) ].

(** [d.get(k)] on a dictionary keyed by text. *)
Fixpoint lookup {A : Type} (k : str) (d : list (str * A)) : option A :=
  match d with
  | [] => None
  | (k', a) :: d' => if str_eqb k' k then Some a else lookup k d'
  end.

Definition _sanitize_value (value : obj) (param_name : str) : outcome obj :=
  match lookup param_name _SANITIZE_FUNCS with
  | Some sanitize_func => sanitize_func value
  | None => Ok value
  end.

(** ** Decorators ([decorators.py]) *)

Definition param_names {R : Type} (func : pyfunc R) : list str :=
  map param_name (parameters func).

(** Binding of the arguments of a call to the parameters of a [def]: the
    values of the parameters, in the order of the signature. *)
Fixpoint bind_named (ps : list parameter) (kwargs : list (str * obj))
  : outcome (list obj) :=
  match ps with
  | [] => Ok []
  | p :: ps' =>
      v <- match lookup (param_name p) kwargs with
           | Some v => Ok v
           | None =>
               match param_default p with
               | Some d => Ok d
               | None => Raise TypeError
               end
           end ;;
      vs <- bind_named ps' kwargs ;;
      Ok (v :: vs)
  end.

Fixpoint bind_positional (ps : list parameter) (args : list obj)
    (kwargs : list (str * obj)) : outcome (list obj) :=
  match args, ps with
  | [], _ => bind_named ps kwargs
  | a :: args', p :: ps' =>
      match lookup (param_name p) kwargs with
      | Some _ => Raise TypeError
      | None => vs <- bind_positional ps' args' kwargs ;; Ok (a :: vs)
      end
  | _ :: _, [] => Raise TypeError
  end.

Definition bind_arguments (ps : list parameter) (args : list obj)
    (kwargs : list (str * obj)) : outcome (list obj) :=
  if forallb (fun kv => mem_string (fst kv) (map param_name ps)) kwargs
  then bind_positional ps args kwargs
  else Raise TypeError.

(** The first loop of [sanitized]'s wrapper. *)
Fixpoint sanitize_args (names : list str) (args : list obj)
  : outcome (list obj) :=
  match args with
  | [] => Ok []
  | arg :: args' =>
      match names with
      | [] => Raise IndexError
      | arg_name :: names' =>
          arg' <- (if mem_string arg_name (map fst _SANITIZE_FUNCS)
                   then _sanitize_value arg arg_name
                   else Ok arg) ;;
          rest <- sanitize_args names' args' ;;
          Ok (arg' :: rest)
      end
  end.

(** The second loop of [sanitized]'s wrapper. *)
Fixpoint sanitize_kwargs (kwargs : list (str * obj))
  : outcome (list (str * obj)) :=
  match kwargs with
  | [] => Ok []
  | (kwarg_name, kwarg_value) :: kwargs' =>
      v <- (if mem_string kwarg_name (map fst _SANITIZE_FUNCS)
            then _sanitize_value kwarg_value kwarg_name
            else Ok kwarg_value) ;;
      rest <- sanitize_kwargs kwargs' ;;
      Ok ((kwarg_name, v) :: rest)
  end.

Definition sanitized {R : Type} (func : pyfunc R) : pyfunc R :=
  {| parameters := parameters func;
     annotations := annotations func;
     call := fun args kwargs =>
       args_list <~ lift (sanitize_args (param_names func) args) ;;
       kwargs' <~ lift (sanitize_kwargs kwargs) ;;
       call func args_list kwargs' |}.

(** [arg_name in annotations and not _typecheck_value(arg, annotations[arg_name])] *)
Definition fails_annotation (annots : list (str * ty)) (arg_name : str)
    (arg : obj) : outcome bool :=
  match lookup arg_name annots with
  | Some expected_type =>
      ok <- _typecheck_value arg expected_type ;; Ok (negb ok)
  | None => Ok false
  end.

(** The first loop of [typechecked]'s wrapper. *)
Fixpoint typecheck_args (annots : list (str * ty)) (names : list str)
    (args : list obj) : outcome unit :=
  match args with
  | [] => Ok tt
  | arg :: args' =>
      match names with
      | [] => Raise IndexError
      | arg_name :: names' =>
          bad <- fails_annotation annots arg_name arg ;;
          if bad then Raise TypeError
          else typecheck_args annots names' args'
      end
  end.

(** The second loop of [typechecked]'s wrapper. *)
Fixpoint typecheck_kwargs (annots : list (str * ty))
    (kwargs : list (str * obj)) : outcome unit :=
  match kwargs with
  | [] => Ok tt
  | (kwarg_name, kwarg_value) :: kwargs' =>
      bad <- fails_annotation annots kwarg_name kwarg_value ;;
      if bad then Raise TypeError
      else typecheck_kwargs annots kwargs'
  end.

Definition typechecked {R : Type} (func : pyfunc R) : pyfunc R :=
  {| parameters := parameters func;
     annotations := annotations func;
     call := fun args kwargs =>
       _ <~ lift (typecheck_args (annotations func) (param_names func) args) ;;
       _ <~ lift (typecheck_kwargs (annotations func) kwargs) ;;
       call func args kwargs |}.

(** ** The market facade ([market.py]) *)

Definition _request_overview (app_id market_hash_name currency : obj)
    (raise_exception : option bool) : M (option json_object) :=
  fun log =>
    let r := {| req_app_id := app_id;
                req_market_hash_name := market_hash_name;
                req_currency := currency;
                req_raise_exception := raise_exception |} in
    (transport r, (log ++ [r])%list).

(** What the facade hands back for an answer of the endpoint. *)
Definition answer (data : option json_object) : obj :=
  match data with
  | Some o => json_dict o
  | None => VNone
  end.

Definition _price_to_float (value : obj) : outcome obj :=
  match value with
  | VStr s =>
      match price_search s with
      | None => Ok VNone
      | Some (group1, group2) =>
          let num_str := replace "." "" (replace "," "" group1) in
          let decimal_part :=
            match group2 with Some d => d | None => "00" end in
          x <- py_float (num_str ++ "." ++ decimal_part) ;;
          Ok (VFloat x)
      end
  | _ => Raise TypeError
  end.

(** The loop of [_overview_type_converter] over [overview.items()]. *)
Fixpoint convert_items (keys_to_convert : list str) (items : json_object)
    (result : json_object) : outcome json_object :=
  match items with
  | [] => Ok result
  | (key, value) :: items' =>
      converted <-
        (if mem_string key keys_to_convert
            && mem_string key ["lowest_price"; "median_price"]
         then _price_to_float value
         else if mem_string key keys_to_convert && str_eqb key "volume"
         then text <- py_replace value "," "" ;; n <- py_int text ;; Ok (VInt n)
         else Ok value) ;;
      convert_items keys_to_convert items' (json_set result key converted)
  end.

Definition _overview_type_converter (overview : option json_object)
    (keys_to_convert : option (list str)) : outcome obj :=
  let valid_keys := ["lowest_price"; "median_price"; "volume"] in
  let keys_to_convert :=
    match keys_to_convert with None => valid_keys | Some ks => ks end in
  if existsb (fun key => negb (mem_string key valid_keys)) keys_to_convert
  then Raise ValueError
  else
    match overview with
    | None => Raise AttributeError          (* None has no [items] *)
    | Some o =>
        result <- convert_items keys_to_convert o [] ;;
        Ok (json_dict result)
    end.

Definition _get_price (self : Market)
    (app_id market_hash_name price_type type_conversion currency : obj)
  : M obj :=
  item <~ _request_overview app_id market_hash_name
            (py_or currency (self_currency self)) None ;;
  match item with
  | None => ret VNone
  | Some o =>
      present <~ lift (json_has o price_type) ;;
      if negb present then ret VNone
      else
        price <~ lift (json_item o price_type) ;;
        if truthy type_conversion then lift (_price_to_float price)
        else ret price
  end.

Definition get_overview_body (self : Market)
    (app_id market_hash_name type_conversion currency : obj) : M obj :=
  data <~ _request_overview app_id market_hash_name
            (py_or currency (self_currency self)) None ;;
  if truthy type_conversion
  then lift (_overview_type_converter data None)
  else ret (answer data).

(** The dictionary comprehension of [get_overviews]. *)
Fixpoint overviews_of (self : Market) (type_conversion currency : obj)
    (pairs : list (obj * obj)) (acc : list (obj * obj))
  : M (list (obj * obj)) :=
  match pairs with
  | [] => ret acc
  | (name, id) :: pairs' =>
      result <~ _request_overview id name
                  (py_or currency (self_currency self)) (Some false) ;;
      entry <~ (if truthy type_conversion
                then lift (_overview_type_converter result None)
                else ret (answer result)) ;;
      acc' <~ lift (dict_set acc name entry) ;;
      overviews_of self type_conversion currency pairs' acc'
  end.

Definition get_overviews_body (self : Market)
    (app_id market_hash_names type_conversion currency : obj) : M obj :=
  app_id <~ lift (if negb (isinstance app_id C_list)
                  then n <- py_len market_hash_names ;;
                       Ok (VList (repeat app_id n))
                  else Ok app_id) ;;
  n_names <~ lift (py_len market_hash_names) ;;
  n_ids <~ lift (py_len app_id) ;;
  if negb (Nat.eqb n_names n_ids) then lift (Raise IndexError)
  else
    names <~ lift (py_iter market_hash_names) ;;
    ids <~ lift (py_iter app_id) ;;
    d <~ overviews_of self type_conversion currency (combine names ids) [] ;;
    ret (VDict d).

(** The inner loop of [get_overviews_from_dict]. *)
Fixpoint overviews_of_names (self : Market) (type_conversion currency : obj)
    (app_id : obj) (names : list obj) (result : list (obj * obj))
  : M (list (obj * obj)) :=
  match names with
  | [] => ret result
  | name :: names' =>
      overview <~ _request_overview app_id name
                    (py_or currency (self_currency self)) (Some false) ;;
      overview <~ (if truthy type_conversion
                   then lift (_overview_type_converter overview None)
                   else ret (answer overview)) ;;
      result' <~ lift (dict_set result name overview) ;;
      overviews_of_names self type_conversion currency app_id names' result'
  end.

(** The outer loop of [get_overviews_from_dict]. *)
Fixpoint overviews_of_dict (self : Market) (type_conversion currency : obj)
    (entries : list (obj * obj)) (result : list (obj * obj))
  : M (list (obj * obj)) :=
  match entries with
  | [] => ret result
  | (app_id, names) :: entries' =>
      names <~ lift (py_iter names) ;;
      result' <~ overviews_of_names self type_conversion currency
                   app_id names result ;;
      overviews_of_dict self type_conversion currency entries' result'
  end.

Definition get_overviews_from_dict_body (self : Market)
    (items_dict type_conversion currency : obj) : M obj :=
  entries <~ lift (py_items items_dict) ;;
  result <~ overviews_of_dict self type_conversion currency entries [] ;;
  ret (VDict result).

(** The dictionary comprehension of [get_prices]. *)
Fixpoint prices_of (item : json_object) (type_conversion : obj)
    (price_keys : list str) (prices : json_object) : outcome json_object :=
  match price_keys with
  | [] => Ok prices
  | key :: price_keys' =>
      match json_get item key with
      | None => prices_of item type_conversion price_keys' prices
      | Some value =>
          price <- (if truthy type_conversion then _price_to_float value
                    else Ok value) ;;
          prices_of item type_conversion price_keys' (json_set prices key price)
      end
  end.

Definition get_prices_body (self : Market)
    (app_id market_hash_name type_conversion currency : obj) : M obj :=
  item <~ _request_overview app_id market_hash_name
            (py_or currency (self_currency self)) None ;;
  match item with
  | None => ret VNone
  | Some o =>
      let price_keys := ["lowest_price"; "median_price"] in
      prices <~ lift (prices_of o type_conversion price_keys []) ;;
      ret (py_or (json_dict prices) VNone)
  end.

Definition get_lowest_price_body (self : Market)
    (app_id market_hash_name type_conversion currency : obj) : M obj :=
  _get_price self app_id market_hash_name (VStr "lowest_price")
    type_conversion (py_or currency (self_currency self)).

Definition get_median_price_body (self : Market)
    (app_id market_hash_name type_conversion currency : obj) : M obj :=
  _get_price self app_id market_hash_name (VStr "median_price")
    type_conversion (py_or currency (self_currency self)).

Definition get_price_body (self : Market)
    (app_id market_hash_name price_type type_conversion currency : obj)
  : M obj :=
  _get_price self app_id market_hash_name price_type type_conversion currency.

Definition get_volume_body (self : Market)
    (app_id market_hash_name type_conversion : obj) : M obj :=
  item <~ _request_overview app_id market_hash_name (self_currency self) None ;;
  match item with
  | None => ret VNone
  | Some o =>
      match json_get o "volume" with
      | None => ret VNone
      | Some volume =>
          if truthy type_conversion
          then lift (text <- py_replace volume "," "" ;;
                     n <- py_int text ;; Ok (VInt n))
          else ret volume
      end
  end.

(** *** Signatures and decoration *)

Definition required (name : str) : parameter :=
  {| param_name := name; param_default := None |}.

Definition optional (name : str) (default : obj) : parameter :=
  {| param_name := name; param_default := Some default |}.

(** [def f(self, p1, ..., pn) -> r: body] *)
Definition def {R : Type} (ps : list parameter) (annots : list (str * ty))
    (body : list obj -> M R) : pyfunc R :=
  {| parameters := ps;
     annotations := annots;
     call := fun args kwargs =>
       vs <~ lift (bind_arguments ps args kwargs) ;; body vs |}.

Definition t_str : ty := TClass C_str.
Definition t_bool : ty := TClass C_bool.
Definition t_int : ty := TClass C_int.
Definition t_float : ty := TClass C_float.

(** [Union[AppID, int]] *)
Definition t_app_id : ty := TUnion [TClass C_AppID; t_int].

(** [Union[SteamCurrency, SteamLegacyCurrency, int, str]] *)
Definition t_currency : ty :=
  TUnion [TClass C_SteamCurrency; TClass C_SteamLegacyCurrency; t_int; t_str].

(** [Optional[t]] *)
Definition t_optional (t : ty) : ty := TUnion [t; TClass C_NoneType].

(** The decorators every public method carries, [@typechecked] above
    [@sanitized]: the wrapper of [typechecked] is the one that is called. *)
Definition decorated {R : Type} (func : pyfunc R) : pyfunc R :=
  typechecked (sanitized func).

Definition Market__init___def : pyfunc Market :=
  def
    [ optional "currency" (VCurrency SteamCurrency.USD);
      optional "language" (VLanguage "ENGLISH") ]
    [ ("currency", t_currency);
      ("language", TUnion [TClass C_SteamLanguage; t_str]);
      ("return", TNone) ]
    (fun vs =>
       match vs with
       | [currency; language] =>
           ret {| self_currency := currency; self_language := language |}
       | _ => lift (Raise TypeError)
       end).

Definition Market__init__ : pyfunc Market := decorated Market__init___def.

Definition item_parameters : list parameter :=
  [ required "app_id"; required "market_hash_name";
    optional "type_conversion" (VBool true); optional "currency" VNone ].

Definition item_annotations (returns : ty) : list (str * ty) :=
  [ ("app_id", t_app_id); ("market_hash_name", t_str);
    ("type_conversion", t_bool); ("currency", t_currency);
    ("return", returns) ].

(** The signature shared by [get_overview], [get_prices], [get_lowest_price]
    and [get_median_price]. *)
Definition item_def (returns : ty)
    (body : obj -> obj -> obj -> obj -> M obj) : pyfunc obj :=
  def item_parameters (item_annotations returns)
    (fun vs =>
       match vs with
       | [app_id; market_hash_name; type_conversion; currency] =>
           body app_id market_hash_name type_conversion currency
       | _ => lift (Raise TypeError)
       end).

Definition get_overview_def (self : Market) : pyfunc obj :=
  item_def
    (t_optional (TDict [t_str; TUnion [t_bool; t_float; t_int; t_str]]))
    (get_overview_body self).

Definition get_overviews_def (self : Market) : pyfunc obj :=
  def
    [ required "app_id"; required "market_hash_names";
      optional "type_conversion" (VBool true); optional "currency" VNone ]
    [ ("app_id", TUnion [TClass C_AppID; t_int; TList [t_app_id]]);
      ("market_hash_names", TList [t_str]);
      ("type_conversion", t_bool); ("currency", t_currency);
      ("return", TDict [t_str; TDict [t_str; TUnion [t_bool; t_str]]]) ]
    (fun vs =>
       match vs with
       | [app_id; market_hash_names; type_conversion; currency] =>
           get_overviews_body self app_id market_hash_names
             type_conversion currency
       | _ => lift (Raise TypeError)
       end).

Definition get_overviews_from_dict_def (self : Market) : pyfunc obj :=
  def
    [ required "items_dict";
      optional "type_conversion" (VBool true); optional "currency" VNone ]
    [ ("items_dict", TDict [t_app_id; TList [t_str]]);
      ("type_conversion", t_bool); ("currency", t_currency);
      ("return", TDict [t_str; TDict [t_str; TUnion [t_bool; t_str]]]) ]
    (fun vs =>
       match vs with
       | [items_dict; type_conversion; currency] =>
           get_overviews_from_dict_body self items_dict type_conversion currency
       | _ => lift (Raise TypeError)
       end).

Definition get_prices_def (self : Market) : pyfunc obj :=
  item_def (t_optional (TDict [t_str; TUnion [t_float; t_str]]))
    (get_prices_body self).

Definition get_lowest_price_def (self : Market) : pyfunc obj :=
  item_def (t_optional t_float) (get_lowest_price_body self).

Definition get_median_price_def (self : Market) : pyfunc obj :=
  item_def (t_optional t_float) (get_median_price_body self).

Definition get_price_def (self : Market) : pyfunc obj :=
  def
    [ required "app_id"; required "market_hash_name"; required "price_type";
      optional "type_conversion" (VBool true); optional "currency" VNone ]
    [ ("app_id", t_app_id); ("market_hash_name", t_str);
      ("price_type", t_str);
      ("type_conversion", t_bool); ("currency", t_currency);
      ("return", t_optional t_float) ]
    (fun vs =>
       match vs with
       | [app_id; market_hash_name; price_type; type_conversion; currency] =>
           get_price_body self app_id market_hash_name price_type
             type_conversion currency
       | _ => lift (Raise TypeError)
       end).

Definition get_volume_def (self : Market) : pyfunc obj :=
  def
    [ required "app_id"; required "market_hash_name";
      optional "type_conversion" (VBool true) ]
    [ ("app_id", t_app_id); ("market_hash_name", t_str);
      ("type_conversion", t_bool); ("return", t_optional t_int) ]
    (fun vs =>
       match vs with
       | [app_id; market_hash_name; type_conversion] =>
           get_volume_body self app_id market_hash_name type_conversion
       | _ => lift (Raise TypeError)
       end).

Definition get_overview (self : Market) := decorated (get_overview_def self).
Definition get_overviews (self : Market) := decorated (get_overviews_def self).
Definition get_overviews_from_dict (self : Market) :=
  decorated (get_overviews_from_dict_def self).
Definition get_prices (self : Market) := decorated (get_prices_def self).
Definition get_lowest_price (self : Market) :=
  decorated (get_lowest_price_def self).
Definition get_median_price (self : Market) :=
  decorated (get_median_price_def self).
Definition get_price (self : Market) := decorated (get_price_def self).
Definition get_volume (self : Market) := decorated (get_volume_def self).

(** The undecorated definitions of the public operations that take an
    optional [currency]. *)
Definition currency_operations : list (Market -> pyfunc obj) :=
  [ get_overview_def; get_overviews_def; get_overviews_from_dict_def;
    get_prices_def; get_lowest_price_def; get_median_price_def;
    get_price_def ].

(** The order of the two steps as the specification words it: arguments are
    sanitised first and the validator sees the sanitised values. *)
Definition sanitize_then_validate {R : Type} (func : pyfunc R) : pyfunc R :=
  sanitized (typechecked func).

(** ** Price texts, as the specification describes them

    One to three leading digits, then groups of exactly three digits, each
    after one separator, then optionally one separator and exactly two
    digits. *)

Record price_text : Type := {
  lead : str;
  groups : list (char * str);
  cents : option (char * str)
}.

Definition group_ok (g : char * str) : bool :=
  is_separator (fst g) && all_digits (snd g)
  && (str_length (snd g) =? 3)%nat.

Definition cents_ok (c : option (char * str)) : bool :=
  match c with
  | None => true
  | Some (sep, d) =>
      is_separator sep && all_digits d && (str_length d =? 2)%nat
  end.

Definition well_shaped (p : price_text) : bool :=
  all_digits (lead p)
  && (1 <=? str_length (lead p))%nat && (str_length (lead p) <=? 3)%nat
  && forallb group_ok (groups p)
  && cents_ok (cents p).

Fixpoint concat_groups (gs : list (char * str)) : str :=
  match gs with
  | [] => EmptyStr
  | (sep, g) :: gs' => Str sep g ++ concat_groups gs'
  end.

Definition cents_text (c : option (char * str)) : str :=
  match c with
  | None => EmptyStr
  | Some (sep, d) => Str sep d
  end.

(** The text itself. *)
Definition render (p : price_text) : str :=
  lead p ++ concat_groups (groups p) ++ cents_text (cents p).

Fixpoint concat_digits (gs : list (char * str)) : str :=
  match gs with
  | [] => EmptyStr
  | (_, g) :: gs' => g ++ concat_digits gs'
  end.

(** The digits of the integer part: all the groups before the cents. *)
Definition integer_digits (p : price_text) : str :=
  lead p ++ concat_digits (groups p).

Definition cents_digits (p : price_text) : str :=
  match cents p with
  | Some (_, d) => d
  | None => "00"
  end.

(** The number the text stands for, in exact arithmetic. *)
Definition amount (p : price_text) : Q :=
  Qmake (digits_to_Z 0 (integer_digits p) * 100 + digits_to_Z 0 (cents_digits p))
        100.

(** The text 1.234,56 taken apart. *)
Definition sample_price_text : price_text :=
  {| lead := "1";
     groups := [("."%chr, "234")];
     cents := Some (","%chr, "56") |}.

(** The text 9,007,199,254,740,993.00 taken apart; its integer part is
    2^53 + 1. *)
Definition large_price_text : price_text :=
  {| lead := "9";
     groups := [(","%chr, "007"); (","%chr, "199"); (","%chr, "254");
                (","%chr, "740"); (","%chr, "993")];
     cents := Some ("."%chr, "00") |}.

(** ** Vocabulary of the statements *)

Definition starts_with_digit (s : str) : bool :=
  match s with
  | Str c _ => is_digit c
  | EmptyStr => false
  end.

(** The request [_get_price] and the item methods issue. *)
Definition item_request (self : Market) (app_id market_hash_name currency : obj)
  : request :=
  {| req_app_id := app_id;
     req_market_hash_name := market_hash_name;
     req_currency := py_or currency (self_currency self);
     req_raise_exception := None |}.

Fixpoint has_slash (s : str) : bool :=
  match s with
  | EmptyStr => false
  | Str c s' => char_eqb c "/" || has_slash s'
  end.

(** The request the batch operations issue for one item. *)
Definition batch_request (self : Market) (app_id market_hash_name currency : obj)
  : request :=
  {| req_app_id := app_id;
     req_market_hash_name := market_hash_name;
     req_currency := py_or currency (self_currency self);
     req_raise_exception := Some false |}.

(** The endpoint knows the item and its overview converts. *)
Definition batch_answered (self : Market) (app_id : obj) (name : str)
  : Prop :=
  exists (item : json_object) (entry : obj),
    transport (batch_request self app_id (VStr name) VNone) = Ok (Some item)
    /\ _overview_type_converter (Some item) None = Ok entry.

(** Every request a computation adds carries the currency of the instance. *)
Definition uses_default_currency {A : Type} (self : Market) (m : M A) : Prop :=
  forall log : list request,
  exists new : list request,
    snd (m log) = (log ++ new)%list
    /\ Forall (fun r => req_currency r = self_currency self) new.

(** The request for one item that carries the currency of the instance. *)
Definition default_request (self : Market) (app_id : Z)
    (market_hash_name : str) (raise_exception : option bool) : request :=
  {| req_app_id := VInt app_id;
     req_market_hash_name := VStr market_hash_name;
     req_currency := self_currency self;
     req_raise_exception := raise_exception |}.

(** The endpoint knows the item a request names, and its overview
    converts. *)
Definition answered (r : request) : Prop :=
  exists (item : json_object) (entry : obj),
    transport r = Ok (Some item)
    /\ _overview_type_converter (Some item) None = Ok entry.

(** ** Further vocabulary *)

(** What may follow a price in a longer text without being read as part of
    it: nothing, or a character that is neither a digit nor a separator. *)
Definition ends_price (suffix : str) : bool :=
  match suffix with
  | EmptyStr => true
  | Str c _ => negb (is_digit c) && negb (is_separator c)
  end.

(** [group1.replace(",", "").replace(".", "")] *)
Definition strip_separators (s : str) : str :=
  replace "." "" (replace "," "" s).

(** A count as the endpoint writes it: digits, grouped or not by commas. *)
Fixpoint digits_and_commas (s : str) : bool :=
  match s with
  | EmptyStr => true
  | Str c s' => (is_digit c || char_eqb c ",") && digits_and_commas s'
  end.

(** The items dictionary that holds the given names under the given
    application identifiers, and the requests that asking for each of its
    names, entry by entry, comes to. *)
Definition items_dict_of (entries : list (Z * list str)) : obj :=
  VDict (map (fun e => (VInt (fst e), VList (map VStr (snd e)))) entries).

Definition batch_requests (self : Market) (entries : list (Z * list str))
  : list request :=
  flat_map
    (fun e => map (fun name => batch_request self (VInt (fst e)) (VStr name) VNone)
                  (snd e))
    entries.

(** * Properties *)

(** ** The price parser *)

Lemma char_eqb_eq (a b : char) : char_eqb a b = true <-> a = b.
Proof.
  destruct a as [m], b as [n]. unfold char_eqb. cbn [ord].
  rewrite N.eqb_eq. split; [now intros -> | now intros [= ->]].
Qed.

Lemma char_eqb_refl (a : char) : char_eqb a a = true.
Proof. now apply char_eqb_eq. Qed.

Lemma str_eqb_eq (a b : str) : str_eqb a b = true <-> a = b.
Proof.
  revert b. induction a as [|x a IH]; intros [|y b]; cbn [str_eqb];
    try (split; [discriminate | discriminate]); [now split|].
  rewrite andb_true_iff, char_eqb_eq, IH.
  split; [now intros [-> ->] | now intros [= -> ->]].
Qed.

Lemma str_eqb_refl (a : str) : str_eqb a a = true.
Proof. now apply str_eqb_eq. Qed.

Lemma str_eqb_spec (a b : str) : reflect (a = b) (str_eqb a b).
Proof. apply iff_reflect. symmetry. apply str_eqb_eq. Qed.

Lemma str_dec (a b : str) : {a = b} + {a <> b}.
Proof.
  destruct (str_eqb a b) eqn:E; [left; now apply str_eqb_eq|].
  right. intros H. apply str_eqb_eq in H. congruence.
Qed.

Lemma append_assoc (a b c : str) : (a ++ b) ++ c = a ++ (b ++ c).
Proof. induction a as [|x a IH]; simpl; [reflexivity | now rewrite IH]. Qed.

Lemma append_empty_r (a : str) : a ++ "" = a.
Proof. induction a as [|x a IH]; simpl; [reflexivity | now rewrite IH]. Qed.

Lemma separator_not_digit (c : char) : is_separator c = true -> is_digit c = false.
Proof.
  unfold is_separator. intros H. apply orb_true_iff in H as [H | H];
    apply char_eqb_eq in H; subst c; reflexivity.
Qed.

Lemma take_digits_run (lead0 rest : str) : forall n,
  all_digits lead0 = true ->
  (str_length lead0 <= n)%nat ->
  str_length lead0 = n \/ starts_with_digit rest = false ->
  take_digits n (lead0 ++ rest) = (lead0, rest).
Proof.
  induction lead0 as [|c l IH]; intros n Hd Hn Hstop; simpl in *.
  - destruct n as [|n]; [reflexivity|].
    destruct Hstop as [Hstop | Hstop]; [discriminate|].
    destruct rest as [|c r]; [reflexivity|]. simpl in Hstop. simpl. now rewrite Hstop.
  - apply andb_true_iff in Hd as [Hc Hl].
    destruct n as [|n]; [lia|]. cbn [take_digits]. rewrite Hc.
    rewrite (IH n); [reflexivity | assumption | lia |].
    destruct Hstop as [Hstop | Hstop]; [left; lia | now right].
Qed.

Lemma three_digits (g : str) :
  all_digits g = true -> str_length g = 3%nat ->
  exists d1 d2 d3,
    g = Str d1 (Str d2 (Str d3 "")) /\
    is_digit d1 = true /\ is_digit d2 = true /\ is_digit d3 = true.
Proof.
  intros Hd Hl.
  destruct g as [|d1 [|d2 [|d3 [|x g]]]]; simpl in Hl; try discriminate.
  simpl in Hd. rewrite andb_true_r in Hd.
  apply andb_true_iff in Hd as [H1 Hd]. apply andb_true_iff in Hd as [H2 H3].
  now exists d1, d2, d3.
Qed.

Lemma two_digits (g : str) :
  all_digits g = true -> str_length g = 2%nat ->
  exists d1 d2,
    g = Str d1 (Str d2 "") /\ is_digit d1 = true /\ is_digit d2 = true.
Proof.
  intros Hd Hl.
  destruct g as [|d1 [|d2 [|x g]]]; simpl in Hl; try discriminate.
  simpl in Hd. rewrite andb_true_r in Hd.
  apply andb_true_iff in Hd as [H1 H2].
  now exists d1, d2.
Qed.

Lemma group_ok_inv (sep : char) (g : str) :
  group_ok (sep, g) = true ->
  is_separator sep = true /\ all_digits g = true /\ str_length g = 3%nat.
Proof.
  unfold group_ok; simpl. intros H.
  apply andb_true_iff in H as [H H3]. apply andb_true_iff in H as [H1 H2].
  apply Nat.eqb_eq in H3. now repeat split.
Qed.

Lemma cents_ok_inv (sep : char) (d : str) :
  cents_ok (Some (sep, d)) = true ->
  is_separator sep = true /\ all_digits d = true /\ str_length d = 2%nat.
Proof.
  simpl. intros H.
  apply andb_true_iff in H as [H H3]. apply andb_true_iff in H as [H1 H2].
  apply Nat.eqb_eq in H3. now repeat split.
Qed.

Lemma take_groups_cents (c : option (char * str)) :
  cents_ok c = true -> take_groups (cents_text c) = ("", cents_text c).
Proof.
  destruct c as [[sep d]|]; [|reflexivity].
  intros H. apply cents_ok_inv in H as (_ & Hd & Hl).
  destruct (two_digits d Hd Hl) as (d1 & d2 & -> & _). reflexivity.
Qed.

Lemma take_groups_run (gs : list (char * str)) (c : option (char * str)) :
  forallb group_ok gs = true -> cents_ok c = true ->
  take_groups (concat_groups gs ++ cents_text c)
  = (concat_groups gs, cents_text c).
Proof.
  intros Hgs Hc. induction gs as [|[sep g] gs IH].
  - simpl. now apply take_groups_cents.
  - simpl in Hgs. apply andb_true_iff in Hgs as [Hg Hgs].
    apply group_ok_inv in Hg as (Hsep & Hd & Hl).
    destruct (three_digits g Hd Hl) as (d1 & d2 & d3 & -> & H1 & H2 & H3).
    simpl. rewrite Hsep, H1, H2, H3. simpl. now rewrite (IH Hgs).
Qed.

Lemma take_cents_run (c : option (char * str)) :
  cents_ok c = true -> fst (take_cents (cents_text c)) = option_map snd c.
Proof.
  destruct c as [[sep d]|]; [|reflexivity].
  intros H. apply cents_ok_inv in H as (Hsep & Hd & Hl).
  destruct (two_digits d Hd Hl) as (d1 & d2 & -> & H1 & H2).
  simpl. now rewrite Hsep, H1, H2.
Qed.

Lemma starts_with_digit_tail (gs : list (char * str)) (c : option (char * str)) :
  forallb group_ok gs = true -> cents_ok c = true ->
  starts_with_digit (concat_groups gs ++ cents_text c) = false.
Proof.
  intros Hgs Hc. destruct gs as [|[sep g] gs].
  - simpl. destruct c as [[sep d]|]; [|reflexivity].
    apply cents_ok_inv in Hc as (Hsep & _). simpl.
    now apply separator_not_digit.
  - simpl in Hgs. apply andb_true_iff in Hgs as [Hg _].
    apply group_ok_inv in Hg as (Hsep & _). simpl.
    now apply separator_not_digit.
Qed.

Lemma price_search_here (s : str) (m : str * option str) :
  price_match_here s = Some m -> price_search s = Some m.
Proof. intros H. destruct s; cbn [price_search]; now rewrite H. Qed.

(** What the search finds in a text of the specified shape. *)
Lemma price_search_shaped (p : price_text) :
  well_shaped p = true ->
  price_search (render p)
  = Some (lead p ++ concat_groups (groups p), option_map snd (cents p)).
Proof.
  unfold well_shaped. intros H.
  apply andb_true_iff in H as [H Hc]. apply andb_true_iff in H as [H Hgs].
  apply andb_true_iff in H as [H H3]. apply andb_true_iff in H as [Hd H1].
  apply Nat.leb_le in H1, H3.
  apply price_search_here.
  { unfold price_match_here, render.
    rewrite (take_digits_run (lead p) _ 3 Hd H3)
      by (right; now apply starts_with_digit_tail).
    destruct (lead p) as [|c l] eqn:El; [simpl in H1; lia|].
    rewrite (take_groups_run _ _ Hgs Hc).
    pose proof (take_cents_run _ Hc) as Hcents.
    destruct (take_cents (cents_text (cents p))) as [g2 r]. simpl in Hcents.
    now rewrite Hcents. }
Qed.

Lemma replace_app (old : char) (new a b : str) :
  replace old new (a ++ b) = replace old new a ++ replace old new b.
Proof.
  induction a as [|c a IH]; simpl; [reflexivity|].
  destruct (char_eqb c old); rewrite IH; [now rewrite append_assoc | reflexivity].
Qed.

Lemma replace_digits (old : char) (new s : str) :
  is_digit old = false -> all_digits s = true -> replace old new s = s.
Proof.
  intros Hold. induction s as [|c s IH]; simpl; [reflexivity|].
  intros H. apply andb_true_iff in H as [Hc Hs].
  destruct (char_eqb c old) eqn:E.
  - apply char_eqb_eq in E. subst c. congruence.
  - now rewrite IH.
Qed.

Lemma strip_digits (s : str) :
  all_digits s = true -> replace "." "" (replace "," "" s) = s.
Proof.
  intros H. rewrite (replace_digits "," "" s), (replace_digits "." "" s);
    auto.
Qed.

Lemma strip_separator (sep : char) (s : str) :
  is_separator sep = true ->
  replace "." "" (replace "," "" (Str sep s))
  = replace "." "" (replace "," "" s).
Proof.
  unfold is_separator. intros H. apply orb_true_iff in H as [H | H];
    apply char_eqb_eq in H; subst sep; reflexivity.
Qed.

Lemma strip_groups (gs : list (char * str)) :
  forallb group_ok gs = true ->
  replace "." "" (replace "," "" (concat_groups gs)) = concat_digits gs.
Proof.
  induction gs as [|[sep g] gs IH]; [reflexivity|].
  cbn [forallb concat_groups concat_digits].
  intros H. apply andb_true_iff in H as [Hg Hgs].
  apply group_ok_inv in Hg as (Hsep & Hd & _).
  change (Str sep g ++ concat_groups gs)
    with (Str sep (g ++ concat_groups gs)).
  rewrite (strip_separator _ _ Hsep), !replace_app, <- (IH Hgs).
  f_equal. now apply strip_digits.
Qed.

Lemma all_digits_app (a b : str) :
  all_digits (a ++ b) = all_digits a && all_digits b.
Proof.
  induction a as [|c a IH]; simpl; [reflexivity|].
  now rewrite IH, andb_assoc.
Qed.

Lemma all_digits_groups (gs : list (char * str)) :
  forallb group_ok gs = true -> all_digits (concat_digits gs) = true.
Proof.
  induction gs as [|[sep g] gs IH]; [reflexivity|].
  simpl. intros H. apply andb_true_iff in H as [Hg Hgs].
  apply group_ok_inv in Hg as (_ & Hd & _).
  now rewrite all_digits_app, Hd, IH.
Qed.

Lemma digit_not_point (c : char) : is_digit c = true -> char_eqb c "." = false.
Proof.
  intros H. destruct (char_eqb c ".") eqn:E; [|reflexivity].
  apply char_eqb_eq in E. subst c. discriminate.
Qed.

Lemma split_point_digits (i f : str) :
  all_digits i = true -> split_point (i ++ Str "." f) = (i, Some f).
Proof.
  induction i as [|c i IH]; simpl; [reflexivity|].
  intros H. apply andb_true_iff in H as [Hc Hi].
  now rewrite (digit_not_point c Hc), (IH Hi).
Qed.

(** [float] of the literal that [_price_to_float] builds. *)
Lemma py_float_literal (i f : str) :
  all_digits i = true -> all_digits f = true -> str_length f = 2%nat ->
  py_float (i ++ "." ++ f)
  = Ok (binary64 (Qmake (digits_to_Z 0 i * 100 + digits_to_Z 0 f) 100)).
Proof.
  intros Hi Hf Hl. unfold py_float.
  change ("." ++ f) with (Str "." f).
  rewrite (split_point_digits i f Hi), Hi, Hf.
  destruct (two_digits f Hf Hl) as (d1 & d2 & -> & _).
  rewrite andb_false_r. cbn [andb negb str_length].
  do 3 f_equal. cbn [digits_to_Z]. lia.
Qed.

(** The text that stands where [\d] found nothing holds no price. *)
Lemma price_match_no_digit (s : str) :
  starts_with_digit s = false -> price_match_here s = None.
Proof.
  unfold price_match_here. destruct s as [|c s]; [reflexivity|].
  simpl. now intros ->.
Qed.

Lemma price_search_no_digit (s : str) :
  has_digit s = false -> price_search s = None.
Proof.
  induction s as [|c s IH]; [reflexivity|].
  cbn [has_digit]. intros H. apply orb_false_iff in H as [Hc Hs].
  cbn [price_search]. rewrite price_match_no_digit by exact Hc. now apply IH.
Qed.

(** C4, as stated, fails on large amounts: what [_price_to_float] returns
    is a binary64 number, and the integer part of the one it returns for
    9,007,199,254,740,993.00 is not the concatenation of the digit groups of
    that text. *)
Lemma large_price_is_rounded :
  ~ (forall p : price_text,
       well_shaped p = true ->
       exists x : spec_float,
         _price_to_float (VStr (render p)) = Ok (VFloat x)
         /\ int_of_float x = Ok (digits_to_Z 0 (integer_digits p))).
Proof.
  intros H. destruct (H large_price_text eq_refl) as (x & Hx & Hi).
  vm_compute in Hx. injection Hx as <-. vm_compute in Hi. discriminate.
Qed.

(** C4, amended.  For every price text of the shape "one to three leading
    digits, then groups of exactly three digits each after a single
    separator, then optionally a separator and exactly two digits",
    [_price_to_float] returns the binary64 number nearest to the number whose
    integer part is the concatenation of all the leading digit groups,
    whichever separator was used, and whose cents are the final two-digit
    group, or 00 when there is none. *)
Theorem price_to_float_shaped (p : price_text) :
  well_shaped p = true ->
  _price_to_float (VStr (render p)) = Ok (VFloat (binary64 (amount p))).
Proof.
  intros H. unfold _price_to_float. rewrite (price_search_shaped p H).
  unfold well_shaped in H.
  apply andb_true_iff in H as [H Hc]. apply andb_true_iff in H as [H Hgs].
  apply andb_true_iff in H as [H _]. apply andb_true_iff in H as [Hd _].
  rewrite !replace_app, (strip_digits _ Hd), (strip_groups _ Hgs).
  assert (Hi : all_digits (integer_digits p) = true).
  { unfold integer_digits. now rewrite all_digits_app, Hd, all_digits_groups. }
  unfold amount, cents_digits. fold (integer_digits p).
  destruct (cents p) as [[sep d]|]; cbn [option_map snd].
  - apply cents_ok_inv in Hc as (_ & Hcd & Hl).
    now rewrite (py_float_literal _ _ Hi Hcd Hl).
  - now rewrite (py_float_literal _ "00" Hi).
Qed.

Example price_dot_then_comma :
  _price_to_float (VStr "1.234,56") = Ok (VFloat (binary64 1234.56)).
Proof. vm_compute. reflexivity. Qed.

Example price_comma_then_dot :
  _price_to_float (VStr "1,234.56") = Ok (VFloat (binary64 1234.56)).
Proof. vm_compute. reflexivity. Qed.

Example price_without_cents :
  _price_to_float (VStr "1,234") = Ok (VFloat (binary64 1234.00)).
Proof. vm_compute. reflexivity. Qed.

Example price_with_symbols :
  _price_to_float (VStr "$1,234.56 USD") = Ok (VFloat (binary64 1234.56)).
Proof. vm_compute. reflexivity. Qed.

Example price_with_euro_sign :
  _price_to_float (VStr "1.234,56€") = Ok (VFloat (binary64 1234.56)).
Proof. vm_compute. reflexivity. Qed.

(** The digits need not be the ASCII ones: [\d] and [float] read the
    Arabic-Indic digits one, two, three as 123. *)
Example price_in_arabic_indic_digits :
  _price_to_float (VStr "١٢٣") = Ok (VFloat (binary64 123)).
Proof. vm_compute. reflexivity. Qed.


Example price_of_empty_text : _price_to_float (VStr "") = Ok VNone.
Proof. reflexivity. Qed.

Example price_of_not_available : _price_to_float (VStr "N/A") = Ok VNone.
Proof. reflexivity. Qed.

(** C6, as stated, fails: the text 1234.56 does not parse to 1234.56. *)
Lemma ungrouped_price_not_read_whole :
  _price_to_float (VStr "1234.56") <> Ok (VFloat (binary64 1234.56)).
Proof. vm_compute. discriminate. Qed.

(** C6, amended.  The pattern takes at most three leading digits when no
    separator follows them: the text 1234.56 parses to 123.00, and the text of
    that value, 123.0, parses to 123.00 again; it is the grouped text 1,234.56
    that parses to 1234.56. *)
Theorem ungrouped_price_reads_three_digits :
  _price_to_float (VStr "1234.56") = Ok (VFloat (binary64 123.00))
  /\ _price_to_float (VStr "123.0") = Ok (VFloat (binary64 123.00))
  /\ _price_to_float (VStr "1,234.56") = Ok (VFloat (binary64 1234.56)).
Proof. repeat split; vm_compute; reflexivity. Qed.

(** ** The currency sanitiser *)

(** C1 fails on a member of [SteamCurrency]: the sanitiser returns every
    member as it is, and SEK carries 33, a code of the legacy set. *)
Theorem legacy_code_member_accepted :
  (forall c : SteamCurrency.t,
     _sanitize_currency_value (VCurrency c) = Ok (VCurrency c))
  /\ in_LegacyCurrency (SteamCurrency.value SteamCurrency.SEK) = true.
Proof. split; [intros c|]; reflexivity. Qed.

(** The other three shapes are rejected as legacy. *)
Lemma sanitize_legacy_member (c : SteamLegacyCurrency.t) :
  _sanitize_currency_value (VLegacyCurrency c)
  = Raise (LegacyCurrencyException (VLegacyCurrency c)).
Proof. reflexivity. Qed.

Lemma sanitize_legacy_code (n : Z) :
  in_LegacyCurrency n = true ->
  _sanitize_currency_value (VInt n) = Raise (LegacyCurrencyException (VInt n)).
Proof. intros H. simpl. now rewrite H. Qed.

Lemma legacy_name_found (s : str) (c : SteamCurrency.t) :
  SteamCurrency.from_string s = Some c ->
  in_LegacyCurrency (SteamCurrency.value c) = true ->
  exists l, SteamLegacyCurrency.from_string s = Some l
            /\ SteamLegacyCurrency.value l = SteamCurrency.value c.
Proof.
  unfold SteamCurrency.from_string, SteamLegacyCurrency.from_string.
  intros Hf Hl. apply find_some in Hf as [_ Hn].
  apply str_eqb_eq in Hn. rewrite <- Hn.
  destruct c; try discriminate Hl; eexists; split; reflexivity.
Qed.

Lemma sanitize_legacy_name (s : str) (c : SteamCurrency.t) :
  SteamCurrency.from_string s = Some c ->
  in_LegacyCurrency (SteamCurrency.value c) = true ->
  _sanitize_currency_value (VStr s) = Raise (LegacyCurrencyException (VStr s)).
Proof.
  intros Hf Hl. destruct (legacy_name_found s c Hf Hl) as (l & Hs & _).
  simpl. now rewrite Hs.
Qed.

(** C8 fails on integers: [Currency(value)] raises [ValueError] for a code
    that no member carries, and the handler only catches [KeyError]. *)
Theorem unknown_code_raises_ValueError (n : Z) :
  SteamCurrency.of_value n = None ->
  SteamLegacyCurrency.of_value n = None ->
  _sanitize_currency_value (VInt n) = Raise ValueError.
Proof.
  intros Hc Hl. simpl. unfold in_LegacyCurrency, Currency_of.
  now rewrite Hl, Hc.
Qed.

(** An unknown name is reported as an invalid currency. *)
Lemma sanitize_unknown_name (s : str) :
  SteamCurrency.from_string s = None ->
  SteamLegacyCurrency.from_string s = None ->
  _sanitize_currency_value (VStr s) = Raise (InvalidCurrencyException (VStr s)).
Proof. intros Hc Hl. simpl. now rewrite Hl, Hc. Qed.

(** Codes and names of the active currencies are accepted. *)
Lemma sanitize_active_code (n : Z) (c : SteamCurrency.t) :
  SteamCurrency.of_value n = Some c ->
  SteamLegacyCurrency.of_value n = None ->
  _sanitize_currency_value (VInt n) = Ok (VCurrency c).
Proof.
  intros Hc Hl. simpl. unfold in_LegacyCurrency, Currency_of.
  now rewrite Hl, Hc.
Qed.

(** ** The decorators *)

(** What a call of a decorated method does, stage by stage: the validator
    runs over the arguments as they were passed, positional ones first; only
    then are the arguments sanitised and the method called. *)
Lemma decorated_call {R : Type} (func : pyfunc R) (args : list obj)
    (kwargs : list (str * obj)) (log : list request) :
  call (decorated func) args kwargs log =
  match typecheck_args (annotations func) (param_names func) args with
  | Raise e => (Raise e, log)
  | Ok _ =>
      match typecheck_kwargs (annotations func) kwargs with
      | Raise e => (Raise e, log)
      | Ok _ =>
          match sanitize_args (param_names func) args with
          | Raise e => (Raise e, log)
          | Ok args_list =>
              match sanitize_kwargs kwargs with
              | Raise e => (Raise e, log)
              | Ok kwargs' => call func args_list kwargs' log
              end
          end
      end
  end.
Proof.
  unfold decorated, typechecked, sanitized, bindM, lift, param_names.
  cbn [call annotations parameters].
  destruct (typecheck_args _ _ args); [|reflexivity].
  destruct (typecheck_kwargs _ kwargs); [|reflexivity].
  destruct (sanitize_args _ args); [|reflexivity].
  destruct (sanitize_kwargs kwargs); reflexivity.
Qed.

(** C2, amended.  Every public operation is [decorated]: its arguments are
    validated first, as they were passed, and sanitised afterwards; a call
    whose raw arguments fail validation raises the validator's error and
    nothing is sanitised or requested.  The declared union of a currency names
    the loose shapes themselves, so an integer, a text or a member of either
    enum passes validation before any coercion. *)
Theorem validation_precedes_sanitization :
  (forall (R : Type) (func : pyfunc R) (args : list obj)
          (kwargs : list (str * obj)) (log : list request),
      call (decorated func) args kwargs log =
      match typecheck_args (annotations func) (param_names func) args with
      | Raise e => (Raise e, log)
      | Ok _ =>
          match typecheck_kwargs (annotations func) kwargs with
          | Raise e => (Raise e, log)
          | Ok _ => call (sanitized func) args kwargs log
          end
      end)
  /\ (forall n, _typecheck_value (VInt n) t_currency = Ok true)
  /\ (forall s, _typecheck_value (VStr s) t_currency = Ok true)
  /\ (forall c, _typecheck_value (VCurrency c) t_currency = Ok true)
  /\ (forall c, _typecheck_value (VLegacyCurrency c) t_currency = Ok true).
Proof.
  split; [|repeat split; reflexivity].
  intros R func args kwargs log. rewrite decorated_call.
  unfold sanitized, bindM, lift. cbn [call].
  destruct (typecheck_args _ _ args); [|reflexivity].
  destruct (typecheck_kwargs _ kwargs); [|reflexivity].
  destruct (sanitize_args _ args); [|reflexivity].
  destruct (sanitize_kwargs kwargs); reflexivity.
Qed.

(** ** Single prices *)

(** C5 fails: [get_price] answers [None] whatever the item holds.  Its
    [price_type] goes through the sanitiser, which turns the text into a
    one-element tuple, and no key of the item equals a tuple. *)
Theorem get_price_answers_None (self : Market) (n : Z)
    (market_hash_name price_type : str) (item : json_object)
    (log : list request) :
  is_valid_price_type (VStr price_type) = true ->
  transport (item_request self (VInt n)
               (VStr (replace "/" "-" market_hash_name)) VNone)
    = Ok (Some item) ->
  call (get_price self)
    [VInt n; VStr market_hash_name; VStr price_type] [] log
  = (Ok VNone,
     (log ++ [item_request self (VInt n)
                (VStr (replace "/" "-" market_hash_name)) VNone])%list).
Proof.
  intros Hpt Ht. unfold get_price. rewrite decorated_call.
  cbn. cbn in Hpt. rewrite Hpt. cbn.
  unfold get_price_body, _get_price, bindM, _request_overview, item_request in *.
  cbn in Ht |- *. rewrite Ht. reflexivity.
Qed.

(** The sibling with the price type written in reads the field. *)
Lemma get_lowest_price_reads_field (self : Market) (n : Z)
    (market_hash_name : str) (item : json_object) (price : obj)
    (log : list request) :
  truthy (self_currency self) = true ->
  transport (item_request self (VInt n)
               (VStr (replace "/" "-" market_hash_name)) VNone)
    = Ok (Some item) ->
  json_get item "lowest_price" = Some price ->
  call (get_lowest_price self) [VInt n; VStr market_hash_name] [] log
  = (_price_to_float price,
     (log ++ [item_request self (VInt n)
                (VStr (replace "/" "-" market_hash_name)) VNone])%list).
Proof.
  intros Hc Ht Hk. unfold get_lowest_price. rewrite decorated_call.
  cbn.
  unfold get_lowest_price_body, _get_price, bindM, _request_overview,
    item_request, py_or in *.
  cbn [truthy] in *. rewrite Hc. rewrite Ht.
  unfold lift, json_has, json_item. rewrite Hk. reflexivity.
Qed.

(** ** Item names *)

Lemma sanitized_name_has_no_slash (s : str) :
  has_slash (replace "/" "-" s) = false.
Proof.
  induction s as [|c s IH]; [reflexivity|].
  cbn [replace]. destruct (char_eqb c "/") eqn:E; cbn; [exact IH|].
  now rewrite E.
Qed.

Example sanitize_redline :
  _sanitize_market_hash_name_value
    (VStr "AK-47 | Redline (Field-Tested)/Variant")
  = Ok (VStr "AK-47 | Redline (Field-Tested)-Variant").
Proof. reflexivity. Qed.

Lemma sanitize_names (names : list str) :
  map_r _sanitize_market_hash_name_value (map VStr names)
  = Ok (map VStr (map (replace "/" "-") names)).
Proof.
  induction names as [|s names IH]; [reflexivity|].
  cbn [map map_r]. rewrite IH. reflexivity.
Qed.

Lemma typecheck_names (names : list str) :
  all_r (fun x => _typecheck_value x t_str) (map VStr names) = Ok true.
Proof.
  induction names as [|s names IH]; [reflexivity|].
  cbn [map all_r]. cbn [_typecheck_value t_str isinstance bind]. exact IH.
Qed.

(** A single item is requested under its sanitised name. *)
Lemma get_overview_requests_sanitized_name (self : Market) (n : Z)
    (market_hash_name : str) (log : list request) :
  snd (call (get_overview self) [VInt n; VStr market_hash_name] [] log)
  = (log ++ [item_request self (VInt n)
               (VStr (replace "/" "-" market_hash_name)) VNone])%list.
Proof.
  unfold get_overview. rewrite decorated_call. cbn.
  unfold get_overview_body, bindM, _request_overview, item_request. cbn.
  destruct (transport _) as [data|e]; [|reflexivity].
  unfold lift. reflexivity.
Qed.

(** C9 fails for the dictionary form: its parameter is called [items_dict],
    for which [_SANITIZE_FUNCS] has no entry, so the names reach the request
    as they were passed, with every "/" still in place. *)
Theorem dict_form_requests_raw_name (self : Market) (n : Z)
    (market_hash_name : str) (log : list request) :
  snd (call (get_overviews_from_dict self)
         [VDict [(VInt n, VList [VStr market_hash_name])]] [] log)
  = (log ++ [batch_request self (VInt n) (VStr market_hash_name) VNone])%list.
Proof.
  unfold get_overviews_from_dict. rewrite decorated_call. cbn.
  unfold get_overviews_from_dict_body, bindM, _request_overview,
    batch_request, lift. cbn.
  destruct (transport _) as [[item|]|e]; cbn; try reflexivity.
  destruct (convert_items _ item []); reflexivity.
Qed.

(** ** Batches *)

Lemma overviews_of_unknown (self : Market) (app_id : obj)
    (known : list str) (unknown : str) (rest : list str) :
  Forall (batch_answered self app_id) known ->
  transport (batch_request self app_id (VStr unknown) VNone) = Ok None ->
  forall (acc : list (obj * obj)) (log : list request),
    fst (overviews_of self (VBool true) VNone
           (map (fun s => (VStr s, app_id)) (known ++ unknown :: rest)) acc log)
    = Raise AttributeError.
Proof.
  intros Hknown Hunknown.
  induction Hknown as [|name known (item & entry & Ht & Hconv) _ IH];
    intros acc log; cbn [app map overviews_of];
    unfold bindM at 1; unfold _request_overview at 1;
    fold (batch_request self app_id (VStr unknown) VNone);
    try fold (batch_request self app_id (VStr name) VNone).
  - rewrite Hunknown. reflexivity.
  - rewrite Ht. cbn [truthy]. unfold bindM at 1, lift at 1. rewrite Hconv.
    unfold bindM at 1, lift at 1, dict_set. cbn [hashable]. apply IH.
Qed.

Lemma overviews_of_names_unknown (self : Market) (app_id : obj)
    (known : list str) (unknown : str) (rest : list str) :
  Forall (batch_answered self app_id) known ->
  transport (batch_request self app_id (VStr unknown) VNone) = Ok None ->
  forall (result : list (obj * obj)) (log : list request),
    fst (overviews_of_names self (VBool true) VNone app_id
           (map VStr (known ++ unknown :: rest)) result log)
    = Raise AttributeError.
Proof.
  intros Hknown Hunknown.
  induction Hknown as [|name known (item & entry & Ht & Hconv) _ IH];
    intros acc log; cbn [app map overviews_of_names];
    unfold bindM at 1; unfold _request_overview at 1;
    fold (batch_request self app_id (VStr unknown) VNone);
    try fold (batch_request self app_id (VStr name) VNone).
  - rewrite Hunknown. reflexivity.
  - rewrite Ht. cbn [truthy]. unfold bindM at 1, lift at 1. rewrite Hconv.
    unfold bindM at 1, lift at 1, dict_set. cbn [hashable]. apply IH.
Qed.

Lemma combine_repeat {A B : Type} (l : list A) (b : B) :
  combine l (repeat b (List.length l)) = map (fun a => (a, b)) l.
Proof.
  induction l as [|a l IH]; [reflexivity|]. cbn. now rewrite IH.
Qed.

(** C3 fails: with the default [type_conversion], the first item the
    endpoint does not know ends [get_overviews] and [get_overviews_from_dict]
    with [AttributeError]: the [None] that [_request_overview] answers with
    goes to [_overview_type_converter], which asks it for its items.  The
    names before it are known and their overviews convert. *)
Theorem batch_unknown_item_raises (self : Market) (n : Z)
    (known : list str) (unknown : str) (rest : list str)
    (log : list request) :
  (Forall (batch_answered self (VInt n)) (map (replace "/" "-") known) ->
   transport (batch_request self (VInt n)
                (VStr (replace "/" "-" unknown)) VNone) = Ok None ->
   fst (call (get_overviews self)
          [VInt n; VList (map VStr (known ++ unknown :: rest))] [] log)
   = Raise AttributeError)
  /\
  (Forall (batch_answered self (VInt n)) known ->
   transport (batch_request self (VInt n) (VStr unknown) VNone) = Ok None ->
   fst (call (get_overviews_from_dict self)
          [VDict [(VInt n, VList (map VStr (known ++ unknown :: rest)))]]
          [] log)
   = Raise AttributeError).
Proof.
  pose proof (typecheck_names (known ++ unknown :: rest)) as Htc.
  cbn in Htc.
  split; intros Hknown Hunknown.
  - unfold get_overviews. rewrite decorated_call.
    cbn. rewrite Htc, sanitize_names. cbn.
    unfold get_overviews_body, bindM, lift. cbn.
    rewrite repeat_length, Nat.eqb_refl. cbn.
    rewrite combine_repeat, !map_map, map_app. cbn [map].
    pose proof (overviews_of_unknown self (VInt n) _ _
                  (map (replace "/" "-") rest) Hknown Hunknown [] log) as H.
    rewrite map_app in H. cbn [map] in H. rewrite !map_map in H.
    destruct (overviews_of _ _ _ _ _ _) as [[d|e] log'];
      cbn in H |- *; congruence.
  - unfold get_overviews_from_dict. rewrite decorated_call.
    cbn. rewrite Htc. cbn.
    unfold get_overviews_from_dict_body, bindM, lift. cbn.
    pose proof (overviews_of_names_unknown self (VInt n) _ _ rest
                  Hknown Hunknown [] log) as H.
    destruct (overviews_of_names _ _ _ _ _ _ _) as [[d|e] log'];
      cbn in H |- *; congruence.
Qed.

(** ** The optional currency *)

Lemma typecheck_kwargs_fails (annots : list (str * ty))
    (pre : list (str * obj)) (k : str) (v : obj)
    (post : list (str * obj)) :
  typecheck_kwargs annots pre = Ok tt ->
  fails_annotation annots k v = Ok true ->
  typecheck_kwargs annots (pre ++ (k, v) :: post)%list = Raise TypeError.
Proof.
  intros Hpre Hbad. induction pre as [|[k' v'] pre IH]; cbn in *.
  - now rewrite Hbad.
  - destruct (fails_annotation annots k' v') as [[|]|e]; cbn in *;
      try discriminate. now apply IH.
Qed.

Lemma typecheck_args_fails (annots : list (str * ty)) (k : str)
    (v : obj) (after : list obj) :
  fails_annotation annots k v = Ok true ->
  forall (before : list obj) (names : list str),
    typecheck_args annots names before = Ok tt ->
    nth_error names (List.length before) = Some k ->
    typecheck_args annots names (before ++ v :: after)%list = Raise TypeError.
Proof.
  intros Hbad. induction before as [|a before IH]; intros names Hpre Hk.
  - destruct names as [|k' names]; [discriminate|].
    cbn in Hk. injection Hk as ->. cbn. now rewrite Hbad.
  - destruct names as [|k' names]; [discriminate|].
    cbn in Hpre, Hk |- *.
    destruct (fails_annotation annots k' a) as [[|]|e]; cbn in *;
      try discriminate. now apply IH.
Qed.

Lemma uses_default_lift {A : Type} (self : Market) (r : outcome A) :
  uses_default_currency self (lift r).
Proof. intros log. exists []. split; [now rewrite app_nil_r | constructor]. Qed.

Lemma uses_default_ret {A : Type} (self : Market) (a : A) :
  uses_default_currency self (ret a).
Proof. apply (uses_default_lift self (Ok a)). Qed.

Lemma uses_default_bind {A B : Type} (self : Market) (m : M A) (k : A -> M B) :
  uses_default_currency self m ->
  (forall a, uses_default_currency self (k a)) ->
  uses_default_currency self (bindM m k).
Proof.
  intros Hm Hk log. unfold bindM. destruct (Hm log) as (new1 & E1 & F1).
  destruct (m log) as [[a|e] log1]; cbn in E1; subst log1.
  - destruct (Hk a (log ++ new1)%list) as (new2 & E2 & F2).
    exists (new1 ++ new2)%list. rewrite E2, app_assoc. split; [reflexivity|].
    apply Forall_app. now split.
  - now exists new1.
Qed.

Lemma uses_default_request (self : Market) (app_id name currency : obj)
    (raise_exception : option bool) :
  currency = self_currency self ->
  uses_default_currency self
    (_request_overview app_id name currency raise_exception).
Proof.
  intros -> log. eexists. split; [reflexivity|]. now repeat constructor.
Qed.

Lemma py_or_None (v : obj) : py_or VNone v = v.
Proof. reflexivity. Qed.

Lemma py_or_same (v : obj) : py_or v v = v.
Proof. unfold py_or. now destruct (truthy v). Qed.

Create HintDb default_currency.

#[local] Hint Resolve uses_default_lift uses_default_ret uses_default_request
  py_or_None py_or_same : default_currency.

Lemma get_price_uses_default (self : Market)
    (app_id market_hash_name price_type type_conversion currency : obj) :
  py_or currency (self_currency self) = self_currency self ->
  uses_default_currency self
    (_get_price self app_id market_hash_name price_type type_conversion
       currency).
Proof.
  intros Hc. unfold _get_price.
  apply uses_default_bind; [now apply uses_default_request|].
  intros [item|]; [|auto with default_currency].
  apply uses_default_bind; [auto with default_currency|]. intros present.
  destruct (negb present); [auto with default_currency|].
  apply uses_default_bind; [auto with default_currency|]. intros price.
  destruct (truthy type_conversion); auto with default_currency.
Qed.

Lemma overviews_of_uses_default (self : Market) (type_conversion : obj)
    (pairs : list (obj * obj)) :
  forall acc,
    uses_default_currency self
      (overviews_of self type_conversion VNone pairs acc).
Proof.
  induction pairs as [|[name id] pairs IH]; intros acc; cbn [overviews_of].
  - auto with default_currency.
  - apply uses_default_bind; [auto with default_currency|]. intros result.
    apply uses_default_bind.
    { destruct (truthy type_conversion); auto with default_currency. }
    intros entry. apply uses_default_bind; [auto with default_currency|].
    intros acc'. apply IH.
Qed.

Lemma overviews_of_names_uses_default (self : Market)
    (type_conversion app_id : obj) (names : list obj) :
  forall result,
    uses_default_currency self
      (overviews_of_names self type_conversion VNone app_id names result).
Proof.
  induction names as [|name names IH]; intros result;
    cbn [overviews_of_names].
  - auto with default_currency.
  - apply uses_default_bind; [auto with default_currency|]. intros overview.
    apply uses_default_bind.
    { destruct (truthy type_conversion); auto with default_currency. }
    intros entry. apply uses_default_bind; [auto with default_currency|].
    intros result'. apply IH.
Qed.

Lemma overviews_of_dict_uses_default (self : Market) (type_conversion : obj)
    (entries : list (obj * obj)) :
  forall result,
    uses_default_currency self
      (overviews_of_dict self type_conversion VNone entries result).
Proof.
  induction entries as [|[app_id names] entries IH]; intros result;
    cbn [overviews_of_dict].
  - auto with default_currency.
  - apply uses_default_bind; [auto with default_currency|]. intros names'.
    apply uses_default_bind; [apply overviews_of_names_uses_default|].
    intros result'. apply IH.
Qed.

Lemma get_overviews_body_uses_default (self : Market)
    (app_id market_hash_names type_conversion : obj) :
  uses_default_currency self
    (get_overviews_body self app_id market_hash_names type_conversion VNone).
Proof.
  unfold get_overviews_body.
  apply uses_default_bind; [auto with default_currency|]. intros ids.
  apply uses_default_bind; [auto with default_currency|]. intros n_names.
  apply uses_default_bind; [auto with default_currency|]. intros n_ids.
  destruct (negb (n_names =? n_ids)%nat); [auto with default_currency|].
  apply uses_default_bind; [auto with default_currency|]. intros names.
  apply uses_default_bind; [auto with default_currency|]. intros ids'.
  apply uses_default_bind; [apply overviews_of_uses_default|].
  auto with default_currency.
Qed.

Lemma get_overviews_from_dict_body_uses_default (self : Market)
    (items_dict type_conversion : obj) :
  uses_default_currency self
    (get_overviews_from_dict_body self items_dict type_conversion VNone).
Proof.
  unfold get_overviews_from_dict_body.
  apply uses_default_bind; [auto with default_currency|]. intros entries.
  apply uses_default_bind; [apply overviews_of_dict_uses_default|].
  auto with default_currency.
Qed.

Lemma get_overview_body_uses_default (self : Market)
    (app_id market_hash_name type_conversion : obj) :
  uses_default_currency self
    (get_overview_body self app_id market_hash_name type_conversion VNone).
Proof.
  unfold get_overview_body.
  apply uses_default_bind; [auto with default_currency|]. intros data.
  destruct (truthy type_conversion); auto with default_currency.
Qed.

Lemma get_prices_body_uses_default (self : Market)
    (app_id market_hash_name type_conversion : obj) :
  uses_default_currency self
    (get_prices_body self app_id market_hash_name type_conversion VNone).
Proof.
  unfold get_prices_body.
  apply uses_default_bind; [auto with default_currency|].
  intros [item|]; [|auto with default_currency].
  apply uses_default_bind; auto with default_currency.
Qed.

(** *** Binding a call that leaves the last, optional parameter out *)

Lemma lookup_app_other {A : Type} (k k' : str) (a : A)
    (d : list (str * A)) :
  k <> k' -> lookup k (d ++ [(k', a)])%list = lookup k d.
Proof.
  intros Hk. induction d as [|[k0 a0] d IH]; cbn.
  - destruct (str_eqb k' k) eqn:E; [|reflexivity].
    apply str_eqb_eq in E. congruence.
  - destruct (str_eqb k0 k); [reflexivity | exact IH].
Qed.

Lemma bind_named_last (ps0 : list parameter) (name : str) (default : obj)
    (kwargs : list (str * obj)) :
  lookup name kwargs = None ->
  bind_named (ps0 ++ [optional name default])%list kwargs
  = (vs0 <- bind_named ps0 kwargs ;; Ok (vs0 ++ [default])%list).
Proof.
  intros Hk. induction ps0 as [|p ps0 IH]; cbn [app bind_named].
  - cbn. now rewrite Hk.
  - rewrite IH.
    destruct (match lookup (param_name p) kwargs with
              | Some v => Ok v
              | None => match param_default p with
                        | Some d => Ok d
                        | None => Raise TypeError
                        end
              end) as [v|e]; cbn [bind]; [|reflexivity].
    destruct (bind_named ps0 kwargs); reflexivity.
Qed.

Lemma bind_positional_last (name : str) (default : obj)
    (kwargs : list (str * obj)) :
  lookup name kwargs = None ->
  forall (ps0 : list parameter) (args : list obj),
    (List.length args <= List.length ps0)%nat ->
    bind_positional (ps0 ++ [optional name default])%list args kwargs
    = (vs0 <- bind_positional ps0 args kwargs ;; Ok (vs0 ++ [default])%list).
Proof.
  intros Hk. induction ps0 as [|p ps0 IH]; intros args Hlen.
  - destruct args; [|cbn in Hlen; lia]. cbn. now rewrite Hk.
  - destruct args as [|a args].
    + cbn [app bind_positional]. now apply (bind_named_last (p :: ps0)).
    + cbn [app bind_positional]. cbn in Hlen.
      destruct (lookup (param_name p) kwargs); [reflexivity|].
      rewrite IH by lia.
      destruct (bind_positional ps0 args kwargs); reflexivity.
Qed.

Lemma bind_named_length (kwargs : list (str * obj)) :
  forall (ps : list parameter) (vs : list obj),
    bind_named ps kwargs = Ok vs -> List.length vs = List.length ps.
Proof.
  induction ps as [|p ps IH]; intros vs H; cbn in H.
  - now injection H as <-.
  - destruct (match lookup (param_name p) kwargs with
              | Some v => Ok v
              | None => match param_default p with
                        | Some d => Ok d
                        | None => Raise TypeError
                        end
              end) as [v|e]; cbn in H; [|discriminate].
    destruct (bind_named ps kwargs) as [vs'|e] eqn:E; cbn in H;
      [|discriminate].
    injection H as <-. cbn. now rewrite (IH vs').
Qed.

Lemma bind_positional_length (kwargs : list (str * obj)) :
  forall (ps : list parameter) (args vs : list obj),
    bind_positional ps args kwargs = Ok vs ->
    List.length vs = List.length ps.
Proof.
  induction ps as [|p ps IH]; intros args vs H.
  - destruct args; cbn in H; [now injection H as <- | discriminate].
  - destruct args as [|a args].
    + now apply (bind_named_length kwargs).
    + cbn in H. destruct (lookup (param_name p) kwargs); [discriminate|].
      destruct (bind_positional ps args kwargs) as [vs'|e] eqn:E; cbn in H;
        [|discriminate].
      injection H as <-. cbn. now rewrite (IH args vs').
Qed.

Lemma sanitize_args_length :
  forall (names : list str) (args args' : list obj),
    sanitize_args names args = Ok args' ->
    List.length args' = List.length args.
Proof.
  intros names args. revert names.
  induction args as [|a args IH]; intros names args' H.
  - destruct names; cbn in H; now injection H as <-.
  - destruct names as [|k names]; cbn [sanitize_args] in H; [discriminate|].
    destruct (if mem_string k (map fst _SANITIZE_FUNCS)
              then _sanitize_value a k else Ok a) as [a'|e];
      cbn [bind] in H; [|discriminate].
    destruct (sanitize_args names args) as [rest|e] eqn:E; cbn in H;
      [|discriminate].
    injection H as <-. cbn. now rewrite (IH names rest).
Qed.

Lemma sanitize_kwargs_lookup (k : str) :
  forall (kwargs kwargs' : list (str * obj)),
    sanitize_kwargs kwargs = Ok kwargs' ->
    lookup k kwargs = None -> lookup k kwargs' = None.
Proof.
  induction kwargs as [|[k0 v0] kwargs IH]; intros kwargs' H Hk.
  - cbn in H. now injection H as <-.
  - cbn [sanitize_kwargs lookup] in H, Hk.
    destruct (if mem_string k0 (map fst _SANITIZE_FUNCS)
              then _sanitize_value v0 k0 else Ok v0) as [v|e];
      cbn [bind] in H; [|discriminate].
    destruct (sanitize_kwargs kwargs) as [rest|e] eqn:E; cbn in H;
      [|discriminate].
    injection H as <-. cbn.
    destruct (str_eqb k0 k); [discriminate|]. now apply IH.
Qed.

(** A decorated method whose last parameter is an optional that the call
    leaves out runs its body with the default in that place. *)
Lemma decorated_def_default {R : Type} (P : M R -> Prop)
    (ps0 : list parameter) (name : str) (default : obj)
    (annots : list (str * ty)) (body : list obj -> M R)
    (args : list obj) (kwargs : list (str * obj)) :
  (forall e, P (lift (Raise e))) ->
  (forall vs0, List.length vs0 = List.length ps0 ->
               P (body (vs0 ++ [default])%list)) ->
  (List.length args <= List.length ps0)%nat ->
  lookup name kwargs = None ->
  exists m : M R,
    P m /\
    forall log,
      call (decorated (def (ps0 ++ [optional name default])%list annots body))
        args kwargs log = m log.
Proof.
  intros Hraise Hbody Hlen Hk.
  set (func := def (ps0 ++ [optional name default])%list annots body).
  destruct (typecheck_args (annotations func) (param_names func) args)
    as [[]|e] eqn:E1;
    [|exists (lift (Raise e)); split; [apply Hraise|];
      intros log; now rewrite decorated_call, E1].
  destruct (typecheck_kwargs (annotations func) kwargs) as [[]|e] eqn:E2;
    [|exists (lift (Raise e)); split; [apply Hraise|];
      intros log; now rewrite decorated_call, E1, E2].
  destruct (sanitize_args (param_names func) args) as [args'|e] eqn:E3;
    [|exists (lift (Raise e)); split; [apply Hraise|];
      intros log; now rewrite decorated_call, E1, E2, E3].
  destruct (sanitize_kwargs kwargs) as [kwargs'|e] eqn:E4;
    [|exists (lift (Raise e)); split; [apply Hraise|];
      intros log; now rewrite decorated_call, E1, E2, E3, E4].
  pose proof (sanitize_args_length _ _ _ E3) as Hlen'.
  pose proof (sanitize_kwargs_lookup name _ _ E4 Hk) as Hk'.
  destruct (bind_arguments (ps0 ++ [optional name default])%list args' kwargs')
    as [vs|e] eqn:E5.
  - unfold bind_arguments in E5.
    destruct (forallb _ kwargs') eqn:E7; [|discriminate].
    rewrite (bind_positional_last name default kwargs' Hk') in E5 by lia.
    destruct (bind_positional ps0 args' kwargs') as [vs0|e] eqn:E6;
      cbn in E5; [|discriminate].
    injection E5 as <-.
    exists (body (vs0 ++ [default])%list). split.
    + apply Hbody. now apply (bind_positional_length kwargs' ps0 args').
    + intros log. rewrite decorated_call, E1, E2, E3, E4.
      unfold func, def, bindM, lift. cbn [call].
      unfold bind_arguments. rewrite E7.
      rewrite (bind_positional_last name default kwargs' Hk') by lia.
      now rewrite E6.
  - exists (lift (Raise e)). split; [apply Hraise|].
    intros log. rewrite decorated_call, E1, E2, E3, E4.
    unfold func, def, bindM, lift. cbn [call]. now rewrite E5.
Qed.

Lemma uses_default_ext {A : Type} (self : Market) (m m' : M A) :
  uses_default_currency self m ->
  (forall log, m' log = m log) ->
  uses_default_currency self m'.
Proof. intros Hm E log. rewrite E. apply Hm. Qed.

Lemma decorated_def_uses_default {R : Type} (self : Market)
    (ps0 : list parameter) (annots : list (str * ty))
    (body : list obj -> M R) (args : list obj) (kwargs : list (str * obj)) :
  (forall vs0, List.length vs0 = List.length ps0 ->
               uses_default_currency self (body (vs0 ++ [VNone])%list)) ->
  (List.length args <= List.length ps0)%nat ->
  lookup "currency" kwargs = None ->
  uses_default_currency self
    (call (decorated (def (ps0 ++ [optional "currency" VNone])%list annots body))
       args kwargs).
Proof.
  intros Hbody Hlen Hk.
  destruct (decorated_def_default (uses_default_currency self) ps0 "currency"
              VNone annots body args kwargs) as (m & Hm & E); auto.
  - intros e. apply uses_default_lift.
  - exact (uses_default_ext self m _ Hm E).
Qed.

Ltac exactly_long vs0 H :=
  repeat (destruct vs0 as [|? vs0]; cbn in H; try discriminate H; try lia).

Lemma item_def_uses_default (self : Market) (returns : ty)
    (body : obj -> obj -> obj -> obj -> M obj)
    (args : list obj) (kwargs : list (str * obj)) :
  (forall a b c, uses_default_currency self (body a b c VNone)) ->
  (List.length args <= 3)%nat ->
  lookup "currency" kwargs = None ->
  uses_default_currency self
    (call (decorated (item_def returns body)) args kwargs).
Proof.
  intros Hbody Hlen Hk.
  apply (decorated_def_uses_default self
           [ required "app_id"; required "market_hash_name";
             optional "type_conversion" (VBool true) ]); auto.
  intros vs0 H. exactly_long vs0 H. apply Hbody.
Qed.

(** *** Leaving the currency out and passing the default in *)

Lemma bindM_ext {A B : Type} (m : M A) (k k' : A -> M B) :
  (forall a log, k a log = k' a log) ->
  forall log, bindM m k log = bindM m k' log.
Proof.
  intros H log. unfold bindM. destruct (m log) as [[a|e] log']; auto.
Qed.

Lemma currency_truthy (c : SteamCurrency.t) : truthy (VCurrency c) = true.
Proof. destruct c; reflexivity. Qed.

Lemma py_or_currency (c : SteamCurrency.t) (v : obj) :
  py_or (VCurrency c) v = VCurrency c.
Proof. unfold py_or. now rewrite currency_truthy. Qed.

Lemma typecheck_kwargs_passing (annots : list (str * ty)) (k : str)
    (v : obj) (kwargs : list (str * obj)) :
  fails_annotation annots k v = Ok false ->
  typecheck_kwargs annots (kwargs ++ [(k, v)])%list
  = typecheck_kwargs annots kwargs.
Proof.
  intros Hv. induction kwargs as [|[k' v'] kwargs IH]; cbn.
  - now rewrite Hv.
  - destruct (fails_annotation annots k' v') as [[|]|e]; cbn; auto.
Qed.

Lemma sanitize_kwargs_fixed (k : str) (v : obj)
    (kwargs : list (str * obj)) :
  (if mem_string k (map fst _SANITIZE_FUNCS) then _sanitize_value v k
   else Ok v) = Ok v ->
  sanitize_kwargs (kwargs ++ [(k, v)])%list
  = (kwargs' <- sanitize_kwargs kwargs ;; Ok (kwargs' ++ [(k, v)])%list).
Proof.
  intros Hv. induction kwargs as [|[k' v'] kwargs IH];
    cbn [app sanitize_kwargs].
  - now rewrite Hv.
  - rewrite IH.
    destruct (if mem_string k' (map fst _SANITIZE_FUNCS)
              then _sanitize_value v' k' else Ok v') as [w|e];
      cbn [bind]; [|reflexivity].
    destruct (sanitize_kwargs kwargs); reflexivity.
Qed.

Lemma lookup_app_last {A : Type} (k : str) (a : A) (d : list (str * A)) :
  lookup k d = None -> lookup k (d ++ [(k, a)])%list = Some a.
Proof.
  induction d as [|[k0 a0] d IH]; cbn.
  - now rewrite str_eqb_refl.
  - destruct (str_eqb k0 k); [discriminate | exact IH].
Qed.

Lemma mem_string_In (x : str) (l : list str) :
  mem_string x l = true <-> In x l.
Proof.
  induction l as [|y l IH]; cbn; [split; [discriminate | contradiction]|].
  rewrite orb_true_iff, IH, str_eqb_eq. intuition congruence.
Qed.

Lemma bind_named_explicit (name : str) (default v : obj)
    (kwargs : list (str * obj)) :
  lookup name kwargs = None ->
  forall ps0 : list parameter,
    ~ In name (map param_name ps0) ->
    bind_named (ps0 ++ [optional name default])%list
      (kwargs ++ [(name, v)])%list
    = (vs0 <- bind_named ps0 kwargs ;; Ok (vs0 ++ [v])%list).
Proof.
  intros Hk. induction ps0 as [|p ps0 IH]; intros Hnot;
    cbn [app bind_named].
  - cbn. now rewrite (lookup_app_last name v kwargs Hk).
  - cbn in Hnot. rewrite lookup_app_other by intuition congruence.
    rewrite IH by tauto.
    destruct (match lookup (param_name p) kwargs with
              | Some v => Ok v
              | None => match param_default p with
                        | Some d => Ok d
                        | None => Raise TypeError
                        end
              end) as [w|e]; cbn [bind]; [|reflexivity].
    destruct (bind_named ps0 kwargs); reflexivity.
Qed.

Lemma bind_positional_explicit (name : str) (default v : obj)
    (kwargs : list (str * obj)) :
  lookup name kwargs = None ->
  forall (ps0 : list parameter) (args : list obj),
    ~ In name (map param_name ps0) ->
    (List.length args <= List.length ps0)%nat ->
    bind_positional (ps0 ++ [optional name default])%list args
      (kwargs ++ [(name, v)])%list
    = (vs0 <- bind_positional ps0 args kwargs ;; Ok (vs0 ++ [v])%list).
Proof.
  intros Hk. induction ps0 as [|p ps0 IH]; intros args Hnot Hlen.
  - destruct args; [|cbn in Hlen; lia]. cbn.
    now rewrite (lookup_app_last name v kwargs Hk).
  - destruct args as [|a args].
    + cbn [app bind_positional].
      now apply (bind_named_explicit name default v kwargs Hk (p :: ps0)).
    + cbn [app bind_positional]. cbn in Hlen, Hnot.
      rewrite lookup_app_other by intuition congruence.
      destruct (lookup (param_name p) kwargs); [reflexivity|].
      rewrite IH by (tauto || lia).
      destruct (bind_positional ps0 args kwargs); reflexivity.
Qed.

Lemma bind_arguments_explicit (name : str) (default v : obj)
    (ps0 : list parameter) (args : list obj) (kwargs : list (str * obj)) :
  lookup name kwargs = None ->
  ~ In name (map param_name ps0) ->
  (List.length args <= List.length ps0)%nat ->
  exists r : outcome (list obj),
    bind_arguments (ps0 ++ [optional name default])%list args kwargs
    = (vs0 <- r ;; Ok (vs0 ++ [default])%list)
    /\ bind_arguments (ps0 ++ [optional name default])%list args
         (kwargs ++ [(name, v)])%list
       = (vs0 <- r ;; Ok (vs0 ++ [v])%list)
    /\ forall vs0, r = Ok vs0 -> List.length vs0 = List.length ps0.
Proof.
  intros Hk Hnot Hlen. unfold bind_arguments.
  rewrite forallb_app. cbn [forallb fst].
  assert (Hmem : mem_string name
                   (map param_name (ps0 ++ [optional name default])%list)
                 = true).
  { apply mem_string_In. rewrite map_app. apply in_or_app. right. now left. }
  rewrite Hmem, !andb_true_r.
  destruct (forallb _ kwargs).
  - exists (bind_positional ps0 args kwargs). repeat split.
    + now apply bind_positional_last.
    + now apply bind_positional_explicit.
    + intros vs0. apply bind_positional_length.
  - exists (Raise TypeError). repeat split. intros vs0 H. discriminate.
Qed.

(** Passing [v] by keyword for the last, optional parameter of a decorated
    method is leaving it out, when the validator and the sanitiser let [v]
    through as it is and the body does the same with [v] as with the
    default. *)
Lemma decorated_def_explicit {R : Type} (ps0 : list parameter) (name : str)
    (default v : obj) (annots : list (str * ty)) (body : list obj -> M R)
    (args : list obj) (kwargs : list (str * obj)) :
  ~ In name (map param_name ps0) ->
  fails_annotation annots name v = Ok false ->
  (if mem_string name (map fst _SANITIZE_FUNCS) then _sanitize_value v name
   else Ok v) = Ok v ->
  (forall vs0 log, List.length vs0 = List.length ps0 ->
     body (vs0 ++ [default])%list log = body (vs0 ++ [v])%list log) ->
  (List.length args <= List.length ps0)%nat ->
  lookup name kwargs = None ->
  forall log,
    call (decorated (def (ps0 ++ [optional name default])%list annots body))
      args kwargs log
    = call (decorated (def (ps0 ++ [optional name default])%list annots body))
        args (kwargs ++ [(name, v)])%list log.
Proof.
  intros Hnot Hcheck Hsan Hbody Hlen Hk log.
  rewrite !decorated_call.
  cbn [annotations def].
  rewrite (typecheck_kwargs_passing annots name v kwargs Hcheck).
  rewrite (sanitize_kwargs_fixed name v kwargs Hsan).
  destruct (typecheck_args _ _ args) as [[]|e]; [|reflexivity].
  destruct (typecheck_kwargs annots kwargs) as [[]|e]; [|reflexivity].
  destruct (sanitize_args _ args) as [args'|e] eqn:E3; [|reflexivity].
  destruct (sanitize_kwargs kwargs) as [kwargs'|e] eqn:E4; cbn [bind];
    [|reflexivity].
  pose proof (sanitize_args_length _ _ _ E3) as Hlen'.
  pose proof (sanitize_kwargs_lookup name _ _ E4 Hk) as Hk'.
  destruct (bind_arguments_explicit name default v ps0 args' kwargs' Hk' Hnot)
    as (r & E1 & E2 & Hr); [lia|].
  unfold def, bindM, lift. cbn [call]. rewrite E1, E2.
  destruct r as [vs0|e]; cbn [bind]; [|reflexivity].
  apply Hbody. now apply Hr.
Qed.

(** The bodies depend on the currency they are given only through the
    currency they request with. *)
Section SameRequests.
Variable self : Market.
Variables currency currency' : obj.
Hypothesis same :
  py_or currency (self_currency self) = py_or currency' (self_currency self).

Lemma _get_price_same (app_id market_hash_name price_type type_conversion : obj)
    (log : list request) :
  _get_price self app_id market_hash_name price_type type_conversion
    currency log
  = _get_price self app_id market_hash_name price_type type_conversion
      currency' log.
Proof. unfold _get_price. now rewrite same. Qed.

Lemma get_overview_body_same (app_id market_hash_name type_conversion : obj)
    (log : list request) :
  get_overview_body self app_id market_hash_name type_conversion currency log
  = get_overview_body self app_id market_hash_name type_conversion
      currency' log.
Proof. unfold get_overview_body. now rewrite same. Qed.

Lemma get_prices_body_same (app_id market_hash_name type_conversion : obj)
    (log : list request) :
  get_prices_body self app_id market_hash_name type_conversion currency log
  = get_prices_body self app_id market_hash_name type_conversion
      currency' log.
Proof. unfold get_prices_body. now rewrite same. Qed.

Lemma overviews_of_same (type_conversion : obj) (pairs : list (obj * obj)) :
  forall acc log,
    overviews_of self type_conversion currency pairs acc log
    = overviews_of self type_conversion currency' pairs acc log.
Proof.
  induction pairs as [|[name id] pairs IH]; intros acc log;
    cbn [overviews_of]; [reflexivity|].
  rewrite same. apply bindM_ext. intros result log1.
  apply bindM_ext. intros entry log2.
  apply bindM_ext. intros acc' log3. apply IH.
Qed.

Lemma overviews_of_names_same (type_conversion app_id : obj)
    (names : list obj) :
  forall result log,
    overviews_of_names self type_conversion currency app_id names result log
    = overviews_of_names self type_conversion currency' app_id names
        result log.
Proof.
  induction names as [|name names IH]; intros result log;
    cbn [overviews_of_names]; [reflexivity|].
  rewrite same. apply bindM_ext. intros overview log1.
  apply bindM_ext. intros entry log2.
  apply bindM_ext. intros result' log3. apply IH.
Qed.

Lemma overviews_of_dict_same (type_conversion : obj)
    (entries : list (obj * obj)) :
  forall result log,
    overviews_of_dict self type_conversion currency entries result log
    = overviews_of_dict self type_conversion currency' entries result log.
Proof.
  induction entries as [|[app_id names] entries IH]; intros result log;
    cbn [overviews_of_dict]; [reflexivity|].
  apply bindM_ext. intros names' log1.
  unfold bindM. rewrite overviews_of_names_same.
  destruct (overviews_of_names _ _ _ _ _ _ _) as [[result'|e] log2];
    [apply IH | reflexivity].
Qed.

Lemma get_overviews_body_same (app_id market_hash_names type_conversion : obj)
    (log : list request) :
  get_overviews_body self app_id market_hash_names type_conversion
    currency log
  = get_overviews_body self app_id market_hash_names type_conversion
      currency' log.
Proof.
  unfold get_overviews_body.
  apply bindM_ext. intros ids log1.
  apply bindM_ext. intros n_names log2.
  apply bindM_ext. intros n_ids log3.
  destruct (negb (n_names =? n_ids)%nat); [reflexivity|].
  apply bindM_ext. intros names log4.
  apply bindM_ext. intros ids' log5.
  unfold bindM. now rewrite overviews_of_same.
Qed.

Lemma get_overviews_from_dict_body_same (items_dict type_conversion : obj)
    (log : list request) :
  get_overviews_from_dict_body self items_dict type_conversion currency log
  = get_overviews_from_dict_body self items_dict type_conversion
      currency' log.
Proof.
  unfold get_overviews_from_dict_body.
  apply bindM_ext. intros entries log1.
  unfold bindM. now rewrite overviews_of_dict_same.
Qed.
End SameRequests.

Lemma item_def_explicit (returns : ty)
    (body : obj -> obj -> obj -> obj -> M obj) (c : SteamCurrency.t)
    (args : list obj) (kwargs : list (str * obj)) (log : list request) :
  (forall a b t log, body a b t VNone log = body a b t (VCurrency c) log) ->
  (List.length args <= 3)%nat ->
  lookup "currency" kwargs = None ->
  call (decorated (item_def returns body)) args kwargs log
  = call (decorated (item_def returns body)) args
      (kwargs ++ [("currency", VCurrency c)])%list log.
Proof.
  intros Hbody Hlen Hk.
  apply (decorated_def_explicit
           [ required "app_id"; required "market_hash_name";
             optional "type_conversion" (VBool true) ]
           "currency" VNone (VCurrency c)); auto.
  - cbn. intuition discriminate.
  - intros vs0 log' H. exactly_long vs0 H. apply Hbody.
Qed.

(** For every public operation with an optional [currency]: passing [None]
    for it, by keyword or by position, next to arguments that pass
    validation, fails with [TypeError] and nothing is requested; leaving it
    out, no request carries another currency than that of the instance, and
    the call does what the same call does with the currency of the instance,
    an active member, passed by keyword. *)
Lemma optional_currency_any_call (op : Market -> pyfunc obj) (self : Market) :
  In op currency_operations ->
  (forall (args : list obj) (pre post : list (str * obj))
          (log : list request),
      typecheck_args (annotations (op self)) (param_names (op self)) args
        = Ok tt ->
      typecheck_kwargs (annotations (op self)) pre = Ok tt ->
      call (decorated (op self)) args
        (pre ++ ("currency", VNone) :: post)%list log
      = (Raise TypeError, log))
  /\ (forall (before after : list obj) (kwargs : list (str * obj))
             (log : list request),
      S (List.length before) = List.length (parameters (op self)) ->
      typecheck_args (annotations (op self)) (param_names (op self)) before
        = Ok tt ->
      call (decorated (op self)) (before ++ VNone :: after)%list kwargs log
      = (Raise TypeError, log))
  /\ (forall (args : list obj) (kwargs : list (str * obj)),
      (List.length args < List.length (parameters (op self)))%nat ->
      lookup "currency" kwargs = None ->
      uses_default_currency self (call (decorated (op self)) args kwargs))
  /\ (forall (c : SteamCurrency.t) (args : list obj)
             (kwargs : list (str * obj)) (log : list request),
      self_currency self = VCurrency c ->
      (List.length args < List.length (parameters (op self)))%nat ->
      lookup "currency" kwargs = None ->
      call (decorated (op self)) args kwargs log
      = call (decorated (op self)) args
          (kwargs ++ [("currency", VCurrency c)])%list log).
Proof.
  intros Hin.
  assert (Hnone : forall annots, lookup "currency" annots = Some t_currency ->
                    fails_annotation annots "currency" VNone = Ok true).
  { intros annots H. unfold fails_annotation. now rewrite H. }
  assert (Hshape : lookup "currency" (annotations (op self)) = Some t_currency
                   /\ forall before : list obj,
                        S (List.length before)
                          = List.length (parameters (op self)) ->
                        nth_error (param_names (op self)) (List.length before)
                          = Some "currency").
  { cbn in Hin.
    repeat (destruct Hin as [<- | Hin];
            [split; [reflexivity|];
             intros before H; cbn in H; injection H as ->; reflexivity|]).
    contradiction. }
  destruct Hshape as [Hannot Hnth].
  split; [|split; [|split]].
  - intros args pre post log Hargs Hpre.
    rewrite decorated_call, Hargs.
    now rewrite (typecheck_kwargs_fails _ pre "currency" VNone post Hpre
                   (Hnone _ Hannot)).
  - intros before after kwargs log Hlen Hpre.
    rewrite decorated_call.
    now rewrite (typecheck_args_fails _ "currency" VNone after
                   (Hnone _ Hannot) before _ Hpre (Hnth before Hlen)).
  - intros args kwargs Hlen Hk. cbn in Hin.
    destruct Hin as [<- | [<- | [<- | [<- | [<- | [<- | [<- | []]]]]]]];
      cbn in Hlen.
    + apply item_def_uses_default; [|lia|assumption].
      apply get_overview_body_uses_default.
    + apply (decorated_def_uses_default self
               [ required "app_id"; required "market_hash_names";
                 optional "type_conversion" (VBool true) ]);
        [|cbn; lia|assumption].
      intros vs0 H. exactly_long vs0 H.
      apply get_overviews_body_uses_default.
    + apply (decorated_def_uses_default self
               [ required "items_dict";
                 optional "type_conversion" (VBool true) ]);
        [|cbn; lia|assumption].
      intros vs0 H. exactly_long vs0 H.
      apply get_overviews_from_dict_body_uses_default.
    + apply item_def_uses_default; [|lia|assumption].
      apply get_prices_body_uses_default.
    + apply item_def_uses_default; [|lia|assumption].
      intros a b c. apply get_price_uses_default.
      rewrite py_or_None. apply py_or_same.
    + apply item_def_uses_default; [|lia|assumption].
      intros a b c. apply get_price_uses_default.
      rewrite py_or_None. apply py_or_same.
    + apply (decorated_def_uses_default self
               [ required "app_id"; required "market_hash_name";
                 required "price_type";
                 optional "type_conversion" (VBool true) ]);
        [|cbn; lia|assumption].
      intros vs0 H. exactly_long vs0 H.
      apply get_price_uses_default. apply py_or_None.
  - intros c args kwargs log Hself Hlen Hk. cbn in Hin.
    assert (Hsame : py_or VNone (self_currency self)
                    = py_or (VCurrency c) (self_currency self)).
    { now rewrite py_or_None, py_or_currency. }
    destruct Hin as [<- | [<- | [<- | [<- | [<- | [<- | [<- | []]]]]]]];
      cbn in Hlen.
    + apply item_def_explicit; [|lia|assumption].
      intros a b t log'. now apply get_overview_body_same.
    + apply (decorated_def_explicit
               [ required "app_id"; required "market_hash_names";
                 optional "type_conversion" (VBool true) ]
               "currency" VNone (VCurrency c)); auto;
        [cbn; intuition discriminate | | cbn; lia].
      intros vs0 log' H. exactly_long vs0 H.
      now apply get_overviews_body_same.
    + apply (decorated_def_explicit
               [ required "items_dict";
                 optional "type_conversion" (VBool true) ]
               "currency" VNone (VCurrency c)); auto;
        [cbn; intuition discriminate | | cbn; lia].
      intros vs0 log' H. exactly_long vs0 H.
      now apply get_overviews_from_dict_body_same.
    + apply item_def_explicit; [|lia|assumption].
      intros a b t log'. now apply get_prices_body_same.
    + apply item_def_explicit; [|lia|assumption].
      intros a b t log'. unfold get_lowest_price_body.
      apply _get_price_same. now rewrite Hsame.
    + apply item_def_explicit; [|lia|assumption].
      intros a b t log'. unfold get_median_price_body.
      apply _get_price_same. now rewrite Hsame.
    + apply (decorated_def_explicit
               [ required "app_id"; required "market_hash_name";
                 required "price_type";
                 optional "type_conversion" (VBool true) ]
               "currency" VNone (VCurrency c)); auto;
        [cbn; intuition discriminate | | cbn; lia].
      intros vs0 log' H. exactly_long vs0 H.
      now apply _get_price_same.
Qed.

(** *** The calls that leave the currency out *)

Lemma item_call_without_currency (self : Market) (n : Z)
    (market_hash_name : str) (log : list request) :
  let r := default_request self n (replace "/" "-" market_hash_name) None in
  call (get_overview self) [VInt n; VStr market_hash_name] [] log
  = (data <- transport r ;; _overview_type_converter data None,
     (log ++ [r])%list)
  /\ call (get_prices self) [VInt n; VStr market_hash_name] [] log
     = (data <- transport r ;;
        match data with
        | None => Ok VNone
        | Some item =>
            prices <- prices_of item (VBool true)
                        ["lowest_price"; "median_price"] [] ;;
            Ok (py_or (json_dict prices) VNone)
        end,
        (log ++ [r])%list)
  /\ call (get_lowest_price self) [VInt n; VStr market_hash_name] [] log
     = (data <- transport r ;;
        match data with
        | None => Ok VNone
        | Some item =>
            match json_get item "lowest_price" with
            | Some price => _price_to_float price
            | None => Ok VNone
            end
        end,
        (log ++ [r])%list)
  /\ call (get_median_price self) [VInt n; VStr market_hash_name] [] log
     = (data <- transport r ;;
        match data with
        | None => Ok VNone
        | Some item =>
            match json_get item "median_price" with
            | Some price => _price_to_float price
            | None => Ok VNone
            end
        end,
        (log ++ [r])%list)
  /\ (forall price_type : str,
        is_valid_price_type (VStr price_type) = true ->
        call (get_price self)
          [VInt n; VStr market_hash_name; VStr price_type] [] log
        = (data <- transport r ;; Ok VNone, (log ++ [r])%list)).
Proof.
  intros r.
  refine (conj _ (conj _ (conj _ (conj _ _)))).
  - unfold get_overview. rewrite decorated_call. cbn.
    unfold get_overview_body, bindM, _request_overview.
    rewrite ?py_or_None.
    fold (default_request self n (replace "/" "-" market_hash_name) None).
    fold r. destruct (transport r) as [[item|]|e]; reflexivity.
  - unfold get_prices. rewrite decorated_call. cbn.
    unfold get_prices_body, bindM, _request_overview.
    rewrite ?py_or_None.
    fold (default_request self n (replace "/" "-" market_hash_name) None).
    fold r. destruct (transport r) as [[item|]|e]; try reflexivity.
    unfold lift, ret. cbn [bind].
    destruct (json_get item "lowest_price") as [v1|];
      [destruct (_price_to_float v1); cbn [bind]|];
      try (destruct (json_get item "median_price") as [v2|];
           [destruct (_price_to_float v2)|]);
      reflexivity.
  - unfold get_lowest_price. rewrite decorated_call. cbn.
    unfold get_lowest_price_body, _get_price, bindM, _request_overview.
    rewrite ?py_or_None, ?py_or_same.
    fold (default_request self n (replace "/" "-" market_hash_name) None).
    fold r. destruct (transport r) as [[item|]|e]; try reflexivity.
    unfold lift, ret, json_has, json_item. cbn [bind].
    destruct (json_get item "lowest_price"); reflexivity.
  - unfold get_median_price. rewrite decorated_call. cbn.
    unfold get_median_price_body, _get_price, bindM, _request_overview.
    rewrite ?py_or_None, ?py_or_same.
    fold (default_request self n (replace "/" "-" market_hash_name) None).
    fold r. destruct (transport r) as [[item|]|e]; try reflexivity.
    unfold lift, ret, json_has, json_item. cbn [bind].
    destruct (json_get item "median_price"); reflexivity.
  - intros price_type Hpt. unfold get_price. rewrite decorated_call.
    cbn. cbn in Hpt. rewrite Hpt. cbn.
    unfold get_price_body, _get_price, bindM, _request_overview.
    rewrite ?py_or_None.
    fold (default_request self n (replace "/" "-" market_hash_name) None).
    fold r. destruct (transport r) as [[item|]|e]; reflexivity.
Qed.

Lemma overviews_of_answered (self : Market) (n : Z) (names : list str) :
  (forall name, In name names ->
     answered (default_request self n name (Some false))) ->
  forall (acc : list (obj * obj)) (log : list request),
  exists d : list (obj * obj),
    overviews_of self (VBool true) VNone
      (map (fun s => (VStr s, VInt n)) names) acc log
    = (Ok d,
       (log ++ map (fun name => default_request self n name (Some false))
                 names)%list).
Proof.
  induction names as [|name names IH]; intros Ht acc log.
  - exists acc. cbn. now rewrite app_nil_r.
  - destruct (Ht name) as (item & entry & Hd & Hconv); [now left|].
    destruct (IH (fun name' H => Ht name' (or_intror H))
                (dict_update acc (VStr name) entry)
                (log ++ [default_request self n name (Some false)])%list)
      as (d & Hrun).
    exists d. cbn [map overviews_of].
    unfold bindM at 1, _request_overview at 1. rewrite py_or_None.
    fold (default_request self n name (Some false)). rewrite Hd.
    cbn [truthy]. unfold bindM at 1, lift at 1. rewrite Hconv.
    unfold bindM at 1, lift at 1, dict_set. cbn [hashable].
    rewrite Hrun. now rewrite <- app_assoc.
Qed.

Lemma overviews_of_names_answered (self : Market) (n : Z)
    (names : list str) :
  (forall name, In name names ->
     answered (default_request self n name (Some false))) ->
  forall (result : list (obj * obj)) (log : list request),
  exists d : list (obj * obj),
    overviews_of_names self (VBool true) VNone (VInt n) (map VStr names)
      result log
    = (Ok d,
       (log ++ map (fun name => default_request self n name (Some false))
                 names)%list).
Proof.
  induction names as [|name names IH]; intros Ht result log.
  - exists result. cbn. now rewrite app_nil_r.
  - destruct (Ht name) as (item & entry & Hd & Hconv); [now left|].
    destruct (IH (fun name' H => Ht name' (or_intror H))
                (dict_update result (VStr name) entry)
                (log ++ [default_request self n name (Some false)])%list)
      as (d & Hrun).
    exists d. cbn [map overviews_of_names].
    unfold bindM at 1, _request_overview at 1. rewrite py_or_None.
    fold (default_request self n name (Some false)). rewrite Hd.
    cbn [truthy]. unfold bindM at 1, lift at 1. rewrite Hconv.
    unfold bindM at 1, lift at 1, dict_set. cbn [hashable].
    rewrite Hrun. now rewrite <- app_assoc.
Qed.

Lemma overviews_of_dict_answered (self : Market)
    (entries : list (Z * list str)) :
  (forall e name, In e entries -> In name (snd e) ->
     answered (default_request self (fst e) name (Some false))) ->
  forall (result : list (obj * obj)) (log : list request),
  exists d : list (obj * obj),
    overviews_of_dict self (VBool true) VNone
      (map (fun e => (VInt (fst e), VList (map VStr (snd e)))) entries)
      result log
    = (Ok d,
       (log ++ flat_map
                 (fun e => map (fun name =>
                                  default_request self (fst e) name (Some false))
                               (snd e))
                 entries)%list).
Proof.
  induction entries as [|e entries IH]; intros Ht result log.
  - exists result. cbn. now rewrite app_nil_r.
  - destruct (overviews_of_names_answered self (fst e) (snd e)
                (fun name H => Ht e name (or_introl eq_refl) H) result log)
      as (d1 & H1).
    destruct (IH (fun e' name Hin H => Ht e' name (or_intror Hin) H) d1
                (log ++ map (fun name =>
                               default_request self (fst e) name (Some false))
                            (snd e))%list)
      as (d & Hrun).
    exists d. cbn [map overviews_of_dict].
    unfold bindM at 1, lift at 1. cbn [py_iter].
    unfold bindM at 1. rewrite H1, Hrun.
    cbn [flat_map]. now rewrite <- app_assoc.
Qed.

Lemma typecheck_entries (entries : list (Z * list str)) :
  _typecheck_value
    (VDict (map (fun e => (VInt (fst e), VList (map VStr (snd e)))) entries))
    (TDict [t_app_id; TList [t_str]])
  = Ok true.
Proof.
  cbn [_typecheck_value py_items bind].
  induction entries as [|e entries IH]; [reflexivity|].
  cbn [map all_r fst snd].
  cbn [_typecheck_value t_app_id t_int any_r isinstance bind py_iter].
  pose proof (typecheck_names (snd e)) as Hn.
  cbn [_typecheck_value t_str] in Hn |- *. rewrite Hn. exact IH.
Qed.


(** * Further properties *)

(** ** The price parser, on any text *)

Lemma price_search_prefix (prefix s : str) :
  has_digit prefix = false ->
  price_search (prefix ++ s) = price_search s.
Proof.
  induction prefix as [|c prefix IH]; [reflexivity|].
  cbn [has_digit]. intros H. apply orb_false_iff in H as [Hc Hp].
  cbn [append price_search].
  rewrite price_match_no_digit by exact Hc. now apply IH.
Qed.

Lemma price_to_float_skips_prefix_aux (prefix s : str) :
  has_digit prefix = false ->
  _price_to_float (VStr (prefix ++ s)) = _price_to_float (VStr s).
Proof.
  intros H. unfold _price_to_float. now rewrite (price_search_prefix _ _ H).
Qed.

(** X1.  Whatever stands before the first digit of a text, a currency symbol
    for one, is skipped: it does not change what [_price_to_float] returns. *)
Theorem price_to_float_skips_prefix (prefix s : str) :
  has_digit prefix = false ->
  _price_to_float (VStr (prefix ++ s)) = _price_to_float (VStr s).
Proof. exact (price_to_float_skips_prefix_aux prefix s). Qed.

Lemma take_digits_digits (n : nat) : forall (s d r : str),
  take_digits n s = (d, r) -> all_digits d = true.
Proof.
  induction n as [|n IH]; intros s d r H.
  - destruct s; cbn in H; injection H as <- <-; reflexivity.
  - destruct s as [|c s]; cbn in H; [injection H as <- <-; reflexivity|].
    destruct (is_digit c) eqn:Hc; [|injection H as <- <-; reflexivity].
    destruct (take_digits n s) as [d' r'] eqn:E. injection H as <- <-.
    cbn. rewrite Hc. exact (IH s d' r' E).
Qed.

Lemma strip_separators_app (a b : str) :
  strip_separators (a ++ b) = strip_separators a ++ strip_separators b.
Proof. unfold strip_separators. now rewrite !replace_app. Qed.

Lemma take_groups_digits : forall (n : nat) (s g r : str),
  (str_length s <= n)%nat ->
  take_groups s = (g, r) -> all_digits (strip_separators g) = true.
Proof.
  induction n as [|n IH]; intros s g r Hn H.
  - destruct s; [|cbn in Hn; lia]. cbn in H. injection H as <- <-. reflexivity.
  - destruct s as [|c [|d1 [|d2 [|d3 s]]]];
      try (cbn in H; injection H as <- <-; reflexivity).
    cbn [take_groups] in H.
    destruct (is_separator c && is_digit d1 && is_digit d2 && is_digit d3)
      eqn:E; [|injection H as <- <-; reflexivity].
    destruct (take_groups s) as [g' r'] eqn:Eg. injection H as <- <-.
    apply andb_true_iff in E as [E H3]. apply andb_true_iff in E as [E H2].
    apply andb_true_iff in E as [Hc H1].
    change (Str c (Str d1 (Str d2 (Str d3 g'))))
      with (Str c (Str d1 (Str d2 (Str d3 ""))) ++ g').
    rewrite strip_separators_app, all_digits_app.
    unfold strip_separators at 1. rewrite (strip_separator c _ Hc).
    rewrite strip_digits by (cbn; now rewrite H1, H2, H3).
    cbn [all_digits]. rewrite H1, H2, H3. cbn [andb].
    apply (IH s g' r'); [cbn in Hn; lia | exact Eg].
Qed.

Lemma take_cents_digits (s d r : str) :
  take_cents s = (Some d, r) ->
  all_digits d = true /\ str_length d = 2%nat.
Proof.
  unfold take_cents. destruct s as [|c [|d1 [|d2 s]]]; try discriminate.
  destruct (is_separator c && is_digit d1 && is_digit d2) eqn:E;
    [|discriminate].
  intros H. injection H as <- <-.
  apply andb_true_iff in E as [E H2]. apply andb_true_iff in E as [_ H1].
  cbn. now rewrite H1, H2.
Qed.

Lemma price_match_digits (s g1 : str) (g2 : option str) :
  price_match_here s = Some (g1, g2) ->
  all_digits (strip_separators g1) = true
  /\ match g2 with
     | Some d => all_digits d = true /\ str_length d = 2%nat
     | None => True
     end.
Proof.
  unfold price_match_here.
  destruct (take_digits 3 s) as [d r1] eqn:Ed.
  destruct d as [|c d]; [discriminate|].
  destruct (take_groups r1) as [g r2] eqn:Eg.
  destruct (take_cents r2) as [cents r3] eqn:Ec.
  intros H. injection H as <- <-. split.
  - change (Str c (d ++ g)) with (Str c d ++ g).
    rewrite strip_separators_app, all_digits_app.
    pose proof (take_digits_digits _ _ _ _ Ed) as Hd.
    unfold strip_separators at 1. rewrite (strip_digits _ Hd), Hd.
    exact (take_groups_digits _ _ _ _ (Nat.le_refl _) Eg).
  - destruct cents as [d'|]; [|exact I].
    exact (take_cents_digits _ _ _ Ec).
Qed.

Lemma price_search_digits : forall (s g1 : str) (g2 : option str),
  price_search s = Some (g1, g2) ->
  all_digits (strip_separators g1) = true
  /\ match g2 with
     | Some d => all_digits d = true /\ str_length d = 2%nat
     | None => True
     end.
Proof.
  induction s as [|c s IH]; intros g1 g2 H; cbn [price_search] in H.
  - destruct (price_match_here "") as [m|] eqn:E; [|discriminate].
    injection H as ->. exact (price_match_digits _ _ _ E).
  - destruct (price_match_here (Str c s)) as [m|] eqn:E.
    + injection H as ->. exact (price_match_digits _ _ _ E).
    + exact (IH _ _ H).
Qed.

Lemma price_search_some (s : str) :
  has_digit s = true -> exists m, price_search s = Some m.
Proof.
  induction s as [|c s IH]; [discriminate|].
  cbn [has_digit price_search]. intros H.
  destruct (price_match_here (Str c s)) as [m|] eqn:E; [now exists m|].
  destruct (is_digit c) eqn:Hc.
  - exfalso. unfold price_match_here in E.
    change (take_digits 3 (Str c s))
      with (if is_digit c
            then let (d, r) := take_digits 2 s in (Str c d, r)
            else ("", Str c s)) in E.
    rewrite Hc in E. destruct (take_digits 2 s) as [d r1].
    destruct (take_groups r1) as [g r2]. destruct (take_cents r2).
    cbn in E. discriminate.
  - now apply IH.
Qed.

Lemma digit_value_nonneg (c : char) : is_digit c = true -> 0 <= digit_value c.
Proof.
  intros _. unfold digit_value, decimal.
  destruct (find _ decimal_zeros); lia.
Qed.

Lemma digits_to_Z_nonneg (s : str) : forall acc,
  0 <= acc -> all_digits s = true -> 0 <= digits_to_Z acc s.
Proof.
  induction s as [|c s IH]; intros acc Hacc H;
    cbn [all_digits digits_to_Z] in *; [exact Hacc|].
  apply andb_true_iff in H as [Hc Hs]. apply IH; [|exact Hs].
  pose proof (digit_value_nonneg c Hc). lia.
Qed.

(** X2.  On text, [_price_to_float] never raises: it returns [None] exactly
    when the text holds no digit, and otherwise the binary64 number nearest
    to a number of hundredths that is not negative (a sign before the digits
    is not read). *)
Theorem price_to_float_total (s : str) :
  (has_digit s = false /\ _price_to_float (VStr s) = Ok VNone)
  \/ (has_digit s = true
      /\ exists n : Z,
           0 <= n
           /\ _price_to_float (VStr s) = Ok (VFloat (binary64 (n # 100)))).
Proof.
  destruct (has_digit s) eqn:Hd.
  - right. split; [reflexivity|].
    destruct (price_search_some s Hd) as ([g1 g2] & Hm).
    destruct (price_search_digits s g1 g2 Hm) as [H1 H2].
    unfold _price_to_float. rewrite Hm. fold (strip_separators g1).
    destruct g2 as [d|].
    + destruct H2 as [Hdd Hl]. rewrite (py_float_literal _ _ H1 Hdd Hl).
      eexists. split; [|reflexivity].
      pose proof (digits_to_Z_nonneg _ 0 (Z.le_refl 0) H1).
      pose proof (digits_to_Z_nonneg _ 0 (Z.le_refl 0) Hdd). lia.
    + rewrite (py_float_literal _ "00" H1) by reflexivity.
      eexists. split; [|reflexivity].
      pose proof (digits_to_Z_nonneg _ 0 (Z.le_refl 0) H1).
      change (digits_to_Z 0 "00") with 0. lia.
  - left. split; [reflexivity|].
    unfold _price_to_float. now rewrite (price_search_no_digit s Hd).
Qed.

(** *** A price inside a longer text *)

Lemma take_groups_stops (c : option (char * str)) (suffix : str) :
  cents_ok c = true -> ends_price suffix = true ->
  take_groups (cents_text c ++ suffix) = ("", cents_text c ++ suffix).
Proof.
  intros Hc Hs. destruct c as [[sep d]|].
  - apply cents_ok_inv in Hc as (_ & Hd & Hl).
    destruct (two_digits d Hd Hl) as (d1 & d2 & -> & _).
    destruct suffix as [|x suffix]; [reflexivity|].
    cbn in Hs. apply andb_true_iff in Hs as [Hx _].
    apply negb_true_iff in Hx. cbn. now rewrite Hx, !andb_false_r.
  - cbn [cents_text append].
    destruct suffix as [|x [|y1 [|y2 [|y3 suffix]]]]; try reflexivity.
    cbn in Hs. apply andb_true_iff in Hs as [_ Hx].
    apply negb_true_iff in Hx. cbn. now rewrite Hx.
Qed.

Lemma take_groups_run_in (gs : list (char * str))
    (c : option (char * str)) (suffix : str) :
  forallb group_ok gs = true -> cents_ok c = true ->
  ends_price suffix = true ->
  take_groups (concat_groups gs ++ cents_text c ++ suffix)
  = (concat_groups gs, cents_text c ++ suffix).
Proof.
  intros Hgs Hc Hs. induction gs as [|[sep g] gs IH].
  - cbn [concat_groups append]. now apply take_groups_stops.
  - cbn [forallb] in Hgs. apply andb_true_iff in Hgs as [Hg Hgs].
    apply group_ok_inv in Hg as (Hsep & Hd & Hl).
    destruct (three_digits g Hd Hl) as (d1 & d2 & d3 & -> & H1 & H2 & H3).
    cbn. rewrite Hsep, H1, H2, H3. cbn. now rewrite (IH Hgs).
Qed.

Lemma take_cents_run_in (c : option (char * str)) (suffix : str) :
  cents_ok c = true -> ends_price suffix = true ->
  fst (take_cents (cents_text c ++ suffix)) = option_map snd c.
Proof.
  intros Hc Hs. destruct c as [[sep d]|].
  - apply cents_ok_inv in Hc as (Hsep & Hd & Hl).
    destruct (two_digits d Hd Hl) as (d1 & d2 & -> & H1 & H2).
    cbn. now rewrite Hsep, H1, H2.
  - cbn [cents_text append option_map].
    destruct suffix as [|x [|y1 [|y2 suffix]]]; try reflexivity.
    cbn in Hs. apply andb_true_iff in Hs as [_ Hx].
    apply negb_true_iff in Hx. cbn. now rewrite Hx.
Qed.

Lemma starts_with_digit_rest (gs : list (char * str))
    (c : option (char * str)) (suffix : str) :
  forallb group_ok gs = true -> cents_ok c = true ->
  ends_price suffix = true ->
  starts_with_digit (concat_groups gs ++ cents_text c ++ suffix) = false.
Proof.
  intros Hgs Hc Hs. destruct gs as [|[sep g] gs].
  - cbn [concat_groups append]. destruct c as [[sep d]|].
    + apply cents_ok_inv in Hc as (Hsep & _). cbn.
      now apply separator_not_digit.
    + cbn [cents_text append]. destruct suffix as [|x suffix]; [reflexivity|].
      cbn in Hs |- *. apply andb_true_iff in Hs as [Hx _].
      now apply negb_true_iff in Hx.
  - cbn [forallb] in Hgs. apply andb_true_iff in Hgs as [Hg _].
    apply group_ok_inv in Hg as (Hsep & _). cbn.
    now apply separator_not_digit.
Qed.

(** X3.  A price of the specified shape is read out of a longer text: with
    no digit before it and, after it, nothing or a character that is neither
    a digit nor a separator, [_price_to_float] returns the binary64 number
    nearest to the amount of the price, as for the price alone. *)
Theorem price_to_float_embedded (prefix suffix : str) (p : price_text) :
  has_digit prefix = false ->
  well_shaped p = true ->
  ends_price suffix = true ->
  _price_to_float (VStr (prefix ++ render p ++ suffix))
  = Ok (VFloat (binary64 (amount p))).
Proof.
  intros Hprefix H Hsuffix.
  rewrite (price_to_float_skips_prefix_aux prefix _ Hprefix).
  unfold well_shaped in H.
  apply andb_true_iff in H as [H Hc]. apply andb_true_iff in H as [H Hgs].
  apply andb_true_iff in H as [H H3]. apply andb_true_iff in H as [Hd H1].
  apply Nat.leb_le in H1, H3.
  assert (Hm : price_search (render p ++ suffix)
               = Some (lead p ++ concat_groups (groups p),
                       option_map snd (cents p))).
  { apply price_search_here. unfold price_match_here, render.
    rewrite !append_assoc.
    rewrite (take_digits_run (lead p) _ 3 Hd H3)
      by (right; now apply starts_with_digit_rest).
    destruct (lead p) as [|c l] eqn:El; [cbn in H1; lia|].
    rewrite (take_groups_run_in _ _ _ Hgs Hc Hsuffix).
    pose proof (take_cents_run_in _ _ Hc Hsuffix) as Hcents.
    destruct (take_cents (cents_text (cents p) ++ suffix)) as [g2 r].
    cbn in Hcents. now rewrite Hcents. }
  unfold _price_to_float. rewrite Hm.
  rewrite !replace_app, (strip_digits _ Hd), (strip_groups _ Hgs).
  assert (Hi : all_digits (integer_digits p) = true).
  { unfold integer_digits. now rewrite all_digits_app, Hd, all_digits_groups. }
  unfold amount, cents_digits. fold (integer_digits p).
  destruct (cents p) as [[sep d]|]; cbn [option_map snd].
  - apply cents_ok_inv in Hc as (_ & Hcd & Hl).
    now rewrite (py_float_literal _ _ Hi Hcd Hl).
  - now rewrite (py_float_literal _ "00" Hi).
Qed.

(** ** The currency tables *)

Lemma SteamCurrency_of_value_value (c : SteamCurrency.t) :
  SteamCurrency.of_value (SteamCurrency.value c) = Some c.
Proof. destruct c; reflexivity. Qed.

Lemma SteamCurrency_of_value_inv (n : Z) (c : SteamCurrency.t) :
  SteamCurrency.of_value n = Some c -> SteamCurrency.value c = n.
Proof.
  unfold SteamCurrency.of_value. intros H.
  apply find_some in H as [_ H]. now apply Z.eqb_eq in H.
Qed.

Lemma SteamCurrency_nth (i : nat) :
  (i < 47)%nat ->
  exists c, nth_error SteamCurrency.members i = Some c
            /\ SteamCurrency.value c = Z.of_nat i + 1.
Proof.
  intros H.
  do 47 (destruct i as [|i]; [eexists; split; reflexivity|]). lia.
Qed.

(** X4.  The codes of [SteamCurrency] are the integers 1 to 47, each carried
    by one member: looking a member up by its code gives that member back,
    and a lookup succeeds exactly for the codes 1 to 47. *)
Theorem currency_codes :
  (forall c, SteamCurrency.of_value (SteamCurrency.value c) = Some c)
  /\ (forall n c, SteamCurrency.of_value n = Some c ->
                  SteamCurrency.value c = n)
  /\ (forall n, (exists c, SteamCurrency.of_value n = Some c) <-> 1 <= n <= 47).
Proof.
  split; [exact SteamCurrency_of_value_value|].
  split; [exact SteamCurrency_of_value_inv|].
  intros n. split.
  - intros [c H]. apply SteamCurrency_of_value_inv in H. subst n.
    destruct c; cbn; lia.
  - intros H.
    destruct (SteamCurrency_nth (Z.to_nat (n - 1))) as (c & _ & Hc); [lia|].
    exists c. replace n with (SteamCurrency.value c) by lia.
    apply SteamCurrency_of_value_value.
Qed.

Lemma in_LegacyCurrency_codes (n : Z) :
  in_LegacyCurrency n = true <-> n = 33 \/ n = 36 \/ 42 <= n <= 47.
Proof.
  unfold in_LegacyCurrency, SteamLegacyCurrency.of_value. split.
  - destruct (find _ SteamLegacyCurrency.members) as [l|] eqn:E;
      [|discriminate].
    intros _. apply find_some in E as [_ E]. apply Z.eqb_eq in E. subst n.
    destruct l; cbn; lia.
  - intros H.
    assert (E : n = 33 \/ n = 36 \/ n = 42 \/ n = 43 \/ n = 44 \/ n = 45
                \/ n = 46 \/ n = 47) by lia.
    repeat (destruct E as [-> | E]; [reflexivity|]). now subst n.
Qed.

(** X5.  Every member of [SteamLegacyCurrency] stands in [SteamCurrency] as
    well, under the same name and with the same code; the legacy codes are
    33, 36 and 42 to 47. *)
Theorem legacy_currencies_listed :
  (forall l : SteamLegacyCurrency.t,
     exists c : SteamCurrency.t,
       SteamCurrency.value c = SteamLegacyCurrency.value l
       /\ SteamCurrency.name c = SteamLegacyCurrency.name l)
  /\ (forall n, in_LegacyCurrency n = true
                <-> n = 33 \/ n = 36 \/ 42 <= n <= 47).
Proof.
  split; [|exact in_LegacyCurrency_codes].
  intros l.
  destruct l;
    [ exists SteamCurrency.SEK | exists SteamCurrency.BYN
    | exists SteamCurrency.BGN | exists SteamCurrency.HRK
    | exists SteamCurrency.CZK | exists SteamCurrency.DKK
    | exists SteamCurrency.HUF | exists SteamCurrency.RON ];
    split; reflexivity.
Qed.

(** ** The currency sanitiser, on what it accepts *)

Lemma sanitize_code_accepted (n : Z) (w : obj) :
  _sanitize_currency_value (VInt n) = Ok w ->
  exists c, w = VCurrency c /\ SteamCurrency.value c = n
            /\ in_LegacyCurrency n = false.
Proof.
  cbn. destruct (in_LegacyCurrency n); [discriminate|].
  unfold Currency_of. destruct (SteamCurrency.of_value n) as [c|] eqn:E;
    cbn; [|discriminate].
  intros H. injection H as <-. exists c.
  split; [reflexivity|]. split; [|reflexivity].
  now apply SteamCurrency_of_value_inv.
Qed.

(** X6.  An integer that the currency sanitiser accepts comes back as the
    member that carries that very integer, and the integer is then between
    1 and 47 and is no legacy code. *)
Theorem sanitized_code_keeps_code (n : Z) (w : obj) :
  _sanitize_currency_value (VInt n) = Ok w ->
  exists c, w = VCurrency c /\ SteamCurrency.value c = n
            /\ 1 <= n <= 47 /\ in_LegacyCurrency n = false.
Proof.
  intros H. destruct (sanitize_code_accepted n w H) as (c & -> & Hc & Hl).
  exists c. repeat split; try assumption; subst n; destruct c; cbn; lia.
Qed.

(** X7.  For every member of [SteamCurrency] whose code is no legacy code,
    the member and its code sanitise to the same thing, the member. *)
Theorem member_and_code_agree (c : SteamCurrency.t) :
  in_LegacyCurrency (SteamCurrency.value c) = false ->
  _sanitize_currency_value (VInt (SteamCurrency.value c)) = Ok (VCurrency c)
  /\ _sanitize_currency_value (VCurrency c) = Ok (VCurrency c).
Proof.
  intros H. split; [|reflexivity].
  cbn. rewrite H. unfold Currency_of.
  now rewrite SteamCurrency_of_value_value.
Qed.

Lemma typecheck_currency_inv (v : obj) :
  _typecheck_value v t_currency = Ok true ->
  (exists c, v = VCurrency c) \/ (exists l, v = VLegacyCurrency l)
  \/ (exists s, v = VStr s)
  \/ (exists n, int_value v = Some n).
Proof.
  destruct v; cbn; intros H; try discriminate; eauto 6.
Qed.

Lemma sanitize_currency_member (v w : obj) :
  _typecheck_value v t_currency = Ok true ->
  _sanitize_currency_value v = Ok w ->
  exists c, w = VCurrency c.
Proof.
  intros Ht Hs.
  destruct v; cbn in Ht; try discriminate;
    unfold _sanitize_currency_value in Hs; cbv beta iota in Hs;
    cbn [int_value] in Hs.
  - (* bool *)
    destruct (in_LegacyCurrency _); [discriminate|].
    unfold Currency_of in Hs.
    destruct (SteamCurrency.of_value _) as [c|];
      cbn [try_except is_KeyError] in Hs; [|discriminate].
    injection Hs as <-. now exists c.
  - (* int *)
    destruct (in_LegacyCurrency _); [discriminate|].
    unfold Currency_of in Hs.
    destruct (SteamCurrency.of_value _) as [c|];
      cbn [try_except is_KeyError] in Hs; [|discriminate].
    injection Hs as <-. now exists c.
  - (* str *)
    destruct (SteamLegacyCurrency.from_string s); [discriminate|].
    destruct (SteamCurrency.from_string s) as [c|]; [|discriminate].
    injection Hs as <-. now exists c.
  - (* member *)
    injection Hs as <-. now exists c.
  - (* AppID *)
    destruct (in_LegacyCurrency _); [discriminate|].
    unfold Currency_of in Hs.
    destruct (SteamCurrency.of_value _) as [c|];
      cbn [try_except is_KeyError] in Hs; [|discriminate].
    injection Hs as <-. now exists c.
Qed.

(** X8.  Whatever the validator lets through as a currency, the sanitiser
    either rejects or turns into a member of [SteamCurrency]; that member
    passes the validator again and the sanitiser leaves it as it is. *)
Theorem sanitized_currency_is_member (v w : obj) :
  _typecheck_value v t_currency = Ok true ->
  _sanitize_currency_value v = Ok w ->
  (exists c, w = VCurrency c)
  /\ _typecheck_value w t_currency = Ok true
  /\ _sanitize_currency_value w = Ok w.
Proof.
  intros Ht Hs. destruct (sanitize_currency_member v w Ht Hs) as [c ->].
  split; [now exists c|]. split; reflexivity.
Qed.

(** ** The other sanitisers *)

Lemma typecheck_app_id_inv (v : obj) :
  _typecheck_value v t_app_id = Ok true ->
  exists n, int_value v = Some n /\ _sanitize_app_id_value v = Ok (VInt n).
Proof.
  destruct v; cbn; intros H; try discriminate; eexists; split; reflexivity.
Qed.

Lemma sanitize_app_id_list (l : list obj) :
  all_r (fun x => _typecheck_value x t_app_id) l = Ok true ->
  exists ns : list Z,
    map_r py_int l = Ok ns
    /\ Forall2 (fun v n => int_value v = Some n) l ns.
Proof.
  induction l as [|v l IH]; cbn [all_r map_r].
  - intros _. exists []. split; [reflexivity | constructor].
  - destruct (_typecheck_value v t_app_id) as [[|]|e] eqn:E;
      cbn [bind]; try discriminate.
    intros H. destruct (IH H) as (ns & Hm & Hf).
    destruct (typecheck_app_id_inv v E) as (n & Hn & Hs).
    exists (n :: ns). split; [|now constructor].
    assert (Hi : py_int v = Ok n).
    { unfold _sanitize_app_id_value in Hs.
      destruct v; cbn in Hn; try discriminate; cbn in Hs |- *; congruence. }
    now rewrite Hi, Hm.
Qed.

(** X9.  After validation the application identifier always sanitises: a
    value that passes [Union[AppID, int]] becomes the plain integer it
    carries, and a list whose items pass it becomes the list of their
    integers, one for one. *)
Theorem validated_app_id_sanitizes :
  (forall v, _typecheck_value v t_app_id = Ok true ->
     exists n, int_value v = Some n
               /\ _sanitize_app_id_value v = Ok (VInt n))
  /\ (forall l, _typecheck_value (VList l) (TList [t_app_id]) = Ok true ->
        exists ns : list Z,
          _sanitize_app_id_value (VList l) = Ok (VList (map VInt ns))
          /\ Forall2 (fun v n => int_value v = Some n) l ns).
Proof.
  split; [exact typecheck_app_id_inv|].
  intros l H. cbn [_typecheck_value py_iter bind] in H.
  destruct (sanitize_app_id_list l H) as (ns & Hm & Hf).
  exists ns. split; [|exact Hf].
  cbn [_sanitize_app_id_value]. now rewrite Hm.
Qed.

Lemma replace_slash_length (s : str) :
  str_length (replace "/" "-" s) = str_length s.
Proof.
  induction s as [|c s IH]; [reflexivity|].
  cbn [replace]. destruct (char_eqb c "/"); cbn; now rewrite IH.
Qed.

Lemma replace_slash_absent (s : str) :
  has_slash s = false -> replace "/" "-" s = s.
Proof.
  induction s as [|c s IH]; [reflexivity|].
  cbn [has_slash replace]. intros H. apply orb_false_iff in H as [Hc Hs].
  now rewrite Hc, (IH Hs).
Qed.

(** X10.  The item-name sanitiser returns a text of the same length in which
    no "/" is left; a name without "/" comes back unchanged, so sanitising
    twice is sanitising once. *)
Theorem sanitized_name (s : str) :
  exists s' : str,
    _sanitize_market_hash_name_value (VStr s) = Ok (VStr s')
    /\ has_slash s' = false
    /\ str_length s' = str_length s
    /\ (has_slash s = false -> s' = s)
    /\ _sanitize_market_hash_name_value (VStr s') = Ok (VStr s').
Proof.
  exists (replace "/" "-" s). split; [reflexivity|].
  split; [apply sanitized_name_has_no_slash|].
  split; [apply replace_slash_length|].
  split; [apply replace_slash_absent|].
  cbn. now rewrite (replace_slash_absent _ (sanitized_name_has_no_slash s)).
Qed.

(** X11.  The validator of [list[str]] looks at the items only, so a plain
    text passes it, and [get_overviews] then treats the text as the list of
    its characters: the call with a text for [market_hash_names] is the call
    with the list of its one-character texts. *)
Theorem text_taken_for_names (self : Market) (app_id : obj) (s : str)
    (rest : list obj) (kwargs : list (str * obj)) (log : list request) :
  call (get_overviews self) (app_id :: VStr s :: rest) kwargs log
  = call (get_overviews self)
      (app_id :: VList (map VStr (chars s)) :: rest) kwargs log.
Proof.
  unfold get_overviews. rewrite !decorated_call.
  assert (Ht : typecheck_args (annotations (get_overviews_def self))
                 (param_names (get_overviews_def self))
                 (app_id :: VStr s :: rest)
               = typecheck_args (annotations (get_overviews_def self))
                   (param_names (get_overviews_def self))
                   (app_id :: VList (map VStr (chars s)) :: rest)).
  { cbn [typecheck_args param_names get_overviews_def def parameters
           annotations map param_name required optional].
    destruct (fails_annotation _ "app_id" app_id) as [[|]|e]; reflexivity. }
  assert (Hs : sanitize_args (param_names (get_overviews_def self))
                 (app_id :: VStr s :: rest)
               = sanitize_args (param_names (get_overviews_def self))
                   (app_id :: VList (map VStr (chars s)) :: rest)).
  { cbn [sanitize_args param_names get_overviews_def def parameters
           map param_name required optional].
    destruct (if mem_string "app_id" (map fst _SANITIZE_FUNCS)
              then _sanitize_value app_id "app_id" else Ok app_id);
      reflexivity. }
  now rewrite Ht, Hs.
Qed.

(** The items are the code points, whatever their encoding takes. *)
Example text_iterates_over_code_points :
  py_iter (VStr "★/") = Ok [VStr "★"; VStr "/"]
  /\ py_len (VStr "★/") = Ok 2%nat.
Proof. split; reflexivity. Qed.

(** X12.  [get_price] with a price type other than the two known ones, next
    to well-typed arguments, fails with [ValueError], raised by the
    sanitiser, and requests nothing. *)
Theorem get_price_unknown_type (self : Market) (n : Z)
    (market_hash_name price_type : str) (log : list request) :
  is_valid_price_type (VStr price_type) = false ->
  call (get_price self)
    [VInt n; VStr market_hash_name; VStr price_type] [] log
  = (Raise ValueError, log).
Proof.
  intros Hpt. unfold get_price. rewrite decorated_call.
  cbn. cbn in Hpt. now rewrite Hpt.
Qed.

(** ** The validator and the arity of a call *)

Lemma typecheck_args_overflow (annots : list (str * ty)) (extra : obj)
    (more : list obj) :
  forall (names : list str) (args : list obj),
    List.length args = List.length names ->
    typecheck_args annots names args = Ok tt ->
    typecheck_args annots names (args ++ extra :: more)%list
    = Raise IndexError.
Proof.
  induction names as [|k names IH]; intros args Hlen H.
  - destruct args; [reflexivity | discriminate].
  - destruct args as [|a args]; [discriminate|].
    cbn in Hlen, H |- *.
    destruct (fails_annotation annots k a) as [[|]|e]; cbn in *;
      try discriminate.
    apply IH; [lia | exact H].
Qed.

(** X13.  A call with more positional arguments than the method has
    parameters, the leading ones well-typed, fails in the validator with
    [IndexError], before anything is sanitised or requested. *)
Theorem surplus_argument_IndexError {R : Type} (func : pyfunc R)
    (args : list obj) (extra : obj) (more : list obj)
    (kwargs : list (str * obj)) (log : list request) :
  List.length args = List.length (parameters func) ->
  typecheck_args (annotations func) (param_names func) args = Ok tt ->
  call (decorated func) (args ++ extra :: more)%list kwargs log
  = (Raise IndexError, log).
Proof.
  intros Hlen H. rewrite decorated_call.
  rewrite (typecheck_args_overflow _ extra more _ args); [reflexivity| |exact H].
  unfold param_names. now rewrite length_map.
Qed.

Lemma typecheck_ids (ids : list Z) :
  all_r (fun x => _typecheck_value x t_app_id) (map VInt ids) = Ok true.
Proof.
  induction ids as [|n ids IH]; [reflexivity|].
  cbn [map all_r]. cbn [_typecheck_value t_app_id t_int any_r isinstance bind].
  exact IH.
Qed.

Lemma sanitize_ids (ids : list Z) :
  map_r py_int (map VInt ids) = Ok ids.
Proof.
  induction ids as [|n ids IH]; [reflexivity|].
  cbn [map map_r]. rewrite IH. reflexivity.
Qed.

(** X14.  [get_overviews] with a list of application identifiers whose
    length is not that of the list of names fails with [IndexError] and
    requests nothing. *)
Theorem get_overviews_length_mismatch (self : Market) (ids : list Z)
    (names : list str) (log : list request) :
  List.length ids <> List.length names ->
  call (get_overviews self)
    [VList (map VInt ids); VList (map VStr names)] [] log
  = (Raise IndexError, log).
Proof.
  intros Hlen.
  pose proof (typecheck_names names) as Hn. cbn in Hn.
  pose proof (typecheck_ids ids) as Hi. cbn in Hi.
  unfold get_overviews. rewrite decorated_call.
  cbn. rewrite Hi. cbn. rewrite Hn. cbn.
  rewrite sanitize_ids, sanitize_names. cbn.
  unfold get_overviews_body, bindM, lift. cbn.
  rewrite !length_map.
  destruct (Nat.eqb_spec (List.length names) (List.length ids));
    [congruence | reflexivity].
Qed.

(** ** Batches without conversion *)

Lemma key_eq_text (k : obj) (a : str) :
  key_eq k (VStr a) = true -> k = VStr a.
Proof.
  destruct k as [ | |n|x|s| | | | | | | | ]; cbn; try discriminate.
  - destruct (float_value x); [discriminate|]. destruct x; discriminate.
  - intros H. apply str_eqb_eq in H. now subst.
Qed.

Lemma dict_get_update_same (d : list (obj * obj)) (a : str) (v : obj) :
  dict_get (dict_update d (VStr a) v) (VStr a) = Some v.
Proof.
  induction d as [|[k' v'] d IH]; cbn [dict_update dict_get].
  - cbn. now rewrite str_eqb_refl.
  - destruct (key_eq k' (VStr a)) eqn:E; cbn [dict_get]; rewrite E;
      [reflexivity | exact IH].
Qed.

Lemma dict_get_update_other (d : list (obj * obj)) (a b : str) (v : obj) :
  a <> b ->
  dict_get (dict_update d (VStr a) v) (VStr b) = dict_get d (VStr b).
Proof.
  intros Hab. induction d as [|[k' v'] d IH]; cbn [dict_update dict_get].
  - cbn. destruct (str_eqb_spec a b); [contradiction | reflexivity].
  - destruct (key_eq k' (VStr a)) eqn:E; cbn [dict_get].
    + apply key_eq_text in E. subst k'. cbn.
      destruct (str_eqb_spec a b); [contradiction | reflexivity].
    + now rewrite IH.
Qed.

Lemma overviews_of_unconverted (self : Market) (app_id : obj)
    (data : str -> option json_object) (names : list str) :
  (forall name, In name names ->
     transport (batch_request self app_id (VStr name) VNone)
     = Ok (data name)) ->
  forall (acc : list (obj * obj)) (log : list request),
  exists d : list (obj * obj),
    overviews_of self (VBool false) VNone
      (map (fun s => (VStr s, app_id)) names) acc log
    = (Ok d,
       (log ++ map (fun name => batch_request self app_id (VStr name) VNone)
                 names)%list)
    /\ (forall name, In name names ->
          dict_get d (VStr name) = Some (answer (data name)))
    /\ (forall name, ~ In name names ->
          dict_get d (VStr name) = dict_get acc (VStr name)).
Proof.
  clear Language_from_string.
  induction names as [|name names IH]; intros Ht acc log.
  - exists acc. cbn. rewrite app_nil_r. repeat split; tauto.
  - assert (Ht' : forall name', In name' names ->
              transport (batch_request self app_id (VStr name') VNone)
              = Ok (data name')) by (intros; apply Ht; now right).
    destruct (IH Ht' (dict_update acc (VStr name) (answer (data name)))
                (log ++ [batch_request self app_id (VStr name) VNone])%list)
      as (d & Hrun & Hin & Hout).
    exists d. split; [|split].
    + cbn [map overviews_of]. unfold bindM at 1, _request_overview at 1.
      fold (batch_request self app_id (VStr name) VNone).
      rewrite (Ht name) by now left.
      cbn [truthy]. unfold bindM at 1, ret at 1.
      unfold bindM at 1, lift at 1, dict_set. cbn [hashable].
      rewrite Hrun. now rewrite <- app_assoc.
    + intros name' [<- | H']; [|now apply Hin].
      destruct (in_dec str_dec name names) as [Hn | Hn];
        [now apply Hin|].
      rewrite (Hout name Hn). apply dict_get_update_same.
    + intros name' Hn. cbn in Hn.
      rewrite Hout by tauto. apply dict_get_update_other. tauto.
Qed.

(** X15.  With [type_conversion] off, [get_overviews] asks once for every
    name, in the order given and under the sanitised name, and returns a
    mapping that holds under every sanitised name what the endpoint answered
    for it, [None] for an item it does not know, and holds nothing else. *)
Theorem get_overviews_unconverted (self : Market) (n : Z)
    (names : list str) (data : str -> option json_object)
    (log : list request) :
  (forall name, In name (map (replace "/" "-") names) ->
     transport (batch_request self (VInt n) (VStr name) VNone)
     = Ok (data name)) ->
  exists d : list (obj * obj),
    call (get_overviews self)
      [VInt n; VList (map VStr names); VBool false] [] log
    = (Ok (VDict d),
       (log ++ map (fun name => batch_request self (VInt n) (VStr name) VNone)
                 (map (replace "/" "-") names))%list)
    /\ (forall name, In name (map (replace "/" "-") names) ->
          dict_get d (VStr name) = Some (answer (data name)))
    /\ (forall name, ~ In name (map (replace "/" "-") names) ->
          dict_get d (VStr name) = None).
Proof.
  intros Ht.
  destruct (overviews_of_unconverted self (VInt n) data _ Ht [] log)
    as (d & Hrun & Hin & Hout).
  exists d. split; [|split; [exact Hin | exact Hout]].
  pose proof (typecheck_names names) as Hn. cbn in Hn.
  unfold get_overviews. rewrite decorated_call.
  cbn. rewrite Hn, sanitize_names. cbn.
  unfold get_overviews_body, bindM, lift. cbn.
  rewrite repeat_length, Nat.eqb_refl. cbn.
  rewrite combine_repeat, map_map. now rewrite Hrun.
Qed.

(** ** The converter of overviews *)

Lemma json_set_fresh (o : json_object) (k : str) (v : obj) :
  ~ In k (map fst o) -> json_set o k v = (o ++ [(k, v)])%list.
Proof.
  clear Language_from_string.
  induction o as [|[k' v'] o IH]; [reflexivity|].
  cbn. intros H. destruct (str_eqb_spec k' k); [tauto|].
  rewrite IH by tauto. reflexivity.
Qed.

Lemma convert_items_keeps (keys_to_convert : list str) :
  forall (items acc r : json_object),
    NoDup (map fst acc ++ map fst items) ->
    convert_items keys_to_convert items acc = Ok r ->
    exists r' : json_object,
      r = (acc ++ r')%list
      /\ map fst r' = map fst items
      /\ forall k v,
           json_get items k = Some v ->
           mem_string k ["lowest_price"; "median_price"; "volume"] = false ->
           json_get r' k = Some v.
Proof.
  clear Language_from_string.
  induction items as [|[key value] items IH]; intros acc r Hnd H.
  - cbn in H. injection H as <-. exists []. rewrite app_nil_r.
    repeat split. intros k v Hk. discriminate.
  - cbn [convert_items] in H.
    destruct (if mem_string key keys_to_convert
                 && mem_string key ["lowest_price"; "median_price"]
              then _price_to_float value
              else if mem_string key keys_to_convert && str_eqb key "volume"
              then text <- py_replace value "," "" ;;
                   n <- py_int text ;; Ok (VInt n)
              else Ok value) as [converted|e] eqn:E; cbn [bind] in H;
      [|discriminate].
    cbn [map fst] in Hnd.
    rewrite json_set_fresh in H
      by (intros Hin; apply NoDup_remove_2 in Hnd; apply Hnd;
          apply in_or_app; now left).
    destruct (IH (acc ++ [(key, converted)])%list r) as (r' & -> & Hk & Hv);
      [ rewrite map_app, <- app_assoc; exact Hnd | exact H | ].
    exists ((key, converted) :: r'). rewrite <- app_assoc.
    split; [reflexivity|]. split; [cbn; now rewrite Hk|].
    intros k v Hget Hplain. cbn [json_get] in Hget |- *.
    destruct (str_eqb_spec key k) as [-> | Hne].
    + injection Hget as ->. cbn [mem_string] in Hplain.
      apply orb_false_iff in Hplain as [Hl Hplain].
      apply orb_false_iff in Hplain as [Hm Hplain].
      apply orb_false_iff in Hplain as [Hvol _].
      cbn [mem_string] in E. rewrite Hl, Hm, Hvol in E.
      cbn [orb] in E. rewrite !andb_false_r in E. congruence.
    + apply Hv; [exact Hget | exact Hplain].
Qed.

(** X16.  [_overview_type_converter] keeps the shape of an overview: the
    result has the keys of the overview in the same order, and every field
    other than the two prices and the volume keeps its value. *)
Theorem converter_keeps_fields (o : json_object)
    (keys_to_convert : option (list str)) (w : obj) :
  NoDup (map fst o) ->
  _overview_type_converter (Some o) keys_to_convert = Ok w ->
  exists r : json_object,
    w = json_dict r
    /\ map fst r = map fst o
    /\ forall k v,
         json_get o k = Some v ->
         mem_string k ["lowest_price"; "median_price"; "volume"] = false ->
         json_get r k = Some v.
Proof.
  clear Language_from_string.
  intros Hnd H. unfold _overview_type_converter in H.
  destruct (existsb _ _); [discriminate|].
  destruct (convert_items _ o []) as [r|e] eqn:E; cbn [bind] in H;
    [|discriminate].
  injection H as <-.
  destruct (convert_items_keeps _ o [] r Hnd E) as (r' & -> & Hk & Hv).
  exists r'. now repeat split.
Qed.

(** ** Volume and prices of one item *)

Lemma digit_not_space (c : char) : is_digit c = true -> is_space c = false.
Proof.
  intros H. destruct (is_space c) eqn:E; [|reflexivity].
  unfold is_space in E. apply existsb_exists in E as (n & Hin & En).
  apply N.eqb_eq in En. destruct c as [m]. cbn [ord] in En. subst m.
  assert (Hall : forallb (fun n => negb (is_digit (Chr n))) whitespace = true)
    by (vm_compute; reflexivity).
  rewrite forallb_forall in Hall. apply Hall in Hin.
  rewrite H in Hin. discriminate.
Qed.

Lemma digit_not_sign (c : char) :
  is_digit c = true -> char_eqb c "-" = false /\ char_eqb c "+" = false.
Proof.
  intros H. split.
  - destruct (char_eqb c "-") eqn:E; [|reflexivity].
    apply char_eqb_eq in E. subst c. discriminate.
  - destruct (char_eqb c "+") eqn:E; [|reflexivity].
    apply char_eqb_eq in E. subst c. discriminate.
Qed.

Lemma rstrip_digits (t : str) : all_digits t = true -> rstrip t = t.
Proof.
  induction t as [|c t IH]; [reflexivity|].
  cbn [all_digits rstrip]. intros H. apply andb_true_iff in H as [Hc Ht].
  rewrite (IH Ht). destruct t; [|reflexivity].
  now rewrite (digit_not_space c Hc).
Qed.

Lemma strip_digits_id (t : str) : all_digits t = true -> strip t = t.
Proof.
  intros H. unfold strip.
  assert (Hl : lstrip t = t).
  { destruct t as [|c t]; [reflexivity|]. cbn [all_digits lstrip] in H |- *.
    apply andb_true_iff in H as [Hc _]. now rewrite (digit_not_space c Hc). }
  rewrite Hl. now apply rstrip_digits.
Qed.

Lemma int_digits_digits (t : str) : forall (acc : Z) (after_digit : bool),
  all_digits t = true ->
  after_digit = true \/ t <> "" ->
  int_digits acc after_digit t = Some (digits_to_Z acc t).
Proof.
  induction t as [|c t IH]; intros acc b H Hb.
  - destruct Hb as [-> | Hb]; [reflexivity | congruence].
  - cbn [all_digits] in H. apply andb_true_iff in H as [Hc Ht].
    cbn [int_digits digits_to_Z]. rewrite Hc. apply IH; [exact Ht | now left].
Qed.

Lemma int_of_string_digits (t : str) :
  all_digits t = true -> t <> "" ->
  int_of_string t = Ok (digits_to_Z 0 t).
Proof.
  intros H Hne. unfold int_of_string. rewrite (strip_digits_id t H).
  destruct t as [|c t]; [congruence|].
  assert (Hi : int_digits 0 false (Str c t)
               = Some (digits_to_Z 0 (Str c t)))
    by (apply int_digits_digits; [exact H | right; discriminate]).
  cbn [all_digits] in H. apply andb_true_iff in H as [Hc _].
  destruct (digit_not_sign c Hc) as [-> ->]. now rewrite Hi.
Qed.

Lemma commas_removed (s : str) :
  digits_and_commas s = true -> all_digits (replace "," "" s) = true.
Proof.
  induction s as [|c s IH]; [reflexivity|].
  cbn [digits_and_commas replace]. intros H.
  apply andb_true_iff in H as [Hc Hs].
  destruct (char_eqb c ",") eqn:E; cbn; [now apply IH|].
  rewrite orb_false_r in Hc. now rewrite Hc, IH.
Qed.

Lemma commas_removed_nonempty (s : str) :
  digits_and_commas s = true -> has_digit s = true ->
  replace "," "" s <> "".
Proof.
  induction s as [|c s IH]; [discriminate|].
  cbn [digits_and_commas has_digit replace]. intros H Hd.
  apply andb_true_iff in H as [Hc Hs].
  destruct (char_eqb c ",") eqn:E; [|discriminate].
  apply char_eqb_eq in E. subst c. cbn in Hd |- *. now apply IH.
Qed.

(** X17.  [get_volume] answers [None], without error, when the endpoint has
    no item and when the item has no volume; it asks once, with the currency
    of the instance. *)
Theorem get_volume_absent (self : Market) (n : Z) (market_hash_name : str)
    (data : option json_object) (log : list request) :
  transport (item_request self (VInt n)
               (VStr (replace "/" "-" market_hash_name)) VNone) = Ok data ->
  match data with
  | None => True
  | Some item => json_get item "volume" = None
  end ->
  call (get_volume self) [VInt n; VStr market_hash_name] [] log
  = (Ok VNone,
     (log ++ [item_request self (VInt n)
                (VStr (replace "/" "-" market_hash_name)) VNone])%list).
Proof.
  intros Ht Hv. unfold get_volume. rewrite decorated_call. cbn.
  unfold get_volume_body, bindM, _request_overview, item_request in *.
  cbn in Ht |- *. rewrite Ht.
  destruct data as [item|]; [|reflexivity]. now rewrite Hv.
Qed.

(** X18.  [get_volume] reads a volume written in digits and commas, with at
    least one digit, as the number its digits write, the commas dropped. *)
Theorem get_volume_reads_count (self : Market) (n : Z)
    (market_hash_name volume : str) (item : json_object)
    (log : list request) :
  transport (item_request self (VInt n)
               (VStr (replace "/" "-" market_hash_name)) VNone)
    = Ok (Some item) ->
  json_get item "volume" = Some (VStr volume) ->
  digits_and_commas volume = true ->
  has_digit volume = true ->
  call (get_volume self) [VInt n; VStr market_hash_name] [] log
  = (Ok (VInt (digits_to_Z 0 (replace "," "" volume))),
     (log ++ [item_request self (VInt n)
                (VStr (replace "/" "-" market_hash_name)) VNone])%list).
Proof.
  intros Ht Hv Hshape Hd. unfold get_volume. rewrite decorated_call. cbn.
  unfold get_volume_body, bindM, _request_overview, item_request in *.
  cbn in Ht |- *. rewrite Ht, Hv. unfold lift. cbn [py_replace bind py_int].
  rewrite (int_of_string_digits _ (commas_removed _ Hshape)
             (commas_removed_nonempty _ Hshape Hd)).
  reflexivity.
Qed.

(** X19.  [get_prices] answers [None], not an empty mapping, when the item
    has neither a lowest nor a median price, and when there is no item. *)
Theorem get_prices_absent (self : Market) (n : Z) (market_hash_name : str)
    (data : option json_object) (log : list request) :
  transport (item_request self (VInt n)
               (VStr (replace "/" "-" market_hash_name)) VNone) = Ok data ->
  match data with
  | None => True
  | Some item =>
      json_get item "lowest_price" = None
      /\ json_get item "median_price" = None
  end ->
  call (get_prices self) [VInt n; VStr market_hash_name] [] log
  = (Ok VNone,
     (log ++ [item_request self (VInt n)
                (VStr (replace "/" "-" market_hash_name)) VNone])%list).
Proof.
  intros Ht Hv. unfold get_prices. rewrite decorated_call. cbn.
  unfold get_prices_body, bindM, _request_overview, item_request in *.
  cbn in Ht |- *. rewrite Ht.
  destruct data as [item|]; [|reflexivity].
  destruct Hv as [Hl Hm]. unfold lift. cbn [prices_of]. now rewrite Hl, Hm.
Qed.

(** X20.  [get_lowest_price] and [get_median_price] answer with the field of
    their name, read through [_price_to_float]; they answer [None] when the
    item does not have the field. *)
Theorem named_price_reads_field (self : Market) (n : Z)
    (market_hash_name : str) (item : json_object) (log : list request) :
  transport (item_request self (VInt n)
               (VStr (replace "/" "-" market_hash_name)) VNone)
    = Ok (Some item) ->
  call (get_lowest_price self) [VInt n; VStr market_hash_name] [] log
  = (match json_get item "lowest_price" with
     | Some price => _price_to_float price
     | None => Ok VNone
     end,
     (log ++ [item_request self (VInt n)
                (VStr (replace "/" "-" market_hash_name)) VNone])%list)
  /\ call (get_median_price self) [VInt n; VStr market_hash_name] [] log
     = (match json_get item "median_price" with
        | Some price => _price_to_float price
        | None => Ok VNone
        end,
        (log ++ [item_request self (VInt n)
                   (VStr (replace "/" "-" market_hash_name)) VNone])%list).
Proof.
  intros Ht.
  unfold get_lowest_price, get_median_price. rewrite !decorated_call. cbn.
  unfold get_lowest_price_body, get_median_price_body, _get_price, bindM,
    _request_overview, item_request in *.
  rewrite py_or_None, py_or_same. cbn in Ht |- *. rewrite Ht.
  unfold lift, json_has, json_item.
  split.
  - destruct (json_get item "lowest_price"); reflexivity.
  - destruct (json_get item "median_price"); reflexivity.
Qed.

(** ** The dictionary sanitiser *)

Lemma dict_update_forall (P : obj -> Prop) (Q : obj -> Prop)
    (d : list (obj * obj)) (k v : obj) :
  Forall (fun kv => P (fst kv) /\ Q (snd kv)) d -> P k -> Q v ->
  Forall (fun kv => P (fst kv) /\ Q (snd kv)) (dict_update d k v).
Proof.
  intros Hd Hk Hv. induction Hd as [|[k' v'] d [Hk' Hv'] Hd IH];
    cbn [dict_update].
  - now repeat constructor.
  - destruct (key_eq k' k); constructor; auto.
Qed.

(** X21.  What [_sanitize_market_items_dict] returns is a dictionary whose
    keys are all plain integers and whose values are all lists. *)
Theorem sanitized_items_dict (v w : obj) :
  _sanitize_market_items_dict v = Ok w ->
  exists d : list (obj * obj),
    w = VDict d
    /\ Forall (fun kv => (exists n, fst kv = VInt n)
                         /\ (exists l, snd kv = VList l)) d.
Proof.
  unfold _sanitize_market_items_dict.
  destruct (py_items v) as [entries|e]; cbn [bind]; [|discriminate].
  assert (Hfold : forall (acc : outcome (list (obj * obj))) d,
            match acc with
            | Ok a => Forall (fun kv => (exists n, fst kv = VInt n)
                                        /\ (exists l, snd kv = VList l)) a
            | Raise _ => True
            end ->
            fold_left
              (fun acc kv =>
                 d <- acc ;; app_id <- py_int (fst kv) ;;
                 items <- py_iter (snd kv) ;;
                 Ok (dict_update d (VInt app_id) (VList items)))
              entries acc = Ok d ->
            Forall (fun kv => (exists n, fst kv = VInt n)
                              /\ (exists l, snd kv = VList l)) d).
  { induction entries as [|[k x] entries IH]; intros acc d Hacc H.
    - cbn in H. subst acc. exact Hacc.
    - cbn [fold_left] in H. apply (IH _ d) in H; [exact H|].
      destruct acc as [a|e]; cbn [bind]; [|exact I].
      destruct (py_int (fst (k, x))) as [n|e]; cbn [bind]; [|exact I].
      destruct (py_iter (snd (k, x))) as [l|e]; cbn [bind]; [|exact I].
      apply (dict_update_forall (fun k => exists n, k = VInt n)
               (fun x => exists l, x = VList l)); eauto. }
  destruct (fold_left _ entries (Ok [])) as [d|e] eqn:E; cbn [bind];
    [|discriminate].
  intros H. injection H as <-. exists d. split; [reflexivity|].
  apply (Hfold (Ok []) d); [constructor | exact E].
Qed.

(** ** Construction *)

Lemma sanitize_language_member (v w : obj) :
  _sanitize_language_value v = Ok w -> exists name, w = VLanguage name.
Proof.
  unfold _sanitize_language_value.
  destruct (isinstance v C_SteamLanguage) eqn:E.
  - intros H. injection H as <-. destruct v; try discriminate. eauto.
  - destruct (Language_from_string v) as [[name|]|e]; cbn [bind];
      try discriminate.
    intros H. injection H as <-. eauto.
Qed.

Lemma passes_annotation (annots : list (str * ty)) (k : str) (v : obj)
    (t : ty) :
  lookup k annots = Some t ->
  fails_annotation annots k v = Ok false ->
  _typecheck_value v t = Ok true.
Proof.
  unfold fails_annotation. intros ->.
  destruct (_typecheck_value v t) as [[|]|e]; cbn; congruence.
Qed.

Lemma sanitize_entry_currency (v : obj) :
  (if mem_string "currency" (map fst _SANITIZE_FUNCS)
   then _sanitize_value v "currency" else Ok v)
  = _sanitize_currency_value v.
Proof. reflexivity. Qed.

Lemma sanitize_entry_language (v : obj) :
  (if mem_string "language" (map fst _SANITIZE_FUNCS)
   then _sanitize_value v "language" else Ok v)
  = _sanitize_language_value v.
Proof. reflexivity. Qed.

Lemma init_kwargs_sanitized :
  forall (kwargs kwargs' : list (str * obj)),
    typecheck_kwargs (annotations Market__init___def) kwargs = Ok tt ->
    sanitize_kwargs kwargs = Ok kwargs' ->
    (forall w, lookup "currency" kwargs' = Some w -> exists c, w = VCurrency c)
    /\ (forall w, lookup "language" kwargs' = Some w ->
                  exists name, w = VLanguage name).
Proof.
  induction kwargs as [|[k v] kwargs IH]; intros kwargs' Ht Hs.
  - cbn in Hs. injection Hs as <-. split; intros w H; discriminate.
  - cbn [typecheck_kwargs] in Ht. cbn [sanitize_kwargs] in Hs.
    destruct (fails_annotation _ k v) as [[|]|e] eqn:Ef; cbn [bind] in Ht;
      try discriminate.
    destruct (if mem_string k (map fst _SANITIZE_FUNCS)
              then _sanitize_value v k else Ok v) as [v'|e] eqn:Ev;
      cbn [bind] in Hs; [|discriminate].
    destruct (sanitize_kwargs kwargs) as [rest|e] eqn:Er; cbn [bind] in Hs;
      [|discriminate].
    injection Hs as <-. destruct (IH rest Ht eq_refl) as [Hc Hl].
    split; intros w H; cbn [lookup] in H.
    + destruct (str_eqb_spec k "currency") as [-> | _]; [|now apply Hc].
      injection H as <-. rewrite sanitize_entry_currency in Ev.
      apply (sanitize_currency_member v v'); [|exact Ev].
      exact (passes_annotation (annotations Market__init___def) "currency"
               v t_currency eq_refl Ef).
    + destruct (str_eqb_spec k "language") as [-> | _]; [|now apply Hl].
      injection H as <-. rewrite sanitize_entry_language in Ev.
      now apply (sanitize_language_member v v').
Qed.

Lemma init_args_sanitized (args args' : list obj) :
  typecheck_args (annotations Market__init___def)
    (param_names Market__init___def) args = Ok tt ->
  sanitize_args (param_names Market__init___def) args = Ok args' ->
  args' = []
  \/ (exists c, args' = [VCurrency c])
  \/ (exists c name, args' = [VCurrency c; VLanguage name]).
Proof.
  change (param_names Market__init___def) with ["currency"; "language"].
  intros Ht Hs.
  destruct args as [|a args].
  { cbn in Hs. injection Hs as <-. now left. }
  cbn [typecheck_args] in Ht. cbn [sanitize_args] in Hs.
  destruct (fails_annotation _ "currency" a) as [[|]|e] eqn:Ea;
    cbn [bind] in Ht; try discriminate.
  apply (passes_annotation (annotations Market__init___def) "currency"
           a t_currency eq_refl) in Ea.
  rewrite sanitize_entry_currency in Hs.
  destruct (_sanitize_currency_value a) as [a'|e] eqn:Es; cbn [bind] in Hs;
    [|discriminate].
  destruct (sanitize_currency_member a a' Ea Es) as [c ->].
  destruct args as [|b args].
  { cbn in Hs. injection Hs as <-. right. left. eauto. }
  cbn [typecheck_args] in Ht. cbn [sanitize_args] in Hs.
  destruct (fails_annotation _ "language" b) as [[|]|e] eqn:Eb;
    cbn [bind] in Ht; try discriminate.
  rewrite sanitize_entry_language in Hs.
  destruct (_sanitize_language_value b) as [b'|e] eqn:El; cbn [bind] in Hs;
    [|discriminate].
  destruct (sanitize_language_member b b' El) as [name ->].
  destruct args as [|x args]; [|discriminate].
  cbn in Hs. injection Hs as <-. right. right. eauto.
Qed.

(** X22.  A [Market] that [__init__] has built holds a member of
    [SteamCurrency] as its currency and a member of [SteamLanguage] as its
    language, however the two were passed; building it requests nothing. *)
Theorem constructed_market_is_sanitized (args : list obj)
    (kwargs : list (str * obj)) (log log' : list request) (m : Market) :
  call Market__init__ args kwargs log = (Ok m, log') ->
  (exists c, self_currency m = VCurrency c)
  /\ (exists name, self_language m = VLanguage name)
  /\ log' = log.
Proof.
  unfold Market__init__. rewrite decorated_call.
  destruct (typecheck_args _ _ args) as [[]|e] eqn:E1; [|discriminate].
  destruct (typecheck_kwargs _ kwargs) as [[]|e] eqn:E2; [|discriminate].
  destruct (sanitize_args _ args) as [args'|e] eqn:E3; [|discriminate].
  destruct (sanitize_kwargs kwargs) as [kwargs'|e] eqn:E4; [|discriminate].
  destruct (init_kwargs_sanitized kwargs kwargs' E2 E4) as [Hc Hl].
  unfold Market__init___def, def, bindM, lift, bind_arguments. cbn [call].
  destruct (forallb _ kwargs'); [|discriminate].
  destruct (init_args_sanitized args args' E1 E3)
    as [-> | [(c & ->) | (c & name & ->)]];
    cbn [bind_positional bind_named param_name param_default optional
           parameters bind].
  - destruct (lookup "currency" kwargs') as [wc|] eqn:Ec;
      destruct (lookup "language" kwargs') as [wl|] eqn:El; cbn [bind];
      intros H; injection H as <- <-; cbn;
      repeat split; eauto.
  - destruct (lookup "currency" kwargs'); [discriminate|].
    destruct (lookup "language" kwargs') as [wl|] eqn:El; cbn [bind];
      intros H; injection H as <- <-; cbn; repeat split; eauto.
  - destruct (lookup "currency" kwargs'); [discriminate|].
    destruct (lookup "language" kwargs'); [discriminate|]. cbn [bind].
    intros H. injection H as <- <-. cbn. repeat split; eauto.
Qed.

(** ** The dictionary form without conversion *)

Lemma overviews_of_names_unconverted (self : Market) (app_id : obj)
    (names : list str) :
  (forall name, In name names ->
     exists data,
       transport (batch_request self app_id (VStr name) VNone) = Ok data) ->
  forall (result : list (obj * obj)) (log : list request),
  exists d : list (obj * obj),
    overviews_of_names self (VBool false) VNone app_id (map VStr names)
      result log
    = (Ok d,
       (log ++ map (fun name => batch_request self app_id (VStr name) VNone)
                 names)%list).
Proof.
  induction names as [|name names IH]; intros Ht result log.
  - exists result. cbn. now rewrite app_nil_r.
  - destruct (Ht name) as [data Hd]; [now left|].
    destruct (IH (fun name' H => Ht name' (or_intror H))
                (dict_update result (VStr name) (answer data))
                (log ++ [batch_request self app_id (VStr name) VNone])%list)
      as (d & Hrun).
    exists d. cbn [map overviews_of_names].
    unfold bindM at 1, _request_overview at 1.
    fold (batch_request self app_id (VStr name) VNone). rewrite Hd.
    cbn [truthy]. unfold bindM at 1, ret at 1.
    unfold bindM at 1, lift at 1, dict_set. cbn [hashable].
    rewrite Hrun. now rewrite <- app_assoc.
Qed.

Lemma overviews_of_dict_unconverted (self : Market)
    (entries : list (Z * list str)) :
  (forall e name, In e entries -> In name (snd e) ->
     exists data,
       transport (batch_request self (VInt (fst e)) (VStr name) VNone)
       = Ok data) ->
  forall (result : list (obj * obj)) (log : list request),
  exists d : list (obj * obj),
    overviews_of_dict self (VBool false) VNone
      (map (fun e => (VInt (fst e), VList (map VStr (snd e)))) entries)
      result log
    = (Ok d, (log ++ batch_requests self entries)%list).
Proof.
  induction entries as [|e entries IH]; intros Ht result log.
  - exists result. cbn. now rewrite app_nil_r.
  - destruct (overviews_of_names_unconverted self (VInt (fst e)) (snd e)
                (fun name H => Ht e name (or_introl eq_refl) H) result log)
      as (d1 & H1).
    destruct (IH (fun e' name Hin H => Ht e' name (or_intror Hin) H) d1
                (log ++ map (fun name =>
                               batch_request self (VInt (fst e)) (VStr name)
                                 VNone) (snd e))%list)
      as (d & Hrun).
    exists d. cbn [map overviews_of_dict].
    unfold bindM at 1, lift at 1. cbn [py_iter].
    unfold bindM at 1. rewrite H1, Hrun.
    unfold batch_requests. cbn [flat_map]. now rewrite <- app_assoc.
Qed.

Lemma typecheck_items_dict (entries : list (Z * list str)) :
  _typecheck_value (items_dict_of entries) (TDict [t_app_id; TList [t_str]])
  = Ok true.
Proof. exact (typecheck_entries entries). Qed.

(** X23.  With [type_conversion] off, [get_overviews_from_dict] asks once
    for every name of every entry, entry by entry and in the order given,
    each name as it was passed, and returns a mapping, provided the endpoint
    answers each of these requests. *)
Theorem get_overviews_from_dict_unconverted (self : Market)
    (entries : list (Z * list str)) (log : list request) :
  (forall e name, In e entries -> In name (snd e) ->
     exists data,
       transport (batch_request self (VInt (fst e)) (VStr name) VNone)
       = Ok data) ->
  exists d : list (obj * obj),
    call (get_overviews_from_dict self)
      [items_dict_of entries; VBool false] [] log
    = (Ok (VDict d), (log ++ batch_requests self entries)%list).
Proof.
  intros Ht.
  destruct (overviews_of_dict_unconverted self entries Ht [] log)
    as (d & Hrun).
  exists d. unfold get_overviews_from_dict. rewrite decorated_call.
  cbn [typecheck_args param_names get_overviews_from_dict_def def parameters
         annotations map param_name required optional].
  unfold fails_annotation at 1.
  cbn [lookup str_eqb char_eqb ord N.eqb Pos.eqb andb].
  rewrite typecheck_items_dict. cbn.
  unfold get_overviews_from_dict_body, bindM, lift, items_dict_of.
  cbn [py_items]. now rewrite Hrun.
Qed.

(** ** The converter, field by field *)

Lemma convert_items_values :
  forall (items acc r : json_object),
    NoDup (map fst acc ++ map fst items) ->
    convert_items ["lowest_price"; "median_price"; "volume"] items acc = Ok r ->
    exists r' : json_object,
      r = (acc ++ r')%list
      /\ forall k v,
           json_get items k = Some v ->
           exists c,
             json_get r' k = Some c
             /\ (if mem_string k ["lowest_price"; "median_price"]
                 then _price_to_float v
                 else if str_eqb k "volume"
                 then text <- py_replace v "," "" ;;
                      n <- py_int text ;; Ok (VInt n)
                 else Ok v) = Ok c.
Proof.
  clear Language_from_string.
  induction items as [|[key value] items IH]; intros acc r Hnd H.
  - cbn in H. injection H as <-. exists []. rewrite app_nil_r.
    split; [reflexivity|]. intros k v Hk. discriminate.
  - cbn [convert_items] in H.
    assert (Hcond : forall k,
              mem_string k ["lowest_price"; "median_price"; "volume"]
              && mem_string k ["lowest_price"; "median_price"]
              = mem_string k ["lowest_price"; "median_price"]).
    { intros k. cbn [mem_string].
      destruct (str_eqb k "lowest_price"), (str_eqb k "median_price"),
        (str_eqb k "volume"); reflexivity. }
    assert (Hvol : forall k,
              mem_string k ["lowest_price"; "median_price"; "volume"]
              && str_eqb k "volume" = str_eqb k "volume").
    { intros k. cbn [mem_string].
      destruct (str_eqb k "volume"); [|now rewrite andb_false_r].
      now rewrite !orb_true_r. }
    rewrite Hcond, Hvol in H.
    destruct (if mem_string key ["lowest_price"; "median_price"]
              then _price_to_float value
              else if str_eqb key "volume"
              then text <- py_replace value "," "" ;;
                   n <- py_int text ;; Ok (VInt n)
              else Ok value) as [converted|e] eqn:E; cbn [bind] in H;
      [|discriminate].
    cbn [map fst] in Hnd.
    rewrite json_set_fresh in H
      by (intros Hin; apply NoDup_remove_2 in Hnd; apply Hnd;
          apply in_or_app; now left).
    destruct (IH (acc ++ [(key, converted)])%list r) as (r' & -> & Hv);
      [ rewrite map_app, <- app_assoc; exact Hnd | exact H | ].
    exists ((key, converted) :: r'). rewrite <- app_assoc.
    split; [reflexivity|].
    intros k v Hget. cbn [json_get] in Hget |- *.
    destruct (str_eqb_spec key k) as [-> | Hne].
    + injection Hget as ->. exists converted. now split.
    + now apply Hv.
Qed.

(** X24.  With the default keys, [_overview_type_converter] returns, under
    each key of the overview: for a price key the price read by
    [_price_to_float], for the volume the integer of its text without
    commas, and for any other key the value as it was. *)
Theorem converter_field_by_field (o : json_object) (w : obj) :
  NoDup (map fst o) ->
  _overview_type_converter (Some o) None = Ok w ->
  exists r : json_object,
    w = json_dict r
    /\ forall k v,
         json_get o k = Some v ->
         exists c,
           json_get r k = Some c
           /\ (if mem_string k ["lowest_price"; "median_price"]
               then _price_to_float v
               else if str_eqb k "volume"
               then text <- py_replace v "," "" ;;
                    n <- py_int text ;; Ok (VInt n)
               else Ok v) = Ok c.
Proof.
  clear Language_from_string.
  intros Hnd H. unfold _overview_type_converter in H.
  cbn [existsb mem_string str_eqb char_eqb ord N.eqb Pos.eqb negb orb andb]
    in H.
  destruct (convert_items _ o []) as [r|e] eqn:E; cbn [bind] in H;
    [|discriminate].
  injection H as <-.
  destruct (convert_items_values o [] r Hnd E) as (r' & -> & Hv).
  exists r'. now split.
Qed.

(** ** Ill-typed arguments *)

(** X25.  The four methods that take one item turn down, with [TypeError]
    and without a request, a call whose application identifier is no integer,
    whose name is no text, or whose [type_conversion] is no [bool]. *)
Theorem item_method_rejects (returns : ty)
    (body : obj -> obj -> obj -> obj -> M obj)
    (app_id market_hash_name type_conversion : obj) (rest : list obj)
    (kwargs : list (str * obj)) (log : list request) :
  isinstance app_id C_int = false
  \/ isinstance market_hash_name C_str = false
  \/ isinstance type_conversion C_bool = false ->
  call (decorated (item_def returns body))
    (app_id :: market_hash_name :: type_conversion :: rest) kwargs log
  = (Raise TypeError, log).
Proof.
  intros H. rewrite decorated_call.
  assert (F1 : fails_annotation (item_annotations returns) "app_id" app_id
               = Ok (negb (isinstance app_id C_int))).
  { unfold fails_annotation. cbn.
    destruct app_id; reflexivity. }
  assert (F2 : fails_annotation (item_annotations returns) "market_hash_name"
                 market_hash_name
               = Ok (negb (isinstance market_hash_name C_str)))
    by reflexivity.
  assert (F3 : fails_annotation (item_annotations returns) "type_conversion"
                 type_conversion
               = Ok (negb (isinstance type_conversion C_bool)))
    by reflexivity.
  change (annotations (item_def returns body))
    with (item_annotations returns).
  change (param_names (item_def returns body))
    with ["app_id"; "market_hash_name"; "type_conversion"; "currency"].
  cbn [typecheck_args]. rewrite F1, F2, F3. cbn [bind].
  destruct (isinstance app_id C_int); cbn [negb]; [|reflexivity].
  destruct (isinstance market_hash_name C_str); cbn [negb]; [|reflexivity].
  destruct (isinstance type_conversion C_bool); cbn [negb]; [|reflexivity].
  destruct H as [H | [H | H]]; discriminate.
Qed.

End Market.

(** * Worked instances *)

Lemma price_to_float_shaped_witness :
  well_shaped sample_price_text = true
  /\ _price_to_float (VStr "1.234,56") = Ok (VFloat (binary64 1234.56)).
Proof.
  split; [reflexivity|].
  exact (price_to_float_shaped sample_price_text eq_refl).
Defined.


Lemma unknown_code_raises_ValueError_witness :
  SteamCurrency.of_value 999 = None
  /\ SteamLegacyCurrency.of_value 999 = None
  /\ _sanitize_currency_value (VInt 999) = Raise ValueError.
Proof.
  split; [reflexivity|]. split; [reflexivity|].
  exact (unknown_code_raises_ValueError 999 eq_refl eq_refl).
Defined.

Lemma get_price_answers_None_witness :
  json_get sample_item "lowest_price" = Some (VStr "$1,234.56")
  /\ call (get_price no_language (endpoint_answering sample_item)
             default_market)
       [VInt 730; VStr "AK-47 | Redline (Field-Tested)"; VStr "lowest_price"]
       [] []
     = (Ok VNone,
        [item_request default_market (VInt 730)
           (VStr "AK-47 | Redline (Field-Tested)") VNone]).
Proof.
  split; [reflexivity|].
  exact (get_price_answers_None no_language (endpoint_answering sample_item)
           default_market 730 "AK-47 | Redline (Field-Tested)" "lowest_price"
           sample_item [] eq_refl eq_refl).
Defined.

Lemma batch_unknown_item_raises_witness :
  fst (call (get_overviews no_language (endpoint_knowing "Known")
               default_market)
         [VInt 730; VList [VStr "Known"; VStr "Unknown"]] [] [])
  = Raise AttributeError
  /\ fst (call (get_overviews_from_dict no_language (endpoint_knowing "Known")
                  default_market)
            [VDict [(VInt 730, VList [VStr "Known"; VStr "Unknown"])]] [] [])
     = Raise AttributeError.
Proof.
  assert (Hknown : Forall (batch_answered (endpoint_knowing "Known")
                             default_market (VInt 730)) ["Known"]).
  { constructor; [|constructor]. eexists. eexists. split; reflexivity. }
  destruct (batch_unknown_item_raises no_language (endpoint_knowing "Known")
              default_market 730 ["Known"] "Unknown" [] [])
    as [Hlist Hdict].
  split; [exact (Hlist Hknown eq_refl) | exact (Hdict Hknown eq_refl)].
Defined.

Lemma sample_item_answered (r : request) :
  answered (endpoint_answering sample_item) r.
Proof.
  exists sample_item. eexists. split; [reflexivity|].
  vm_compute. reflexivity.
Defined.


(** C2, as stated, fails: the facade does not behave as it would with the
    arguments sanitised before they are validated.  A number passed as item
    name is turned down by the validator, where the sanitiser, run first,
    would have failed on it; a price type passed as text is accepted, where
    the validator, run on the sanitised tuple, would have turned it down. *)
Lemma validation_not_after_sanitization :
  call (get_overview no_language empty_endpoint default_market)
    [VInt 730; VInt 5] [] []
  <> call (sanitize_then_validate no_language
             (get_overview_def empty_endpoint default_market))
       [VInt 730; VInt 5] [] []
  /\ call (get_price no_language (endpoint_answering sample_item)
             default_market)
       [VInt 730; VStr "Known"; VStr "lowest_price"] [] []
     <> call (sanitize_then_validate no_language
                (get_price_def (endpoint_answering sample_item) default_market))
          [VInt 730; VStr "Known"; VStr "lowest_price"] [] [].
Proof. split; vm_compute; discriminate. Qed.

(** ** Worked instances of the further properties *)

Lemma price_to_float_skips_prefix_witness :
  has_digit "$" = false
  /\ _price_to_float (VStr "$1,234.56") = _price_to_float (VStr "1,234.56").
Proof.
  split; [reflexivity|].
  exact (price_to_float_skips_prefix "$" "1,234.56" eq_refl).
Defined.

Lemma price_to_float_embedded_witness :
  has_digit "EUR " = false
  /\ well_shaped sample_price_text = true
  /\ ends_price " net" = true
  /\ _price_to_float (VStr "EUR 1.234,56 net")
     = Ok (VFloat (binary64 1234.56)).
Proof.
  split; [reflexivity|]. split; [reflexivity|]. split; [reflexivity|].
  exact (price_to_float_embedded "EUR " " net" sample_price_text
           eq_refl eq_refl eq_refl).
Defined.

Lemma currency_codes_witness :
  SteamCurrency.of_value 3 = Some SteamCurrency.EUR
  /\ SteamCurrency.value SteamCurrency.EUR = 3
  /\ 1 <= 47 <= 47
  /\ exists c, SteamCurrency.of_value 47 = Some c.
Proof.
  destruct currency_codes as (_ & Hinv & Hrange).
  split; [reflexivity|].
  split; [exact (Hinv 3 SteamCurrency.EUR eq_refl)|].
  assert (H : 1 <= 47 <= 47) by lia.
  split; [exact H|]. exact (proj2 (Hrange 47) H).
Defined.

Lemma legacy_currencies_listed_witness :
  (33 = 33 \/ 33 = 36 \/ 42 <= 33 <= 47)
  /\ in_LegacyCurrency 33 = true.
Proof.
  assert (H : 33 = 33 \/ 33 = 36 \/ 42 <= 33 <= 47) by (left; reflexivity).
  split; [exact H|].
  exact (proj2 (proj2 legacy_currencies_listed 33) H).
Defined.

Lemma sanitized_code_keeps_code_witness :
  _sanitize_currency_value (VInt 3) = Ok (VCurrency SteamCurrency.EUR)
  /\ exists c, VCurrency SteamCurrency.EUR = VCurrency c
               /\ SteamCurrency.value c = 3
               /\ 1 <= 3 <= 47 /\ in_LegacyCurrency 3 = false.
Proof.
  split; [reflexivity|].
  exact (sanitized_code_keeps_code 3 (VCurrency SteamCurrency.EUR) eq_refl).
Defined.

Lemma member_and_code_agree_witness :
  in_LegacyCurrency (SteamCurrency.value SteamCurrency.EUR) = false
  /\ _sanitize_currency_value (VInt 3) = Ok (VCurrency SteamCurrency.EUR)
  /\ _sanitize_currency_value (VCurrency SteamCurrency.EUR)
     = Ok (VCurrency SteamCurrency.EUR).
Proof.
  split; [reflexivity|].
  exact (member_and_code_agree SteamCurrency.EUR eq_refl).
Defined.

Lemma sanitized_currency_is_member_witness :
  _typecheck_value (VBool true) t_currency = Ok true
  /\ _sanitize_currency_value (VBool true) = Ok (VCurrency SteamCurrency.USD)
  /\ (exists c, VCurrency SteamCurrency.USD = VCurrency c)
  /\ _typecheck_value (VCurrency SteamCurrency.USD) t_currency = Ok true
  /\ _sanitize_currency_value (VCurrency SteamCurrency.USD)
     = Ok (VCurrency SteamCurrency.USD).
Proof.
  split; [reflexivity|]. split; [reflexivity|].
  exact (sanitized_currency_is_member (VBool true)
           (VCurrency SteamCurrency.USD) eq_refl eq_refl).
Defined.

Lemma validated_app_id_sanitizes_witness :
  _typecheck_value (VAppID 730) t_app_id = Ok true
  /\ (exists n, int_value (VAppID 730) = Some n
                /\ _sanitize_app_id_value (VAppID 730) = Ok (VInt n))
  /\ _typecheck_value (VList [VInt 440; VAppID 730]) (TList [t_app_id])
     = Ok true
  /\ (exists ns,
        _sanitize_app_id_value (VList [VInt 440; VAppID 730])
        = Ok (VList (map VInt ns))
        /\ Forall2 (fun v n => int_value v = Some n)
             [VInt 440; VAppID 730] ns).
Proof.
  destruct validated_app_id_sanitizes as [Hone Hlist].
  split; [reflexivity|]. split; [exact (Hone (VAppID 730) eq_refl)|].
  split; [reflexivity|]. exact (Hlist [VInt 440; VAppID 730] eq_refl).
Defined.

Lemma sanitized_name_witness :
  has_slash "Sticker" = false
  /\ _sanitize_market_hash_name_value (VStr "Sticker") = Ok (VStr "Sticker").
Proof.
  split; [reflexivity|].
  destruct (sanitized_name "Sticker") as (s' & Hs & _ & _ & Hsame & _).
  rewrite (Hsame eq_refl) in Hs. exact Hs.
Defined.

Lemma get_price_unknown_type_witness :
  is_valid_price_type (VStr "average_price") = false
  /\ call (get_price no_language (endpoint_answering sample_item)
             default_market)
       [VInt 730; VStr "Known"; VStr "average_price"] [] []
     = (Raise ValueError, []).
Proof.
  split; [reflexivity|].
  exact (get_price_unknown_type no_language (endpoint_answering sample_item)
           default_market 730 "Known" "average_price" [] eq_refl).
Defined.

Lemma surplus_argument_IndexError_witness :
  List.length [VInt 730; VStr "Known"; VBool true]
  = List.length (parameters (get_volume_def empty_endpoint default_market))
  /\ call (get_volume no_language empty_endpoint default_market)
       [VInt 730; VStr "Known"; VBool true; VInt 3] [] []
     = (Raise IndexError, []).
Proof.
  split; [reflexivity|].
  exact (surplus_argument_IndexError no_language
           (get_volume_def empty_endpoint default_market)
           [VInt 730; VStr "Known"; VBool true] (VInt 3) [] [] []
           eq_refl eq_refl).
Defined.

Lemma get_overviews_length_mismatch_witness :
  List.length [730] <> List.length ["Known"; "Unknown"]
  /\ call (get_overviews no_language empty_endpoint default_market)
       [VList [VInt 730]; VList [VStr "Known"; VStr "Unknown"]] [] []
     = (Raise IndexError, []).
Proof.
  assert (H : List.length [730] <> List.length ["Known"; "Unknown"])
    by discriminate.
  split; [exact H|].
  exact (get_overviews_length_mismatch no_language empty_endpoint
           default_market [730] ["Known"; "Unknown"] [] H).
Defined.

Lemma get_overviews_unconverted_witness :
  exists d : list (obj * obj),
    call (get_overviews no_language (endpoint_knowing "Known") default_market)
      [VInt 730; VList [VStr "Known"; VStr "Un/known"]; VBool false] [] []
    = (Ok (VDict d),
       [batch_request default_market (VInt 730) (VStr "Known") VNone;
        batch_request default_market (VInt 730) (VStr "Un-known") VNone])
    /\ dict_get d (VStr "Known") = Some (json_dict sample_item)
    /\ dict_get d (VStr "Un-known") = Some VNone
    /\ dict_get d (VStr "Un/known") = None.
Proof.
  destruct (get_overviews_unconverted no_language (endpoint_knowing "Known")
              default_market 730 ["Known"; "Un/known"]
              (fun name => if str_eqb name "Known"
                           then Some sample_item else None) [])
    as (d & Hrun & Hin & Hout).
  - intros name [<- | [<- | []]]; reflexivity.
  - exists d. split; [exact Hrun|].
    split; [exact (Hin "Known" (or_introl eq_refl))|].
    split; [exact (Hin "Un-known" (or_intror (or_introl eq_refl)))|].
    apply Hout. intros [H | [H | []]]; discriminate.
Defined.

Lemma sample_item_keys_distinct : NoDup (map fst sample_item).
Proof.
  repeat constructor; cbn; intuition discriminate.
Defined.

Lemma converter_keeps_fields_witness :
  NoDup (map fst sample_item)
  /\ exists (w : obj) (r : json_object),
       _overview_type_converter (Some sample_item) None = Ok w
       /\ w = json_dict r
       /\ map fst r = ["success"; "lowest_price"; "volume"; "median_price"]
       /\ json_get r "success" = Some (VBool true).
Proof.
  split; [exact sample_item_keys_distinct|].
  destruct (_overview_type_converter (Some sample_item) None) as [w|e] eqn:E;
    [|vm_compute in E; discriminate].
  destruct (converter_keeps_fields sample_item None w
              sample_item_keys_distinct E) as (r & Hw & Hk & Hv).
  exists w, r. split; [reflexivity|]. split; [exact Hw|].
  split; [exact Hk|]. exact (Hv "success" (VBool true) eq_refl eq_refl).
Defined.

Lemma get_volume_absent_witness :
  call (get_volume no_language empty_endpoint default_market)
    [VInt 730; VStr "Unknown"] [] []
  = (Ok VNone, [item_request default_market (VInt 730) (VStr "Unknown") VNone]).
Proof.
  exact (get_volume_absent no_language empty_endpoint default_market 730
           "Unknown" None [] eq_refl I).
Defined.

Lemma get_volume_reads_count_witness :
  json_get sample_item "volume" = Some (VStr "1,024")
  /\ digits_and_commas "1,024" = true
  /\ has_digit "1,024" = true
  /\ call (get_volume no_language (endpoint_answering sample_item)
             default_market)
       [VInt 730; VStr "Known"] [] []
     = (Ok (VInt 1024),
        [item_request default_market (VInt 730) (VStr "Known") VNone]).
Proof.
  split; [reflexivity|]. split; [reflexivity|]. split; [reflexivity|].
  exact (get_volume_reads_count no_language (endpoint_answering sample_item)
           default_market 730 "Known" "1,024" sample_item []
           eq_refl eq_refl eq_refl eq_refl).
Defined.

Lemma get_prices_absent_witness :
  json_get unpriced_item "median_price" = None
  /\ call (get_prices no_language empty_endpoint default_market)
       [VInt 730; VStr "Unknown"] [] []
     = (Ok VNone,
        [item_request default_market (VInt 730) (VStr "Unknown") VNone])
  /\ call (get_prices no_language
             (endpoint_answering [("success", VBool true)]) default_market)
       [VInt 730; VStr "Known"] [] []
     = (Ok VNone,
        [item_request default_market (VInt 730) (VStr "Known") VNone]).
Proof.
  split; [reflexivity|]. split.
  - exact (get_prices_absent no_language empty_endpoint default_market 730
             "Unknown" None [] eq_refl I).
  - exact (get_prices_absent no_language
             (endpoint_answering [("success", VBool true)]) default_market 730
             "Known" (Some [("success", VBool true)]) [] eq_refl
             (conj eq_refl eq_refl)).
Defined.

Lemma named_price_reads_field_witness :
  call (get_lowest_price no_language (endpoint_answering sample_item)
          default_market) [VInt 730; VStr "Known"] [] []
  = (Ok (VFloat (binary64 1234.56)),
     [item_request default_market (VInt 730) (VStr "Known") VNone])
  /\ call (get_median_price no_language (endpoint_answering sample_item)
             default_market) [VInt 730; VStr "Known"] [] []
     = (Ok (VFloat (binary64 1200.00)),
        [item_request default_market (VInt 730) (VStr "Known") VNone]).
Proof.
  exact (named_price_reads_field no_language (endpoint_answering sample_item)
           default_market 730 "Known" sample_item [] eq_refl).
Defined.

Lemma sanitized_items_dict_witness :
  _sanitize_market_items_dict
    (VDict [(VAppID 730, VTuple [VStr "Known"])])
  = Ok (VDict [(VInt 730, VList [VStr "Known"])])
  /\ exists d : list (obj * obj),
       VDict [(VInt 730, VList [VStr "Known"])] = VDict d
       /\ Forall (fun kv => (exists n, fst kv = VInt n)
                            /\ (exists l, snd kv = VList l)) d.
Proof.
  split; [reflexivity|].
  exact (sanitized_items_dict (VDict [(VAppID 730, VTuple [VStr "Known"])])
           (VDict [(VInt 730, VList [VStr "Known"])]) eq_refl).
Defined.

Lemma constructed_market_is_sanitized_witness :
  call (Market__init__ no_language) [VStr "eur"] [] []
  = (Ok {| self_currency := VCurrency SteamCurrency.EUR;
           self_language := VLanguage "ENGLISH" |}, [])
  /\ exists c, VCurrency SteamCurrency.EUR = VCurrency c.
Proof.
  split; [reflexivity|].
  exact (proj1 (constructed_market_is_sanitized no_language [VStr "eur"] [] []
                  [] {| self_currency := VCurrency SteamCurrency.EUR;
                        self_language := VLanguage "ENGLISH" |} eq_refl)).
Defined.

Lemma get_overviews_from_dict_unconverted_witness :
  exists d : list (obj * obj),
    call (get_overviews_from_dict no_language empty_endpoint default_market)
      [items_dict_of [(730, ["A/B"; "C"]); (440, ["D"])]; VBool false] [] []
    = (Ok (VDict d),
       [batch_request default_market (VInt 730) (VStr "A/B") VNone;
        batch_request default_market (VInt 730) (VStr "C") VNone;
        batch_request default_market (VInt 440) (VStr "D") VNone]).
Proof.
  apply (get_overviews_from_dict_unconverted no_language empty_endpoint
           default_market [(730, ["A/B"; "C"]); (440, ["D"])] []).
  intros e name _ _. exists None. reflexivity.
Defined.

Lemma converter_field_by_field_witness :
  NoDup (map fst sample_item)
  /\ exists (w : obj) (r : json_object),
       _overview_type_converter (Some sample_item) None = Ok w
       /\ w = json_dict r
       /\ exists c, json_get r "volume" = Some c
                    /\ (text <- py_replace (VStr "1,024") "," "" ;;
                        n <- py_int text ;; Ok (VInt n)) = Ok c.
Proof.
  split; [exact sample_item_keys_distinct|].
  destruct (_overview_type_converter (Some sample_item) None) as [w|e] eqn:E;
    [|vm_compute in E; discriminate].
  destruct (converter_field_by_field sample_item w
              sample_item_keys_distinct E) as (r & Hw & Hv).
  exists w, r. split; [reflexivity|]. split; [exact Hw|].
  exact (Hv "volume" (VStr "1,024") eq_refl).
Defined.

Lemma item_method_rejects_witness :
  isinstance (VStr "730") C_int = false
  /\ call (get_overview no_language empty_endpoint default_market)
       [VStr "730"; VStr "Known"; VBool true] [] []
     = (Raise TypeError, []).
Proof.
  split; [reflexivity|].
  exact (item_method_rejects no_language _ _ (VStr "730") (VStr "Known")
           (VBool true) [] [] [] (or_introl eq_refl)).
Defined.
